(** * Si5324 bring-up on the KC705 DRTIO satellite

    Shallow embedding of [artiq/gateware/targets/kc705_drtio_satellite.py]:
    the I2C program generator [get_i2c_program], the reset/ready timing
    gate [Si5324ResetClock] and the wiring of the gate to the sequencer in
    [Satellite.__init__]. *)

From Stdlib Require Import ZArith List Bool Lia SpecFloat Zpower.
From Stdlib Require String.
Import ListNotations.
Local Open Scope Z_scope.

(** ** Python numbers

    [sys_clk_freq] is a Python [int].  The three expressions
    [sys_clk_freq/1e3], [sys_clk_freq*1.1e-6] and [sys_clk_freq*11e-3]
    convert it to a binary64 float, operate in binary64, and [int(...)]
    truncates the result toward zero.  Binary64 is [SpecFloat] at
    precision 53 and maximal exponent 1024. *)
Module PyFloat.

Definition prec : Z := 53.
Definition emax : Z := 1024.

Definition float := spec_float.

(** [float(n)] for a Python int: correctly rounded (ties to even),
    [OverflowError] when the magnitude is out of range. *)
Definition of_int (n : Z) : option float :=
  match binary_normalize prec emax n 0 false with
  | S754_infinity _ | S754_nan => None
  | x => Some x
  end.

(** [int(x)] for a float: truncation toward zero, [OverflowError] on an
    infinity and [ValueError] on a NaN.  [trunc m e] is the integer
    part of the magnitude [m * 2^e]. *)
Definition trunc (m : positive) (e : Z) : Z :=
  if 0 <=? e then Zpos m * 2 ^ e else Zpos m / 2 ^ (- e).

Definition to_int (x : float) : option Z :=
  match x with
  | S754_zero _ => Some 0
  | S754_finite s m e => Some (if s then - trunc m e else trunc m e)
  | S754_infinity _ | S754_nan => None
  end.

Definition mul : float -> float -> float := SFmul prec emax.

(** True division; Python raises [ZeroDivisionError] on a zero divisor. *)
Definition div (x y : float) : option float :=
  match y with
  | S754_zero _ => None
  | _ => Some (SFdiv prec emax x y)
  end.

(** The literals of the source, as the doubles a correctly rounding
    parser yields: [1e3 = 0x1.f4p+9], [1.1e-6 = 0x1.27476ca61b882p-20],
    [11e-3 = 0x1.6872b020c49bap-7]. *)
Definition lit_1e3 : float := S754_finite false 0x1f400000000000 (-43).
Definition lit_1_1e_6 : float := S754_finite false 0x127476ca61b882 (-72).
Definition lit_11e_3 : float := S754_finite false 0x16872b020c49ba (-59).

(** [int(n * c)] and [int(n / c)] for an int [n] and a float [c]. *)
Definition int_mul (n : Z) (c : float) : option Z :=
  match of_int n with
  | Some x => to_int (mul x c)
  | None => None
  end.

Definition int_div (n : Z) (c : float) : option Z :=
  match of_int n with
  | Some x => match div x c with
              | Some q => to_int q
              | None => None
              end
  | None => None
  end.

End PyFloat.

(** A float that is a zero or a finite number with mantissa below
    [2^K] and exponent at most [E]. *)
Definition bounded_float (K E : Z) (x : PyFloat.float) : Prop :=
  match x with
  | S754_zero _ => True
  | S754_finite _ m e => Zpos m < 2 ^ K /\ e <= E
  | _ => False
  end.

(** A float is non-negative when it is a zero or carries no sign bit. *)
Definition nonneg_float (x : PyFloat.float) : Prop :=
  match x with
  | S754_finite s _ _ => s = false
  | _ => True
  end.

(** ** Sequencer instructions

    The constructors [InstWrite], [InstWait] and [InstEnd] the source
    imports from [misoc.cores.sequencer]; each carries the two integers
    the source passes. *)
Inductive Inst : Type :=
| InstWrite (address data : Z)
| InstWait (address value : Z)
| InstEnd.

(** ** Divider constants and the I2C sequence of [get_i2c_program] *)
Definition N1_HS : Z := 6.
Definition NC1_LS : Z := 7.
Definition N2_HS : Z := 6.
Definition N2_LS : Z := 20111.
Definition N31 : Z := 2513.
Definition N32 : Z := 4596.

(** [i2c_sequence], entry by entry; [<<], [>>], [&] and [|] of Python
    ints are [Z.shiftl], [Z.shiftr], [Z.land] and [Z.lor], and [&] binds
    tighter than [|].  Binary literals are written in hexadecimal:
    [0b01010000 = 0x50], [0b11100100 = 0xe4], [0b0010 = 2], [0b0101 = 5],
    [0b10010010 = 0x92]. *)
Definition i2c_sequence : list (list Z) :=
  [ (* PCA9548: select channel 7 *)
    [Z.shiftl 0x74 1; Z.shiftl 1 7];
    (* Si5324: configure *)
    [Z.shiftl 0x68 1; 0; 0x50];
    [Z.shiftl 0x68 1; 1; 0xe4];
    [Z.shiftl 0x68 1; 2; Z.lor 2 (Z.shiftl 4 4)];
    [Z.shiftl 0x68 1; 3; Z.lor 5 0x10];
    [Z.shiftl 0x68 1; 4; 0x92];
    [Z.shiftl 0x68 1; 6; 0x07];
    [Z.shiftl 0x68 1; 25; Z.land (Z.shiftl N1_HS 5) 0xff];
    [Z.shiftl 0x68 1; 31; Z.land (Z.shiftr NC1_LS 16) 0xff];
    [Z.shiftl 0x68 1; 32; Z.land (Z.shiftr NC1_LS 8) 0xff];
    [Z.shiftl 0x68 1; 33; Z.land NC1_LS 0xff];
    [Z.shiftl 0x68 1; 40; Z.lor (Z.land (Z.shiftl N2_HS 5) 0xff)
                                (Z.land (Z.shiftr N2_LS 16) 0xff)];
    [Z.shiftl 0x68 1; 41; Z.land (Z.shiftr N2_LS 8) 0xff];
    [Z.shiftl 0x68 1; 42; Z.land N2_LS 0xff];
    [Z.shiftl 0x68 1; 43; Z.land (Z.shiftr N31 16) 0xff];
    [Z.shiftl 0x68 1; 44; Z.land (Z.shiftr N31 8) 0xff];
    [Z.shiftl 0x68 1; 45; Z.land N31 0xff];
    [Z.shiftl 0x68 1; 46; Z.land (Z.shiftr N32 16) 0xff];
    [Z.shiftl 0x68 1; 47; Z.land (Z.shiftr N32 8) 0xff];
    [Z.shiftl 0x68 1; 48; Z.land N32 0xff];
    [Z.shiftl 0x68 1; 137; 0x01];
    [Z.shiftl 0x68 1; 136; 0x40] ].

(** ** Tick counts of [Si5324ResetClock.__init__] *)
Definition reset_val (sys_clk_freq : Z) : option Z :=
  PyFloat.int_mul sys_clk_freq PyFloat.lit_1_1e_6.

Definition ready_val (sys_clk_freq : Z) : option Z :=
  PyFloat.int_mul sys_clk_freq PyFloat.lit_11e_3.

(** [sys_clk_freq] of [Satellite.__init__]. *)
Definition sys_clk_freq : Z := 156000000.

(** ** The reset/ready gate [Si5324ResetClock]

    The registers of the module.  The two counters are unsigned signals
    sized for [0 .. reset_val] and [0 .. ready_val]; they are only
    decremented when non-zero, so no wrap-around can occur and they are
    modelled in [Z]. *)
Record Si5324ResetClock : Type := {
  si5324_not_ready : bool;
  reset_done : bool;
  si5324_rst_n : bool;
  reset_ctr : Z;
  ready_ctr : Z
}.

(** Register reset values: [si5324_not_ready = Signal(reset=1)],
    [reset_done = Signal()], the counters start at their [reset=]. *)
Definition gate_init (reset_val ready_val : Z) : Si5324ResetClock :=
  {| si5324_not_ready := true;
     reset_done := false;
     si5324_rst_n := false;
     reset_ctr := reset_val;
     ready_ctr := ready_val |}.

(** One edge of the system clock: the two [self.sync] blocks, every
    right-hand side read from the registers before the edge. *)
Definition gate_tick (g : Si5324ResetClock) : Si5324ResetClock :=
  {| si5324_not_ready :=
       if reset_done g
       then (if negb (ready_ctr g =? 0) then si5324_not_ready g else false)
       else si5324_not_ready g;
     reset_done :=
       if negb (reset_ctr g =? 0) then reset_done g else true;
     si5324_rst_n :=
       if negb (reset_ctr g =? 0) then si5324_rst_n g else true;
     reset_ctr :=
       if negb (reset_ctr g =? 0) then reset_ctr g - 1 else reset_ctr g;
     ready_ctr :=
       if reset_done g
       then (if negb (ready_ctr g =? 0) then ready_ctr g - 1 else ready_ctr g)
       else ready_ctr g |}.

(** The gate after [n] clock edges from power-up. *)
Definition gate_after (reset_val ready_val : Z) (n : N) : Si5324ResetClock :=
  N.iter n gate_tick (gate_init reset_val ready_val).

(** [Signal(max=max, reset=reset)] of migen, the library both counters
    come from: the constructor takes [min = 0], makes the upper bound
    inclusive ([max -= 1]) and asserts [min < max] before it sizes the
    register, so a counter whose start value is not positive is refused
    with an AssertionError ([None]).  What is kept of the signal here is its
    reset value. *)
Definition Signal_max (max reset : Z) : option Z :=
  if 0 <? max - 1 then Some reset else None.

(** Construction of the module for a frequency, in the order of the source:
    [reset_val], the signal [reset_ctr], [ready_val], the signal
    [ready_ctr].  [None] is an exception of [__init__]: the OverflowError of
    a float conversion or the AssertionError of a [Signal]. *)
Definition Si5324ResetClock_init (sys_clk_freq : Z) : option Si5324ResetClock :=
  match reset_val sys_clk_freq with
  | None => None
  | Some reset_val =>
      match Signal_max (reset_val + 1) reset_val with
      | None => None
      | Some reset_ctr =>
          match ready_val sys_clk_freq with
          | None => None
          | Some ready_val =>
              match Signal_max (ready_val + 1) ready_val with
              | None => None
              | Some ready_ctr => Some (gate_init reset_ctr ready_ctr)
              end
          end
      end
  end.

(** Events seen by the gate.  The system clock domain of the satellite
    is declared [reset_less], so the only re-initialisation is a reload
    of the register reset values; [ExtReset] is that reload. *)
Inductive gate_event : Type := Tick | ExtReset.

Definition gate_step (reset_val ready_val : Z)
    (g : Si5324ResetClock) (ev : gate_event) : Si5324ResetClock :=
  match ev with
  | Tick => gate_tick g
  | ExtReset => gate_init reset_val ready_val
  end.

Definition gate_exec (reset_val ready_val : Z) (evs : list gate_event)
  : Si5324ResetClock :=
  fold_left (gate_step reset_val ready_val) evs (gate_init reset_val ready_val).

(** Number of ticks since power-up or the last [ExtReset]. *)
Definition ticks_since_reset (evs : list gate_event) : N :=
  fold_left (fun n ev => match ev with Tick => N.succ n | ExtReset => 0%N end)
            evs 0%N.

Inductive gate_reachable (reset_val ready_val : Z) : Si5324ResetClock -> Prop :=
| reach_init : gate_reachable reset_val ready_val (gate_init reset_val ready_val)
| reach_step g ev :
    gate_reachable reset_val ready_val g ->
    gate_reachable reset_val ready_val (gate_step reset_val ready_val g ev).

(** The phases of the gate, read off its registers. *)
Inductive phase : Type := ResetHold | ReadySettle | Ready.

Definition gate_phase (g : Si5324ResetClock) : phase :=
  if si5324_not_ready g
  then (if reset_done g then ReadySettle else ResetHold)
  else Ready.

Definition phase_rank (p : phase) : Z :=
  match p with ResetHold => 0 | ReadySettle => 1 | Ready => 2 end.

Definition next_phase (p : phase) : phase :=
  match p with ResetHold => ReadySettle | _ => Ready end.

(** The counter a phase counts on. *)
Definition active_ctr (g : Si5324ResetClock) : Z :=
  match gate_phase g with
  | ResetHold => reset_ctr g
  | ReadySettle => ready_ctr g
  | Ready => 0
  end.

(** The registers after [n] edges from power-up, in closed form (shown
    equal to [gate_after] below). *)
Definition gate_at (R S n : Z) : Si5324ResetClock :=
  {| si5324_not_ready := n <=? R + S + 1;
     reset_done := R <? n;
     si5324_rst_n := R <? n;
     reset_ctr := Z.max 0 (R - n);
     ready_ctr := Z.min S (Z.max 0 (R + 1 + S - n)) |}.

(** Ceiling of [f * num / den], the tick count the specification words
    ask for ([ceil(f * 1.1e-6)] is [spec_ceil f 11 10000000],
    [ceil(f * 11e-3)] is [spec_ceil f 11 1000]). *)
Definition spec_ceil (f num den : Z) : Z := - ((- (f * num)) / den).

(** The divider registers as the specification words them, for the
    documented constants: register number and byte.  [byte_of n i] is
    byte [i] of [n], byte 0 the least significant. *)
Definition byte_of (n : Z) (i : Z) : Z := Z.land (Z.shiftr n (8 * i)) 0xff.

Definition spec_divider_registers : list (Z * Z) :=
  [ (25, Z.land (Z.shiftl 6 5) 0xff);
    (31, byte_of 7 2); (32, byte_of 7 1); (33, byte_of 7 0);
    (40, Z.lor (Z.land (Z.shiftl 6 5) 0xff) (Z.land (Z.shiftr 20111 16) 0xff));
    (41, byte_of 20111 1); (42, byte_of 20111 0);
    (43, byte_of 2513 2); (44, byte_of 2513 1); (45, byte_of 2513 0);
    (46, byte_of 4596 2); (47, byte_of 4596 1); (48, byte_of 4596 0) ].

(** ** The sequencer

    [Satellite.__init__] instantiates [Sequencer] (misoc) under a
    [ResetInserter] (migen); neither is part of the sources.  The
    definitions of this part follow section 4.2 of the specification. *)

(** Modelled from the spec: the [Sequencer] of misoc is missing; these
    are the states of section 4.2.  [Idle] is the state after reset,
    [Executing pc issued] inspects [program[pc]], where [issued] records
    that the write of a [Write] instruction has already been handed to
    the bus controller and the sequencer is waiting for its completion,
    and [Halted] is the state after [End]. *)
Inductive seq_state : Type :=
| Idle
| Executing (pc : nat) (issued : bool)
| Halted.

(** Modelled from the spec: what the missing misoc [Sequencer] sees of
    the bus controller during a tick (sections 4.2 and 4.3): whether the
    last transaction is complete, and the value a read of each address
    returns. *)
Record bus_view : Type := {
  complete : bool;
  read : Z -> Z
}.

(** Modelled from the spec: the instruction cases of the transition
    rule of section 4.2 (the misoc [Sequencer] is missing).  A [Write]
    is issued on one tick and the program counter advances on a later
    tick on which the bus reports the transaction complete; a
    [WaitUntil] issues nothing and advances on a tick on which the read
    equals the expected value; [End] halts.  The result is the next
    state and the bus write issued during the tick, if any.  Past the
    end of the program there is no instruction to inspect and nothing
    happens. *)
Definition seq_exec (program : list Inst) (bus : bus_view)
    (pc : nat) (issued : bool) : seq_state * option (Z * Z) :=
  match nth_error program pc with
  | Some (InstWrite address data) =>
      if issued
      then (if complete bus then (Executing (S pc) false, None)
            else (Executing pc true, None))
      else (Executing pc true, Some (address, data))
  | Some (InstWait address value) =>
      if read bus address =? value
      then (Executing (S pc) false, None)
      else (Executing pc false, None)
  | Some InstEnd => (Halted, None)
  | None => (Executing pc issued, None)
  end.

(** Modelled from the spec: the transition rule of section 4.2,
    evaluated once per tick (the misoc [Sequencer] and the migen
    [ResetInserter] are missing): held in reset, the sequencer is forced
    to [Idle] and takes no bus action; halted, it does nothing;
    otherwise it inspects [program[pc]]. *)
Definition seq_step (program : list Inst) (reset : bool) (bus : bus_view)
    (q : seq_state) : seq_state * option (Z * Z) :=
  if reset then (Idle, None)
  else match q with
       | Halted => (Halted, None)
       | Idle => seq_exec program bus 0 false
       | Executing pc issued => seq_exec program bus pc issued
       end.

(** Modelled from the spec: the missing misoc [Sequencer] run, by the
    rule of section 4.2, over a list of per-tick inputs (reset line and
    bus view), collecting the bus writes it issues. *)
Fixpoint seq_run (program : list Inst) (inputs : list (bool * bus_view))
    (q : seq_state) : seq_state * list (option (Z * Z)) :=
  match inputs with
  | [] => (q, [])
  | (reset, bus) :: rest =>
      let '(q', w) := seq_step program reset bus q in
      let '(q'', ws) := seq_run program rest q' in
      (q'', w :: ws)
  end.

(** Whether the sequencer, in state [q], has a write still to issue for
    the instruction it is at. *)
Definition may_issue (q : seq_state) : bool :=
  match q with
  | Idle => true
  | Executing _ issued => negb issued
  | Halted => false
  end.

(** The sequencer is at instruction [pc] and has not halted; [Idle] is
    at instruction 0. *)
Definition at_pc (pc : nat) (q : seq_state) : Prop :=
  match q with
  | Idle => pc = 0%nat
  | Executing pc' _ => pc' = pc
  | Halted => False
  end.

(** The sequencer has not advanced past instruction [pc]. *)
Definition not_past (pc : nat) (q : seq_state) : Prop :=
  match q with
  | Executing pc' _ => (pc' <= pc)%nat
  | Idle | Halted => True
  end.

(** Register addresses and command bits of [misoc.cores.i2c], which the
    source imports by name; the module is not part of the sources, so
    they are parameters of everything that follows. *)
Class I2CRegisters : Type := {
  I2C_XFER_ADDR : Z;
  I2C_CONFIG_ADDR : Z;
  I2C_WRITE : Z;
  I2C_STOP : Z;
  I2C_START : Z;
  I2C_IDLE : Z
}.

Section I2C.

Context {regs : I2CRegisters}.

(** *** [get_i2c_program] *)

(** The inner loop [for octet in subseq: program += [...]]. *)
Definition emit_octets (program : list Inst) (subseq : list Z) : list Inst :=
  fold_left
    (fun program octet =>
       program ++ [InstWrite I2C_XFER_ADDR (Z.lor I2C_WRITE octet);
                   InstWait I2C_XFER_ADDR I2C_IDLE])
    subseq program.

(** The body of the outer loop [for subseq in i2c_sequence]. *)
Definition emit_subseq (program : list Inst) (subseq : list Z) : list Inst :=
  let program := program ++ [InstWrite I2C_XFER_ADDR I2C_START;
                             InstWait I2C_XFER_ADDR I2C_IDLE] in
  let program := emit_octets program subseq in
  program ++ [InstWrite I2C_XFER_ADDR I2C_STOP;
              InstWait I2C_XFER_ADDR I2C_IDLE].

(** [None] stands for the exception [int(sys_clk_freq/1e3)] raises
    when the frequency does not fit a float. *)
Definition get_i2c_program (sys_clk_freq : Z) : option (list Inst) :=
  match PyFloat.int_div sys_clk_freq PyFloat.lit_1e3 with
  | None => None
  | Some khz =>
      let program := [InstWrite I2C_CONFIG_ADDR khz] in
      let program := fold_left emit_subseq i2c_sequence program in
      Some (program ++ [InstEnd])
  end.

(** The instructions one sub-sequence contributes, written flat. *)
Definition transaction (subseq : list Z) : list Inst :=
  [InstWrite I2C_XFER_ADDR I2C_START; InstWait I2C_XFER_ADDR I2C_IDLE]
  ++ flat_map (fun octet =>
                 [InstWrite I2C_XFER_ADDR (Z.lor I2C_WRITE octet);
                  InstWait I2C_XFER_ADDR I2C_IDLE]) subseq
  ++ [InstWrite I2C_XFER_ADDR I2C_STOP; InstWait I2C_XFER_ADDR I2C_IDLE].

(** A bus command followed by the wait for its completion. *)
Definition await (command : Z) : list Inst :=
  [InstWrite I2C_XFER_ADDR command; InstWait I2C_XFER_ADDR I2C_IDLE].

(** The commands written to the transfer register, in program order. *)
Definition xfer_commands : list Z :=
  flat_map (fun subseq =>
              I2C_START :: map (Z.lor I2C_WRITE) subseq ++ [I2C_STOP])
           i2c_sequence.

(** *** The bus controller

    [Satellite.__init__] instantiates [I2CMaster] (misoc), which is not
    part of the sources; section 4.3 of the specification gives its
    contract. *)

(** Modelled from the spec: the status of the missing misoc
    [I2CMaster], section 4.3. *)
Inductive bus_status : Type := BusIdle | BusBusy.

(** Modelled from the spec: the missing misoc [I2CMaster] as far as
    section 4.3 describes it: its status, and whether a request was
    ever made while it was busy (the caller error of section 4.3). *)
Record BusController : Type := {
  status : bus_status;
  caller_error : bool
}.

(** Modelled from the spec: the missing [I2CMaster] starts idle. *)
Definition bus_init : BusController :=
  {| status := BusIdle; caller_error := false |}.

(** Modelled from the spec: [status()] of section 4.3 as a boolean (the
    misoc [I2CMaster] is missing). *)
Definition is_idle (b : BusController) : bool :=
  match status b with BusIdle => true | BusBusy => false end.

(** Modelled from the spec: the view the missing [I2CMaster] offers the
    sequencer.  A transaction is complete when the status is idle; the
    transfer register reads [I2C_IDLE] when idle and 0 when busy. *)
Definition view_of (b : BusController) : bus_view :=
  {| complete := is_idle b;
     read := fun address =>
               if address =? I2C_XFER_ADDR
               then (if is_idle b then I2C_IDLE else 0)
               else 0 |}.

(** Modelled from the spec: one tick of the missing [I2CMaster], after
    section 4.3.  [req] is the write the sequencer issues and [fin]
    tells whether a transaction in flight completes on this tick.  A
    write to the transfer register begins a transaction and makes the
    status busy, and is a caller error when the status is busy already;
    a write to another register begins none. *)
Definition bus_tick (fin : bool) (req : option (Z * Z))
    (b : BusController) : BusController :=
  match req with
  | Some (address, _) =>
      if address =? I2C_XFER_ADDR
      then {| status := BusBusy;
              caller_error := caller_error b || negb (is_idle b) |}
      else {| status := if fin then BusIdle else status b;
              caller_error := caller_error b |}
  | None =>
      {| status := if fin then BusIdle else status b;
         caller_error := caller_error b |}
  end.

(** *** The wiring of [Satellite.__init__]

    [sequencer.reset.eq(si5324_reset_clock.si5324_not_ready)] is a
    combinational assignment: during a tick the sequencer's reset input
    is the value the gate's register holds during that tick.
    [sequencer.bus.connect(i2c_master.bus)] ties the sequencer to the
    bus controller. *)
Record Satellite : Type := {
  si5324_reset_clock : Si5324ResetClock;
  sequencer : seq_state;
  i2c_master : BusController
}.

(** Power-up: the gate in its given initial state, the sequencer in its
    reset state and the bus controller idle. *)
Definition satellite_init (g : Si5324ResetClock) : Satellite :=
  {| si5324_reset_clock := g;
     sequencer := Idle;
     i2c_master := bus_init |}.

(** The bus write the sequencer issues during a tick. *)
Definition satellite_request (program : list Inst) (s : Satellite)
  : option (Z * Z) :=
  snd (seq_step program (si5324_not_ready (si5324_reset_clock s))
                (view_of (i2c_master s)) (sequencer s)).

(** One tick of the three submodules together: the sequencer steps
    with the gate's current not-ready value as its reset and the bus
    controller's current view, the gate ticks, and the bus controller
    receives the sequencer's write. *)
Definition satellite_tick (program : list Inst) (fin : bool)
    (s : Satellite) : Satellite :=
  let reset := si5324_not_ready (si5324_reset_clock s) in
  let '(q, req) := seq_step program reset (view_of (i2c_master s))
                            (sequencer s) in
  {| si5324_reset_clock := gate_tick (si5324_reset_clock s);
     sequencer := q;
     i2c_master := bus_tick fin req (i2c_master s) |}.

(** The satellite after [n] ticks; [fin i] tells whether a bus
    transaction in flight completes on tick [i]. *)
Definition satellite_after (program : list Inst) (g : Si5324ResetClock)
    (fin : N -> bool) (n : N) : Satellite :=
  N.peano_rect (fun _ => Satellite) (satellite_init g)
               (fun i s => satellite_tick program (fin i) s) n.

(** The invariant behind the absence of overlapping transactions. *)
Definition handshake_ok (p : list Inst) (s : Satellite) : Prop :=
  caller_error (i2c_master s) = false /\
  (may_issue (sequencer s) = true -> is_idle (i2c_master s) = true) /\
  (si5324_not_ready (si5324_reset_clock s) = true -> sequencer s = Idle) /\
  (forall pc, sequencer s = Executing pc true ->
              exists a v, nth_error p pc = Some (InstWrite a v)).

End I2C.

(** Sample register values for the closed examples: two distinct
    addresses and four distinct command bits above the data byte. *)
Definition sample_regs : I2CRegisters :=
  {| I2C_XFER_ADDR := 0;
     I2C_CONFIG_ADDR := 1;
     I2C_WRITE := Z.shiftl 1 10;
     I2C_STOP := Z.shiftl 1 11;
     I2C_START := Z.shiftl 1 12;
     I2C_IDLE := Z.shiftl 1 13 |}.

(** The program compiled for the satellite's frequency with the sample
    register values (empty if compilation failed). *)
Definition sample_program : list Inst :=
  Eval vm_compute in
    match get_i2c_program (regs := sample_regs) sys_clk_freq with
    | Some p => p
    | None => []
    end.

(** The same for 125 MHz. *)
Definition sample_program_125MHz : list Inst :=
  Eval vm_compute in
    match get_i2c_program (regs := sample_regs) 125000000 with
    | Some p => p
    | None => []
    end.

(** A small gate, two ticks after power-up, the same gate one tick
    later, when its reset-hold counter has reached zero, and a history
    of ticks with one external reset in it. *)
Definition sample_gate : Si5324ResetClock :=
  gate_step 3 2 (gate_step 3 2 (gate_init 3 2) Tick) Tick.

Definition sample_gate_at_zero : Si5324ResetClock :=
  gate_step 3 2 sample_gate Tick.

Definition sample_events : list gate_event :=
  [Tick; Tick; ExtReset; Tick; Tick; Tick; Tick; Tick; Tick; Tick].

(** A bus on which the transfer register never reads idle, seen for
    three ticks without reset, and a program that waits on it. *)
Definition stuck_bus : bus_view :=
  {| complete := false; read := fun _ => 0 |}.

Definition stuck_inputs : list (bool * bus_view) :=
  [(false, stuck_bus); (false, stuck_bus); (false, stuck_bus)].

Definition waiting_program : list Inst := [InstWait 0 8192; InstEnd].

(** The five-instruction scenario of section 8 of the specification: a
    bus that reports idle on every tick after a request, and the program
    start, write, wait, stop, end. *)
Definition prompt_bus : bus_view :=
  {| complete := true; read := fun _ => 8192 |}.

Definition five_instructions : list Inst :=
  [InstWrite 0 4096; InstWrite 0 1256; InstWait 0 8192; InstWrite 0 2048;
   InstEnd].

(** The register list of [get_i2c_program] as a function of the six logical
    dividers, which the source binds to constants in its first lines:
    the same expressions as [i2c_sequence], the dividers left open. *)
Definition i2c_sequence_for (N1_HS NC1_LS N2_HS N2_LS N31 N32 : Z)
  : list (list Z) :=
  [ [Z.shiftl 0x74 1; Z.shiftl 1 7];
    [Z.shiftl 0x68 1; 0; 0x50];
    [Z.shiftl 0x68 1; 1; 0xe4];
    [Z.shiftl 0x68 1; 2; Z.lor 2 (Z.shiftl 4 4)];
    [Z.shiftl 0x68 1; 3; Z.lor 5 0x10];
    [Z.shiftl 0x68 1; 4; 0x92];
    [Z.shiftl 0x68 1; 6; 0x07];
    [Z.shiftl 0x68 1; 25; Z.land (Z.shiftl N1_HS 5) 0xff];
    [Z.shiftl 0x68 1; 31; Z.land (Z.shiftr NC1_LS 16) 0xff];
    [Z.shiftl 0x68 1; 32; Z.land (Z.shiftr NC1_LS 8) 0xff];
    [Z.shiftl 0x68 1; 33; Z.land NC1_LS 0xff];
    [Z.shiftl 0x68 1; 40; Z.lor (Z.land (Z.shiftl N2_HS 5) 0xff)
                                (Z.land (Z.shiftr N2_LS 16) 0xff)];
    [Z.shiftl 0x68 1; 41; Z.land (Z.shiftr N2_LS 8) 0xff];
    [Z.shiftl 0x68 1; 42; Z.land N2_LS 0xff];
    [Z.shiftl 0x68 1; 43; Z.land (Z.shiftr N31 16) 0xff];
    [Z.shiftl 0x68 1; 44; Z.land (Z.shiftr N31 8) 0xff];
    [Z.shiftl 0x68 1; 45; Z.land N31 0xff];
    [Z.shiftl 0x68 1; 46; Z.land (Z.shiftr N32 16) 0xff];
    [Z.shiftl 0x68 1; 47; Z.land (Z.shiftr N32 8) 0xff];
    [Z.shiftl 0x68 1; 48; Z.land N32 0xff];
    [Z.shiftl 0x68 1; 137; 0x01];
    [Z.shiftl 0x68 1; 136; 0x40] ].

(** * RTIO channel lists of the targets

    Both targets collect their RTIO channels in a Python list
    [rtio_channels], one [rtio.Channel.from_phy] per PHY in the order of the
    statements, and [kc705.py] records positions of that list in
    [self.config].  The PHY cores themselves are outside these files; a PHY
    is kept as the constructor call of the source with the pads it was
    given. *)

Module RTIO.
Import String.StringSyntax.
Local Open Scope string_scope.
Local Open Scope list_scope.

(** [platform.request(name)], [platform.request(name, number)] and a
    subsignal of a requested resource. *)
Inductive pads : Type :=
| request (name : String.string) (number : option nat)
| subsignal (resource : pads) (name : String.string).

Inductive phy : Type :=
| Inout_8X (pad : pads)                         (* ttl_serdes_7series *)
| Output_8X (pad : pads)
| Input_8X (pad pad_n : pads)
| Output (pad : pads)                           (* ttl_simple *)
| Inout (pad : pads)
| ClockGen (pad : pads)
| SPIMaster (p : pads)                          (* spi *)
| AD9858 (p : pads) (nchannels : Z)             (* dds *)
| AD9914 (p : pads) (nchannels : Z) (onehot : bool)
| SAWG (channel index : nat).                   (* a PHY of sawgs[channel] *)

(** [rtio.Channel.from_phy(phy, ofifo_depth=..., ififo_depth=...)], a
    keyword left out being [None], and [rtio.LogChannel()]. *)
Inductive channel : Type :=
| from_phy (p : phy) (ofifo_depth ififo_depth : option Z)
| LogChannel.

(** [for i in range(n): acc = body(acc, i)]. *)
Definition for_range {A : Type} (n : nat) (body : A -> nat -> A) (acc : A)
  : A :=
  fold_left body (seq 0 n) acc.

Definition len {A : Type} (l : list A) : Z := Z.of_nat (length l).

Definition is_ttl (c : channel) : bool :=
  match c with
  | from_phy (Inout_8X _) _ _ | from_phy (Output_8X _) _ _
  | from_phy (Input_8X _ _) _ _ | from_phy (Output _) _ _
  | from_phy (Inout _) _ _ => true
  | _ => false
  end.

Definition is_clockgen (c : channel) : bool :=
  match c with from_phy (ClockGen _) _ _ => true | _ => false end.

Definition is_spi (c : channel) : bool :=
  match c with from_phy (SPIMaster _) _ _ => true | _ => false end.

Definition is_dds (c : channel) : bool :=
  match c with
  | from_phy (AD9858 _ _) _ _ | from_phy (AD9914 _ _ _) _ _ => true
  | _ => false
  end.

Definition is_sawg (c : channel) : bool :=
  match c with from_phy (SAWG _ _) _ _ => true | _ => false end.

Definition is_log (c : channel) : bool :=
  match c with LogChannel => true | _ => false end.

(** [range_only p lo hi k l]: walking [l] from index [k], the channels that
    satisfy [p] are exactly those at the indices in [lo, hi). *)
Fixpoint range_only (p : channel -> bool) (lo hi k : nat) (l : list channel)
  : bool :=
  match l with
  | [] => true
  | c :: l' =>
      Bool.eqb (p c) ((lo <=? k)%nat && (k <? hi)%nat)
      && range_only p lo hi (S k) l'
  end.

End RTIO.

(** ** [kc705.py]: the NIST adapters and Phaser *)

Module KC705.
Import String.StringSyntax RTIO.
Local Open Scope string_scope.
Local Open Scope list_scope.

(** [self.config], a Python dict from names to integers and [True]. *)
Inductive value : Type := VInt (n : Z) | VBool (b : bool).

Definition dict : Type := list (String.string * value).

Definition setitem (d : dict) (key : String.string) (v : value) : dict :=
  (key, v) :: d.

Fixpoint getitem (d : dict) (key : String.string) : option value :=
  match d with
  | [] => None
  | (k, v) :: d' => if String.eqb k key then Some v else getitem d' key
  end.

Definition I2C_BUS_COUNT := "I2C_BUS_COUNT".
Definition RTIO_FINE_TS_WIDTH := "RTIO_FINE_TS_WIDTH".
Definition RTIO_REGULAR_TTL_COUNT := "RTIO_REGULAR_TTL_COUNT".
Definition RTIO_FIRST_SPI_CHANNEL := "RTIO_FIRST_SPI_CHANNEL".
Definition RTIO_FIRST_DDS_CHANNEL := "RTIO_FIRST_DDS_CHANNEL".
Definition RTIO_DDS_COUNT := "RTIO_DDS_COUNT".
Definition DDS_CHANNELS_PER_BUS := "DDS_CHANNELS_PER_BUS".
Definition DDS_AD9858 := "DDS_AD9858".
Definition DDS_AD9914 := "DDS_AD9914".
Definition DDS_ONEHOT_SEL := "DDS_ONEHOT_SEL".
Definition RTIO_LOG_CHANNEL := "RTIO_LOG_CHANNEL".
Definition DDS_RTIO_CLK_RATIO := "DDS_RTIO_CLK_RATIO".
Definition RTIO_FIRST_SAWG_CHANNEL := "RTIO_FIRST_SAWG_CHANNEL".
Definition AD9154_DAC_CS := "AD9154_DAC_CS".
Definition AD9154_CLK_CS := "AD9154_CLK_CS".

(** What an adapter leaves behind: the channel list handed to [add_rtio] and
    the configuration dict. *)
Record SoC : Type := {
  rtio_channels : list channel;
  config : dict
}.

(** [_NIST_Ions.__init__]: of the base class only the dict it leaves in
    [self.config] matters here ([config0], whatever [MiniSoC] and [AMPSoC]
    put there). *)
Definition _NIST_Ions (config0 : dict) : dict :=
  setitem config0 I2C_BUS_COUNT (VInt 1).

(** [_NIST_Ions.add_rtio]; [fine_ts_width] is what [rtio.RTIO] reports for
    the channel list. *)
Definition add_rtio (config : dict) (rtio_channels : list channel)
    (fine_ts_width : N) : SoC :=
  {| rtio_channels := rtio_channels;
     config := setitem config RTIO_FINE_TS_WIDTH (VInt (Z.of_N fine_ts_width)) |}.

(** The closing lines of the three NIST adapters:
    [assert self.rtio.fine_ts_width <= 3] ([None] is the AssertionError) and
    [self.config["DDS_RTIO_CLK_RATIO"] = ratio >> self.rtio.fine_ts_width]. *)
Definition set_clk_ratio (ratio : Z) (fine_ts_width : N) (soc : SoC)
  : option SoC :=
  if (fine_ts_width <=? 3)%N then
    Some {| rtio_channels := rtio_channels soc;
            config := setitem (config soc) DDS_RTIO_CLK_RATIO
                        (VInt (Z.shiftr ratio (Z.of_N fine_ts_width))) |}
  else None.

Definition NIST_QC1 (config0 : dict) (fine_ts_width : N) : option SoC :=
  let config := _NIST_Ions config0 in
  let rtio_channels := [] in
  let rtio_channels :=
    for_range 2 (fun acc i =>
      acc ++ [from_phy (Inout_8X (request "pmt" (Some i))) None (Some 512)])
      rtio_channels in
  let rtio_channels :=
    for_range 15 (fun acc i =>
      acc ++ [from_phy (Output_8X (request "ttl" (Some i))) None None])
      rtio_channels in
  let rtio_channels :=
    rtio_channels
    ++ [from_phy (Inout_8X (request "user_sma_gpio_n_33" None))
          None (Some 512)] in
  let rtio_channels :=
    rtio_channels
    ++ [from_phy (Output (request "user_led" (Some 2%nat))) None None] in
  let config := setitem config RTIO_REGULAR_TTL_COUNT
                  (VInt (len rtio_channels)) in
  let rtio_channels :=
    rtio_channels
    ++ [from_phy (ClockGen (request "ttl" (Some 15%nat))) None None] in
  let config := setitem config RTIO_FIRST_DDS_CHANNEL
                  (VInt (len rtio_channels)) in
  let config := setitem config RTIO_DDS_COUNT (VInt 1) in
  let config := setitem config DDS_CHANNELS_PER_BUS (VInt 8) in
  let config := setitem config DDS_AD9858 (VBool true) in
  let rtio_channels :=
    rtio_channels
    ++ [from_phy (AD9858 (request "dds" None) 8) (Some 512) (Some 4)] in
  let config := setitem config RTIO_LOG_CHANNEL (VInt (len rtio_channels)) in
  let rtio_channels := rtio_channels ++ [LogChannel] in
  set_clk_ratio 8 fine_ts_width
    (add_rtio config rtio_channels fine_ts_width).

Definition NIST_CLOCK (config0 : dict) (fine_ts_width : N) : option SoC :=
  let config := _NIST_Ions config0 in
  let rtio_channels := [] in
  let rtio_channels :=
    for_range 16 (fun acc i =>
      if (i mod 4 =? 3)%nat then
        acc ++ [from_phy (Inout_8X (request "ttl" (Some i))) None (Some 512)]
      else
        acc ++ [from_phy (Output_8X (request "ttl" (Some i))) None None])
      rtio_channels in
  let rtio_channels :=
    for_range 2 (fun acc i =>
      acc ++ [from_phy (Inout_8X (request "pmt" (Some i))) None (Some 512)])
      rtio_channels in
  let rtio_channels :=
    rtio_channels
    ++ [from_phy (Inout_8X (request "user_sma_gpio_n_33" None))
          None (Some 512)] in
  let rtio_channels :=
    rtio_channels
    ++ [from_phy (Output (request "user_led" (Some 2%nat))) None None] in
  let ams101_dac := request "ams101_dac" (Some 0%nat) in
  let rtio_channels :=
    rtio_channels
    ++ [from_phy (Output (subsignal ams101_dac "ldac")) None None] in
  let config := setitem config RTIO_REGULAR_TTL_COUNT
                  (VInt (len rtio_channels)) in
  let rtio_channels :=
    rtio_channels ++ [from_phy (ClockGen (request "la32_p" None)) None None] in
  let config := setitem config RTIO_FIRST_SPI_CHANNEL
                  (VInt (len rtio_channels)) in
  let rtio_channels :=
    rtio_channels ++ [from_phy (SPIMaster ams101_dac) (Some 4) (Some 4)] in
  let rtio_channels :=
    for_range 3 (fun acc i =>
      acc ++ [from_phy (SPIMaster (request "spi" (Some i)))
                (Some 128) (Some 128)])
      rtio_channels in
  let config := setitem config RTIO_FIRST_DDS_CHANNEL
                  (VInt (len rtio_channels)) in
  let config := setitem config RTIO_DDS_COUNT (VInt 1) in
  let config := setitem config DDS_CHANNELS_PER_BUS (VInt 11) in
  let config := setitem config DDS_AD9914 (VBool true) in
  let config := setitem config DDS_ONEHOT_SEL (VBool true) in
  let rtio_channels :=
    rtio_channels
    ++ [from_phy (AD9914 (request "dds" None) 11 true) (Some 512) (Some 4)] in
  let config := setitem config RTIO_LOG_CHANNEL (VInt (len rtio_channels)) in
  let rtio_channels := rtio_channels ++ [LogChannel] in
  set_clk_ratio 24 fine_ts_width
    (add_rtio config rtio_channels fine_ts_width).

Definition NIST_QC2 (config0 : dict) (fine_ts_width : N) : option SoC :=
  let config := _NIST_Ions config0 in
  let rtio_channels := [] in
  let clock_generators := [] in
  let rtio_channels :=
    for_range 40 (fun acc i =>
      acc ++ [from_phy (Inout_8X (request "ttl" (Some i))) None (Some 512)])
      rtio_channels in
  let clock_generators :=
    for_range 2 (fun acc i =>
      acc ++ [from_phy (ClockGen (request "clkout" (Some i))) None None])
      clock_generators in
  let rtio_channels :=
    rtio_channels
    ++ [from_phy (Inout_8X (request "user_sma_gpio_n_33" None))
          None (Some 512)] in
  let rtio_channels :=
    rtio_channels
    ++ [from_phy (Output (request "user_led" (Some 2%nat))) None None] in
  let ams101_dac := request "ams101_dac" (Some 0%nat) in
  let rtio_channels :=
    rtio_channels
    ++ [from_phy (Output (subsignal ams101_dac "ldac")) None None] in
  let config := setitem config RTIO_REGULAR_TTL_COUNT
                  (VInt (len rtio_channels)) in
  let rtio_channels := rtio_channels ++ clock_generators in
  let config := setitem config RTIO_FIRST_SPI_CHANNEL
                  (VInt (len rtio_channels)) in
  let rtio_channels :=
    rtio_channels ++ [from_phy (SPIMaster ams101_dac) (Some 4) (Some 4)] in
  let rtio_channels :=
    for_range 4 (fun acc i =>
      acc ++ [from_phy (SPIMaster (request "spi" (Some i)))
                (Some 128) (Some 128)])
      rtio_channels in
  let config := setitem config RTIO_FIRST_DDS_CHANNEL
                  (VInt (len rtio_channels)) in
  let config := setitem config RTIO_DDS_COUNT (VInt 2) in
  let config := setitem config DDS_CHANNELS_PER_BUS (VInt 12) in
  let config := setitem config DDS_AD9914 (VBool true) in
  let config := setitem config DDS_ONEHOT_SEL (VBool true) in
  let rtio_channels :=
    for_range 2 (fun acc backplane_offset =>
      acc ++ [from_phy (AD9914 (request "dds" (Some backplane_offset)) 12 true)
                (Some 512) (Some 4)])
      rtio_channels in
  let config := setitem config RTIO_LOG_CHANNEL (VInt (len rtio_channels)) in
  let rtio_channels := rtio_channels ++ [LogChannel] in
  set_clk_ratio 24 fine_ts_width
    (add_rtio config rtio_channels fine_ts_width).

(** [Phaser.__init__] up to [add_rtio].  The SAWG cores are outside this
    file: [sawg_phys i] is the number of PHYs of [sawgs[i]], any number. *)
Definition Phaser (sawg_phys : nat -> nat) (config0 : dict)
    (fine_ts_width : N) : SoC :=
  let config := _NIST_Ions config0 in
  let sysref_pads := request "ad9154_sysref" None in
  let rtio_channels := [] in
  let rtio_channels :=
    rtio_channels
    ++ [from_phy (Inout_8X (request "user_sma_gpio_n_33" None))
          None (Some 128)] in
  let rtio_channels :=
    rtio_channels
    ++ [from_phy (Output (request "user_led" (Some 2%nat))) None None] in
  let rtio_channels :=
    rtio_channels
    ++ [from_phy (Input_8X (subsignal sysref_pads "p")
                           (subsignal sysref_pads "n"))
          (Some 2) (Some 32)] in
  let config := setitem config RTIO_REGULAR_TTL_COUNT
                  (VInt (len rtio_channels)) in
  let config := setitem config AD9154_DAC_CS (VInt (Z.shiftl 1 0)) in
  let config := setitem config AD9154_CLK_CS (VInt (Z.shiftl 1 1)) in
  let config := setitem config RTIO_FIRST_SAWG_CHANNEL
                  (VInt (len rtio_channels)) in
  let sawgs := seq 0 4 in
  let rtio_channels :=
    rtio_channels
    ++ flat_map (fun sawg =>
                   map (fun phy => from_phy (SAWG sawg phy) None None)
                       (seq 0 (sawg_phys sawg)))
                sawgs in
  let config := setitem config RTIO_LOG_CHANNEL (VInt (len rtio_channels)) in
  let rtio_channels := rtio_channels ++ [LogChannel] in
  add_rtio config rtio_channels fine_ts_width.

(** What a DDS channel says about its bus: the configuration flag of its
    chip, the number of channels and the one-hot selection it was built
    with. *)
Definition dds_chip (c : channel) : option (String.string * Z) :=
  match c with
  | from_phy (AD9858 _ nchannels) _ _ => Some (DDS_AD9858, nchannels)
  | from_phy (AD9914 _ nchannels _) _ _ => Some (DDS_AD9914, nchannels)
  | _ => None
  end.

Definition dds_onehot (c : channel) : bool :=
  match c with
  | from_phy (AD9914 _ _ onehot) _ _ => onehot
  | _ => false
  end.

(** The designs the four classes can produce. *)
Inductive built (config0 : dict) (fine_ts_width : N) : SoC -> Prop :=
| built_qc1 soc :
    NIST_QC1 config0 fine_ts_width = Some soc ->
    built config0 fine_ts_width soc
| built_clock soc :
    NIST_CLOCK config0 fine_ts_width = Some soc ->
    built config0 fine_ts_width soc
| built_qc2 soc :
    NIST_QC2 config0 fine_ts_width = Some soc ->
    built config0 fine_ts_width soc
| built_phaser sawg_phys :
    built config0 fine_ts_width (Phaser sawg_phys config0 fine_ts_width).

End KC705.

(** ** [kc705_drtio_satellite.py]: what [Satellite.__init__] assembles *)

Module SatelliteTarget.
Import String.StringSyntax RTIO.
Local Open Scope string_scope.
Local Open Scope list_scope.

(** The exceptions [Satellite.__init__] can end in.  [PlatformError] is
    whatever [kc705.Platform(toolchain=toolchain)] raises when it refuses
    the toolchain name; the platform class is not part of these files. *)
Inductive exception : Type :=
| PlatformError
| OverflowError
| AssertionError
| ValueError
| AttributeError.

(** The transceiver of [gtx_7series] the constructor reaches, with the
    arguments of the call. *)
Inductive transceiver : Type :=
| GTX_1000BASE_BX10 (clock_pads tx_pads rx_pads : pads) (sys_clk_freq : Z)
    (clock_div2 : bool).

(** What the constructor has assembled when it reaches line 184. *)
Record Design : Type := {
  toolchain_name : String.string;
  rtio_channels : list channel;
  sequencer_program : list Inst;
  si5324_reset_clock : Si5324ResetClock;
  sfp_tx_disable_n : option bool;   (* [Some true]: driven to 1 *)
  the_transceiver : transceiver
}.

Definition sfp := "sfp".
Definition sma := "sma".
Definition simple_gbe := "simple_gbe".
Definition sawg_3g := "sawg_3g".

Section Construct.
Context {regs : I2CRegisters}.

(** [Satellite.__init__(cfg, medium, toolchain)], statement by statement
    up to the choice of the transceiver.

    [Platform_raises toolchain] tells whether
    [kc705.Platform(toolchain=toolchain)] raises; nothing is assumed about
    which names it accepts.  [get_i2c_program] fails only where a float
    conversion overflows and [Si5324ResetClock] then only on the assertion
    of a counter signal.  In the [sawg_3g] branch the first statement calls
    [platform.register_extension], a method the platform does not have (its
    method, used throughout [kc705.py], is [add_extension]): the call
    raises AttributeError and [gtx_7series.GTX_3G] is never reached. *)
Definition Satellite_construct (Platform_raises : String.string -> bool)
    (cfg medium toolchain : String.string) : exception + Design :=
  if Platform_raises toolchain then inl PlatformError else
  let rtio_channels := [] in
  let rtio_channels :=
    for_range 8 (fun acc i =>
      acc ++ [from_phy (Output (request "user_led" (Some i))) None None])
      rtio_channels in
  let rtio_channels :=
    fold_left (fun acc sma =>
      acc ++ [from_phy (Inout (request sma None)) None None])
      ["user_sma_gpio_p"; "user_sma_gpio_n"] rtio_channels in
  match get_i2c_program sys_clk_freq with
  | None => inl OverflowError
  | Some program =>
      match Si5324ResetClock_init sys_clk_freq with
      | None => inl AssertionError
      | Some si5324_reset_clock =>
          let chosen_medium :=
            if String.eqb medium "sfp" then
              Some (Some true, request "sfp_tx" None, request "sfp_rx" None)
            else if String.eqb medium "sma" then
              Some (None, request "user_sma_mgt_tx" None,
                    request "user_sma_mgt_rx" None)
            else None in
          match chosen_medium with
          | None => inl ValueError
          | Some (tx_disable_n, tx_pads, rx_pads) =>
              if String.eqb cfg "simple_gbe" then
                inr {| toolchain_name := toolchain;
                       rtio_channels := rtio_channels;
                       sequencer_program := program;
                       si5324_reset_clock := si5324_reset_clock;
                       sfp_tx_disable_n := tx_disable_n;
                       the_transceiver :=
                         GTX_1000BASE_BX10 (request "sgmii_clock" None)
                           tx_pads rx_pads sys_clk_freq true |}
              else if String.eqb cfg "sawg_3g" then
                inl AttributeError
              else
                inl ValueError
          end
      end
  end.

End Construct.
End SatelliteTarget.

(** The three NIST adapters built on an empty base configuration with a
    fine timestamp width of 3 (nothing if the assertion failed), and a
    Phaser whose SAWG cores have two PHYs each. *)
Definition no_soc : KC705.SoC :=
  {| KC705.rtio_channels := []; KC705.config := [] |}.

Definition sample_qc1 : KC705.SoC :=
  Eval vm_compute in
    match KC705.NIST_QC1 [] 3 with Some soc => soc | None => no_soc end.

Definition sample_clock : KC705.SoC :=
  Eval vm_compute in
    match KC705.NIST_CLOCK [] 3 with Some soc => soc | None => no_soc end.

Definition sample_qc2 : KC705.SoC :=
  Eval vm_compute in
    match KC705.NIST_QC2 [] 3 with Some soc => soc | None => no_soc end.

Definition sample_phaser : KC705.SoC :=
  KC705.Phaser (fun _ => 2%nat) [] 3.


Section Properties.

Context {regs : I2CRegisters}.

(** ** Properties of the float conversions *)

Lemma binary_round_aux_sign (s : bool) (m e : Z) (l : location) :
  match binary_round_aux PyFloat.prec PyFloat.emax s m e l with
  | S754_zero s' | S754_infinity s' | S754_finite s' _ _ => s' = s
  | S754_nan => True
  end.
Proof.
  unfold binary_round_aux.
  destruct (shr_fexp _ _ m e l) as [mrs' e'].
  destruct (shr_fexp _ _ _ e' loc_Exact) as [mrs'' e''].
  destruct (shr_m mrs''); [reflexivity | | exact I].
  destruct (Z.leb e'' _); reflexivity.
Qed.

Lemma of_int_nonneg (n : Z) (x : PyFloat.float) :
  0 < n -> PyFloat.of_int n = Some x -> nonneg_float x.
Proof.
  intros Hn. destruct n as [|p|p]; try lia.
  unfold PyFloat.of_int, binary_normalize, binary_round.
  destruct (shl_align _ _ _) as [mz ez].
  pose proof (binary_round_aux_sign false (Zpos mz) ez loc_Exact) as Hs.
  destruct (binary_round_aux _ _ _ _ _ _); intros [= <-]; simpl; auto.
Qed.

Lemma trunc_nonneg (m : positive) (e : Z) : 0 <= PyFloat.trunc m e.
Proof.
  unfold PyFloat.trunc. destruct (Z.leb_spec 0 e).
  - apply Z.mul_nonneg_nonneg; [lia | apply Z.pow_nonneg; lia].
  - apply Z.div_pos; [lia | apply Z.pow_pos_nonneg; lia].
Qed.

Lemma to_int_nonneg (x : PyFloat.float) (q : Z) :
  nonneg_float x -> PyFloat.to_int x = Some q -> 0 <= q.
Proof.
  destruct x as [s|s| |s m e]; unfold PyFloat.to_int, nonneg_float;
    try discriminate.
  - intros _ [= <-]. lia.
  - intros -> [= <-]. apply trunc_nonneg.
Qed.

Lemma mul_nonneg (x : PyFloat.float) (s : bool) (m : positive) (e : Z) :
  nonneg_float x -> nonneg_float (PyFloat.mul x (S754_finite false m e)).
Proof.
  destruct x as [sx|sx| |sx mx ex]; simpl; auto.
  intros ->.
  pose proof (binary_round_aux_sign (xorb false false)
                (Zpos (mx * m)) (ex + e) loc_Exact) as Hs.
  destruct (binary_round_aux _ _ _ _ _ _); simpl; auto.
Qed.

Lemma int_mul_nonneg (n : Z) (m : positive) (e : Z) (q : Z) :
  0 < n -> PyFloat.int_mul n (S754_finite false m e) = Some q -> 0 <= q.
Proof.
  intros Hn. unfold PyFloat.int_mul.
  destruct (PyFloat.of_int n) as [x|] eqn:Hx; [|discriminate].
  apply to_int_nonneg, (mul_nonneg x false), (of_int_nonneg n); assumption.
Qed.

Lemma reset_val_nonneg (f r : Z) : 0 < f -> reset_val f = Some r -> 0 <= r.
Proof. apply int_mul_nonneg. Qed.

Lemma ready_val_nonneg (f r : Z) : 0 < f -> ready_val f = Some r -> 0 <= r.
Proof. apply int_mul_nonneg. Qed.

(** The literals are the correctly rounded quotients of exact floats:
    [1e3] is the float of 1000, [1.1e-6] is 11 divided by [10^7] and
    [11e-3] is 11 divided by 1000. *)
Lemma literals_correctly_rounded :
  PyFloat.of_int 1000 = Some PyFloat.lit_1e3 /\
  (exists x y, PyFloat.of_int 11 = Some x /\
               PyFloat.of_int 10000000 = Some y /\
               PyFloat.div x y = Some PyFloat.lit_1_1e_6) /\
  (exists x y, PyFloat.of_int 11 = Some x /\
               PyFloat.of_int 1000 = Some y /\
               PyFloat.div x y = Some PyFloat.lit_11e_3).
Proof.
  split; [vm_compute; reflexivity|].
  split; eexists; eexists; (split; [vm_compute; reflexivity|]);
    (split; [vm_compute; reflexivity|]); vm_compute; reflexivity.
Qed.

(** The conversions at a few frequencies. *)
Example conversions_at_sample_frequencies :
  PyFloat.int_div 156000000 PyFloat.lit_1e3 = Some 156000 /\
  PyFloat.int_div 125000000 PyFloat.lit_1e3 = Some 125000 /\
  PyFloat.int_div 1999 PyFloat.lit_1e3 = Some 1 /\
  reset_val 156000000 = Some 171 /\ ready_val 156000000 = Some 1716000 /\
  reset_val 125000000 = Some 137 /\ ready_val 125000000 = Some 1375000 /\
  reset_val 100 = Some 0 /\ ready_val 100 = Some 1 /\
  reset_val (2 ^ 1024) = None.
Proof. repeat split; vm_compute; reflexivity. Qed.

(** ** Range of the float conversions *)

Lemma digits2_pos_le (p : positive) (K : Z) :
  Zpos p < 2 ^ K -> Zpos (digits2_pos p) <= K.
Proof.
  revert K. induction p as [p IH|p IH|]; intros K Hp.
  - assert (HK : 0 < K).
    { destruct (Z.ltb_spec 0 K); [assumption|].
      destruct (Z.eq_dec K 0) as [->|]; [simpl in Hp; lia|].
      rewrite Z.pow_neg_r in Hp by lia. lia. }
    replace K with (Z.succ (K - 1)) in Hp by lia.
    rewrite Z.pow_succ_r in Hp by lia.
    specialize (IH (K - 1)). cbn [digits2_pos]. rewrite Pos2Z.inj_succ.
    assert (Zpos p < 2 ^ (K - 1)) by lia. lia.
  - assert (HK : 0 < K).
    { destruct (Z.ltb_spec 0 K); [assumption|].
      destruct (Z.eq_dec K 0) as [->|]; [simpl in Hp; lia|].
      rewrite Z.pow_neg_r in Hp by lia. lia. }
    replace K with (Z.succ (K - 1)) in Hp by lia.
    rewrite Z.pow_succ_r in Hp by lia.
    specialize (IH (K - 1)). cbn [digits2_pos]. rewrite Pos2Z.inj_succ.
    assert (Zpos p < 2 ^ (K - 1)) by lia. lia.
  - cbn [digits2_pos].
    destruct (Z.ltb_spec 0 K); [lia|].
    destruct (Z.eq_dec K 0) as [->|]; [simpl in Hp; lia|].
    rewrite Z.pow_neg_r in Hp by lia. lia.
Qed.

Lemma Zdigits2_le (m K : Z) : 0 <= K -> 0 <= m < 2 ^ K -> Zdigits2 m <= K.
Proof.
  intros HK [Hm0 Hm]. destruct m as [|p|p]; cbn [Zdigits2]; try lia.
  apply digits2_pos_le, Hm.
Qed.

Lemma fexp_le (x : Z) :
  SpecFloat.fexp PyFloat.prec PyFloat.emax x = Z.max (x - 53) (-1074).
Proof. reflexivity. Qed.

Lemma shr_1_bound (M : Z) (mrs : shr_record) :
  0 <= shr_m mrs <= M -> 0 <= shr_m (shr_1 mrs) <= M.
Proof.
  destruct mrs as [m r s]. cbn [shr_m].
  destruct m as [|[p|p|]|[p|p|]]; cbn [shr_1 shr_m]; lia.
Qed.

Lemma iter_pos_invariant {A : Type} (f : A -> A) (P : A -> Prop) :
  (forall x, P x -> P (f x)) ->
  forall n x, P x -> P (iter_pos f n x).
Proof.
  intros Hf. induction n as [n IH|n IH|]; intros x Hx; cbn [iter_pos]; auto.
Qed.

Lemma shr_bound (M : Z) (mrs : shr_record) (e n : Z) :
  0 <= shr_m mrs <= M ->
  0 <= shr_m (fst (shr mrs e n)) <= M /\
  snd (shr mrs e n) <= Z.max e (e + n).
Proof.
  intros Hm. destruct n as [|p|p]; cbn [shr fst snd]; try (split; [exact Hm | lia]).
  split; [|lia].
  apply (iter_pos_invariant shr_1 (fun x => 0 <= shr_m x <= M)); [|exact Hm].
  intros x. apply shr_1_bound.
Qed.

Lemma shr_record_of_loc_m (m : Z) (l : location) :
  shr_m (shr_record_of_loc m l) = m.
Proof. destruct l as [|[]]; reflexivity. Qed.

Lemma shr_fexp_bound (m e : Z) (l : location) (K : Z) :
  0 <= K -> 0 <= m < 2 ^ K ->
  0 <= shr_m (fst (shr_fexp PyFloat.prec PyFloat.emax m e l)) <= m /\
  snd (shr_fexp PyFloat.prec PyFloat.emax m e l)
  <= Z.max e (Z.max (K + e - 53) (-1074)).
Proof.
  intros HK Hm. unfold shr_fexp.
  pose proof (fexp_le (Zdigits2 m + e)) as Hn.
  set (n := SpecFloat.fexp PyFloat.prec PyFloat.emax (Zdigits2 m + e)) in *.
  pose proof (shr_bound m (shr_record_of_loc m l) e (n - e)) as H.
  rewrite shr_record_of_loc_m in H. destruct H as [H1 H2]; [lia|].
  split; [exact H1|].
  pose proof (Zdigits2_le m K HK Hm). lia.
Qed.

Lemma round_nearest_even_bound (m : Z) (l : location) :
  0 <= m -> 0 <= round_nearest_even m l <= m + 1.
Proof.
  intros Hm. destruct l as [|[]]; cbn [round_nearest_even]; try lia.
  destruct (Z.even m); lia.
Qed.

Lemma binary_round_aux_bounded (s : bool) (m e : Z) (l : location) (K E : Z) :
  0 <= K -> 0 <= m < 2 ^ K -> e <= E -> -1074 <= E ->
  2 * K + E <= 970 ->
  bounded_float (K + 1) (2 * K + E + 1)
    (binary_round_aux PyFloat.prec PyFloat.emax s m e l).
Proof.
  intros HK Hm He HE Hfit. unfold binary_round_aux.
  pose proof (shr_fexp_bound m e l K HK Hm) as [H1 H2].
  destruct (shr_fexp PyFloat.prec PyFloat.emax m e l) as [mrs' e'].
  cbn [fst snd] in H1, H2.
  pose proof (round_nearest_even_bound (shr_m mrs') (loc_of_shr_record mrs')) as Hr.
  destruct Hr as [Hr0 Hr1]; [lia|].
  set (r := round_nearest_even (shr_m mrs') (loc_of_shr_record mrs')) in *.
  assert (Hr2 : 0 <= r < 2 ^ (K + 1)).
  { rewrite Z.pow_add_r by lia. change (2 ^ 1) with 2. lia. }
  pose proof (shr_fexp_bound r e' loc_Exact (K + 1)) as [H3 H4]; [lia | exact Hr2 |].
  destruct (shr_fexp PyFloat.prec PyFloat.emax r e' loc_Exact) as [mrs'' e''].
  cbn [fst snd] in H3, H4.
  destruct (shr_m mrs'') as [|p|p] eqn:Hm''; [exact I | | lia].
  replace (e'' <=? PyFloat.emax - PyFloat.prec) with true
    by (symmetry; apply Z.leb_le; unfold PyFloat.emax, PyFloat.prec; lia).
  cbn [bounded_float]. split; lia.
Qed.

Lemma shl_align_bound (mx : positive) (ex ex' : Z) :
  Zpos (fst (shl_align mx ex ex'))
  = Zpos mx * 2 ^ (ex - snd (shl_align mx ex ex')) /\
  snd (shl_align mx ex ex') = Z.min ex ex'.
Proof.
  unfold shl_align. destruct (ex' - ex) as [|d|d] eqn:Hd; cbn [fst snd].
  - rewrite Z.sub_diag. split; lia.
  - rewrite Z.sub_diag. split; lia.
  - change (Pos.iter xO mx d) with (shift_pos d mx).
    rewrite shift_pos_correct, Z.pow_pos_fold.
    replace (ex - ex') with (Zpos d) by lia. split; lia.
Qed.

Lemma pow2_mul_lt (a b K L : Z) :
  0 <= K -> 0 <= L -> 0 <= a < 2 ^ K -> 0 <= b < 2 ^ L ->
  0 <= a * b < 2 ^ (K + L).
Proof.
  intros HK HL Ha Hb. rewrite Z.pow_add_r by assumption. nia.
Qed.

Lemma pow2_le_mono (a b : Z) : 0 <= a <= b -> 2 ^ a <= 2 ^ b.
Proof. intros H. apply Z.pow_le_mono_r; lia. Qed.

Lemma of_int_bounded (f : Z) :
  0 < f < 2 ^ 53 ->
  exists x, PyFloat.of_int f = Some x /\ bounded_float 107 213 x.
Proof.
  intros [Hf0 Hf]. destruct f as [|p|p]; try lia.
  unfold PyFloat.of_int, binary_normalize, binary_round.
  pose proof (shl_align_bound p 0
                (SpecFloat.fexp PyFloat.prec PyFloat.emax (Zpos (digits2_pos p) + 0)))
    as [Hmz Hez].
  rewrite fexp_le in Hez.
  destruct (shl_align p 0 _) as [mz ez]. cbn [fst snd] in Hmz, Hez.
  pose proof (digits2_pos_le p 53 Hf) as Hd.
  pose proof (Pos2Z.is_pos (digits2_pos p)) as Hd0.
  assert (Hb : 0 <= Zpos mz < 2 ^ 106).
  { rewrite Hmz. change 106 with (53 + 53).
    apply pow2_mul_lt; try lia. split; [apply Z.pow_nonneg; lia|].
    apply Z.pow_lt_mono_r; lia. }
  pose proof (binary_round_aux_bounded false (Zpos mz) ez loc_Exact 106 0) as H.
  cbv beta in H. change (106 + 1) with 107 in H.
  change (2 * 106 + 0 + 1) with 213 in H.
  destruct (binary_round_aux _ _ false (Zpos mz) ez loc_Exact) eqn:Hx;
    try (destruct H; lia); eexists; (split; [reflexivity|]); apply H; lia.
Qed.

Lemma to_int_bounded (K E : Z) (x : PyFloat.float) :
  bounded_float K E x -> exists q, PyFloat.to_int x = Some q.
Proof.
  destruct x; cbn [bounded_float PyFloat.to_int]; try contradiction; eauto.
Qed.

Lemma mul_bounded (x : PyFloat.float) (m : positive) (e : Z) :
  bounded_float 107 213 x -> Zpos m < 2 ^ 53 -> -1000 <= e <= 0 ->
  bounded_float 161 534 (PyFloat.mul x (S754_finite false m e)).
Proof.
  destruct x as [s|s| |s mx ex]; cbn [bounded_float]; try contradiction.
  - intros _ _ _. exact I.
  - intros [Hm He] Hm' He'. unfold PyFloat.mul, SFmul.
    pose proof (binary_round_aux_bounded (xorb s false) (Zpos (mx * m))
                  (ex + e) loc_Exact 160 213) as H.
    change (160 + 1) with 161 in H. change (2 * 160 + 213 + 1) with 534 in H.
    apply H; try lia.
    rewrite Pos2Z.inj_mul. change 160 with (107 + 53).
    apply pow2_mul_lt; lia.
Qed.

Lemma int_mul_total (f : Z) (m : positive) (e : Z) :
  0 < f < 2 ^ 53 -> Zpos m < 2 ^ 53 -> -1000 <= e <= 0 ->
  exists q, PyFloat.int_mul f (S754_finite false m e) = Some q.
Proof.
  intros Hf Hm He. unfold PyFloat.int_mul.
  destruct (of_int_bounded f Hf) as (x & -> & Hx).
  apply (to_int_bounded 161 534), mul_bounded; assumption.
Qed.

Lemma div_1e3_bounded (x : PyFloat.float) :
  bounded_float 107 213 x ->
  bounded_float 214 683 (SFdiv PyFloat.prec PyFloat.emax x PyFloat.lit_1e3).
Proof.
  destruct x as [s|s| |s mx ex]; cbn [bounded_float]; try contradiction.
  - intros _. exact I.
  - intros [Hm He]. unfold SFdiv, PyFloat.lit_1e3, SFdiv_core_binary.
    set (m2 := 8796093022208000%positive).
    pose proof (fexp_le (Zdigits2 (Zpos mx) + ex - (Zdigits2 (Zpos m2) + -43))) as Hfe.
    set (fe := SpecFloat.fexp PyFloat.prec PyFloat.emax
                 (Zdigits2 (Zpos mx) + ex - (Zdigits2 (Zpos m2) + -43))) in *.
    set (e' := Z.min fe (ex - -43)).
    set (sh := ex - -43 - e').
    assert (Hd2 : Zdigits2 (Zpos m2) = 53) by reflexivity.
    assert (Hd1 : 0 < Zdigits2 (Zpos mx)) by (cbn [Zdigits2]; lia).
    assert (Hsh : 0 <= sh <= 106) by (unfold sh, e'; lia).
    set (m' := match sh with
               | 0 => Zpos mx
               | Zpos _ => Z.shiftl (Zpos mx) sh
               | Zneg _ => 0
               end).
    assert (Hm' : 0 <= m' < 2 ^ 213).
    { assert (Hs : 0 <= Zpos mx * 2 ^ sh < 2 ^ 213).
      { pose proof (pow2_le_mono sh 106 Hsh).
        assert (0 < 2 ^ sh) by (apply Z.pow_pos_nonneg; lia).
        change 213 with (107 + 106). rewrite Z.pow_add_r by lia. nia. }
      unfold m'. destruct sh as [|p|p] eqn:Hp.
      - rewrite Z.pow_0_r in Hs. lia.
      - rewrite Z.shiftl_mul_pow2 by lia. exact Hs.
      - lia. }
    destruct (Z.div_eucl m' (Zpos m2)) as [q r] eqn:Hdiv.
    assert (Hq : q = m' / Zpos m2) by (unfold Z.div; rewrite Hdiv; reflexivity).
    assert (Hq' : 0 <= q < 2 ^ 213).
    { subst q. split; [apply Z.div_pos; lia|].
      apply Z.le_lt_trans with m'; [|lia].
      apply Z.div_le_upper_bound; nia. }
    pose proof (binary_round_aux_bounded (xorb s false) q e'
                  (new_location (Zpos m2) r) 213 256) as H.
    change (213 + 1) with 214 in H. change (2 * 213 + 256 + 1) with 683 in H.
    apply H; lia.
Qed.

Lemma int_div_1e3_total (f : Z) :
  0 < f < 2 ^ 53 -> exists q, PyFloat.int_div f PyFloat.lit_1e3 = Some q.
Proof.
  intros Hf. unfold PyFloat.int_div.
  destruct (of_int_bounded f Hf) as (x & -> & Hx).
  cbn [PyFloat.div PyFloat.lit_1e3].
  apply (to_int_bounded 214 683), div_1e3_bounded, Hx.
Qed.

(** For frequencies below [2^53] Hz the three conversions of the source
    raise no exception. *)
Lemma reset_val_total (f : Z) : 0 < f < 2 ^ 53 -> exists r, reset_val f = Some r.
Proof. intros Hf. apply int_mul_total; [exact Hf | reflexivity | lia]. Qed.

Lemma ready_val_total (f : Z) : 0 < f < 2 ^ 53 -> exists r, ready_val f = Some r.
Proof. intros Hf. apply int_mul_total; [exact Hf | reflexivity | lia]. Qed.

(** ** The gate in closed form *)

Lemma gate_after_succ (R S : Z) (n : N) :
  gate_after R S (N.succ n) = gate_tick (gate_after R S n).
Proof. unfold gate_after. apply N.iter_succ. Qed.

Lemma gate_tick_at (R S n : Z) :
  0 <= R -> 0 <= S -> 0 <= n ->
  gate_tick (gate_at R S n) = gate_at R S (n + 1).
Proof.
  intros HR HS Hn. unfold gate_tick, gate_at; simpl.
  destruct (Z.ltb_spec R n), (Z.ltb_spec R (n + 1)); try lia;
    destruct (Z.leb_spec n (R + S + 1)),
             (Z.leb_spec (n + 1) (R + S + 1)); try lia;
    destruct (Z.eqb_spec (Z.max 0 (R - n)) 0); try lia;
    destruct (Z.eqb_spec (Z.min S (Z.max 0 (R + 1 + S - n))) 0); try lia;
    simpl; f_equal; lia.
Qed.

Lemma gate_after_closed (R S : Z) (n : N) :
  0 <= R -> 0 <= S -> gate_after R S n = gate_at R S (Z.of_N n).
Proof.
  intros HR HS. induction n as [|n IH] using N.peano_ind.
  - unfold gate_after, gate_at, gate_init; simpl.
    destruct (Z.ltb_spec R 0), (Z.leb_spec 0 (R + S + 1)); try lia.
    f_equal; lia.
  - rewrite gate_after_succ, IH, gate_tick_at, N2Z.inj_succ by lia.
    reflexivity.
Qed.

Lemma gate_exec_snoc (R S : Z) (evs : list gate_event) (ev : gate_event) :
  gate_exec R S (evs ++ [ev]) = gate_step R S (gate_exec R S evs) ev.
Proof. unfold gate_exec. rewrite fold_left_app. reflexivity. Qed.

Lemma gate_exec_after (R S : Z) (evs : list gate_event) :
  gate_exec R S evs = gate_after R S (ticks_since_reset evs).
Proof.
  induction evs as [|ev evs IH] using rev_ind; [reflexivity|].
  rewrite gate_exec_snoc. unfold ticks_since_reset.
  rewrite fold_left_app. simpl. destruct ev; simpl.
  - rewrite gate_after_succ. f_equal. exact IH.
  - reflexivity.
Qed.

Lemma gate_reachable_exec (R S : Z) (g : Si5324ResetClock) :
  gate_reachable R S g <-> exists evs, g = gate_exec R S evs.
Proof.
  split.
  - induction 1 as [|g ev _ [evs ->]].
    + exists []. reflexivity.
    + exists (evs ++ [ev]). symmetry. apply gate_exec_snoc.
  - intros [evs ->]. induction evs as [|ev evs IH] using rev_ind.
    + constructor.
    + rewrite gate_exec_snoc. constructor. exact IH.
Qed.

Lemma gate_reachable_at (R S : Z) (g : Si5324ResetClock) :
  0 <= R -> 0 <= S -> gate_reachable R S g ->
  exists n, 0 <= n /\ g = gate_at R S n.
Proof.
  intros HR HS [evs ->]%gate_reachable_exec.
  exists (Z.of_N (ticks_since_reset evs)). split; [lia|].
  rewrite gate_exec_after. apply gate_after_closed; assumption.
Qed.

(** ** The values of the float conversions

    [binary_normalize] on an integer below [2^53] and the rounded product
    and quotient of two such floats, followed through [SpecFloat] to the
    integers Python's [int] returns. *)

Lemma digits2_pos_spec (p : positive) :
  2 ^ (Zpos (digits2_pos p) - 1) <= Zpos p < 2 ^ Zpos (digits2_pos p).
Proof.
  induction p as [p IH|p IH|]; cbn [digits2_pos].
  - rewrite Pos2Z.inj_succ.
    replace (Z.succ (Zpos (digits2_pos p)) - 1) with (Z.succ (Zpos (digits2_pos p) - 1)) by lia.
    rewrite !Z.pow_succ_r by lia. lia.
  - rewrite Pos2Z.inj_succ.
    replace (Z.succ (Zpos (digits2_pos p)) - 1) with (Z.succ (Zpos (digits2_pos p) - 1)) by lia.
    rewrite !Z.pow_succ_r by lia. lia.
  - cbn. lia.
Qed.

Lemma Zdigits2_unique (m k : Z) :
  2 ^ (k - 1) <= m < 2 ^ k -> 0 < k -> Zdigits2 m = k.
Proof.
  intros [Hlo Hhi] Hk.
  assert (Hm : 0 < m) by (pose proof (Z.pow_pos_nonneg 2 (k - 1)); lia).
  destruct m as [|p|p]; try lia. cbn [Zdigits2].
  pose proof (digits2_pos_spec p) as [Hlo' Hhi'].
  set (d := Zpos (digits2_pos p)) in *.
  assert (Hd : 0 < d) by (unfold d; lia).
  assert (k - 1 < d).
  { apply (Z.pow_lt_mono_r_iff 2); lia. }
  assert (d - 1 < k).
  { apply (Z.pow_lt_mono_r_iff 2); lia. }
  lia.
Qed.

Lemma shr_1_div2 (mrs : shr_record) :
  0 <= shr_m mrs -> shr_m (shr_1 mrs) = shr_m mrs / 2.
Proof.
  destruct mrs as [m r s]. cbn [shr_m].
  destruct m as [|[p|p|]|p]; cbn [shr_1 shr_m]; intros H.
  - reflexivity.
  - apply Z.div_unique with 1; lia.
  - apply Z.div_unique with 0; lia.
  - reflexivity.
  - lia.
Qed.

Lemma pow2_xI (n : positive) : 2 ^ Zpos n~1 = 2 * 2 ^ Zpos n * 2 ^ Zpos n.
Proof.
  change (Zpos n~1) with (Z.succ (2 * Zpos n)).
  rewrite Z.pow_succ_r, Z.pow_twice_r by lia. ring.
Qed.

Lemma pow2_xO (n : positive) : 2 ^ Zpos n~0 = 2 ^ Zpos n * 2 ^ Zpos n.
Proof. change (Zpos n~0) with (2 * Zpos n). apply Z.pow_twice_r. Qed.

Lemma iter_shr_1_div (n : positive) (mrs : shr_record) :
  0 <= shr_m mrs ->
  shr_m (iter_pos shr_1 n mrs) = shr_m mrs / 2 ^ Zpos n.
Proof.
  revert mrs. induction n as [n IH|n IH|]; intros mrs Hm; cbn [iter_pos].
  - assert (Hp : 0 < 2 ^ Zpos n) by (apply Z.pow_pos_nonneg; lia).
    assert (H1 : 0 <= shr_m (shr_1 mrs))
      by (rewrite shr_1_div2 by assumption; apply Z.div_pos; lia).
    assert (H2 : 0 <= shr_m (iter_pos shr_1 n (shr_1 mrs)))
      by (rewrite IH by assumption; apply Z.div_pos; lia).
    rewrite IH, IH, shr_1_div2 by assumption.
    rewrite !Z.div_div by lia. rewrite pow2_xI. f_equal. ring.
  - assert (Hp : 0 < 2 ^ Zpos n) by (apply Z.pow_pos_nonneg; lia).
    assert (H2 : 0 <= shr_m (iter_pos shr_1 n mrs))
      by (rewrite IH by assumption; apply Z.div_pos; lia).
    rewrite IH, IH by assumption.
    rewrite !Z.div_div by lia. rewrite pow2_xO. reflexivity.
  - apply shr_1_div2, Hm.
Qed.

Lemma shr_fexp_normal (m e : Z) (l : location) :
  53 <= Zdigits2 m -> 0 < m -> -1074 <= Zdigits2 m + e - 53 ->
  shr_m (fst (shr_fexp PyFloat.prec PyFloat.emax m e l))
  = m / 2 ^ (Zdigits2 m - 53) /\
  snd (shr_fexp PyFloat.prec PyFloat.emax m e l) = e + (Zdigits2 m - 53).
Proof.
  intros Hd Hm Hn. unfold shr_fexp. rewrite fexp_le.
  replace (Z.max (Zdigits2 m + e - 53) (-1074) - e) with (Zdigits2 m - 53) by lia.
  destruct (Zdigits2 m - 53) as [|n|n] eqn:Hshift; try lia; cbn [shr fst snd].
  - rewrite shr_record_of_loc_m, Z.pow_0_r, Z.div_1_r. split; lia.
  - rewrite iter_shr_1_div by (rewrite shr_record_of_loc_m; lia).
    rewrite shr_record_of_loc_m. split; reflexivity.
Qed.

Lemma div_pow2_canonical (m d : Z) :
  53 <= d -> 2 ^ (d - 1) <= m < 2 ^ d ->
  2 ^ 52 <= m / 2 ^ (d - 53) < 2 ^ 53.
Proof.
  intros Hd [Hlo Hhi].
  assert (Hp : 0 < 2 ^ (d - 53)) by (apply Z.pow_pos_nonneg; lia).
  assert (H1 : 2 ^ (d - 1) = 2 ^ (d - 53) * 2 ^ 52)
    by (rewrite <- Z.pow_add_r by lia; f_equal; lia).
  assert (H2 : 2 ^ d = 2 ^ (d - 53) * 2 ^ 53)
    by (rewrite <- Z.pow_add_r by lia; f_equal; lia).
  split.
  - apply Z.div_le_lower_bound; lia.
  - apply Z.div_lt_upper_bound; lia.
Qed.

Lemma round_nearest_even_bracket (m : Z) (l : location) :
  m <= round_nearest_even m l <= m + 1.
Proof.
  destruct l as [|[]]; cbn [round_nearest_even]; try lia.
  destruct (Z.even m); lia.
Qed.

(** Rounding of a positive integer mantissa with at least 53 digits in
    the normal range: the result is finite, its mantissa has 53 digits,
    and its value lies between the truncated mantissa and one more. *)
Lemma binary_round_aux_normal (s : bool) (m e : Z) (l : location) :
  0 < m -> 53 <= Zdigits2 m ->
  -1074 <= Zdigits2 m + e - 53 -> Zdigits2 m + e <= 1023 ->
  exists m'' e'' k,
    binary_round_aux PyFloat.prec PyFloat.emax s m e l
    = S754_finite s m'' e'' /\
    (k = 0 \/ k = 1) /\
    e'' = e + (Zdigits2 m - 53) + k /\
    2 ^ 52 <= Zpos m'' < 2 ^ 53 /\
    m / 2 ^ (Zdigits2 m - 53) <= Zpos m'' * 2 ^ k
    <= m / 2 ^ (Zdigits2 m - 53) + 1.
Proof.
  intros Hm Hd Hlo Hhi. unfold binary_round_aux.
  pose proof (shr_fexp_normal m e l Hd Hm Hlo) as [H1 H2].
  destruct (shr_fexp PyFloat.prec PyFloat.emax m e l) as [mrs' e'].
  cbn [fst snd] in H1, H2.
  assert (Hspec : 2 ^ (Zdigits2 m - 1) <= m < 2 ^ Zdigits2 m).
  { destruct m as [|p|p]; try lia. apply digits2_pos_spec. }
  pose proof (div_pow2_canonical m (Zdigits2 m) Hd Hspec) as Hm'.
  rewrite <- H1 in Hm'.
  pose proof (round_nearest_even_bracket (shr_m mrs') (loc_of_shr_record mrs'))
    as [Hr0 Hr1].
  set (r := round_nearest_even (shr_m mrs') (loc_of_shr_record mrs')) in *.
  destruct (Z.eq_dec r (2 ^ 53)) as [Hr53|Hr53].
  - assert (Hdr : Zdigits2 r = 54) by (rewrite Hr53; reflexivity).
    pose proof (shr_fexp_normal r e' loc_Exact) as [H3 H4];
      [lia | lia | lia |].
    destruct (shr_fexp PyFloat.prec PyFloat.emax r e' loc_Exact) as [mrs'' e''].
    cbn [fst snd] in H3, H4. rewrite Hdr, Hr53 in H3.
    change (2 ^ 53 / 2 ^ (54 - 53)) with (Zpos (2 ^ 52)) in H3. rewrite H3.
    replace (e'' <=? PyFloat.emax - PyFloat.prec) with true
      by (symmetry; apply Z.leb_le; unfold PyFloat.emax, PyFloat.prec; lia).
    exists (2 ^ 52)%positive, e'', 1. split; [reflexivity|].
    split; [auto|]. split; [lia|]. split; [split; [reflexivity|reflexivity]|].
    rewrite <- H1. change (Zpos (2 ^ 52) * 2 ^ 1) with (2 ^ 53). lia.
  - assert (Hdr : Zdigits2 r = 53) by (apply Zdigits2_unique; lia).
    pose proof (shr_fexp_normal r e' loc_Exact) as [H3 H4];
      [lia | lia | lia |].
    destruct (shr_fexp PyFloat.prec PyFloat.emax r e' loc_Exact) as [mrs'' e''].
    cbn [fst snd] in H3, H4. rewrite Hdr in H3, H4.
    change (2 ^ (53 - 53)) with 1 in H3. rewrite Z.div_1_r in H3. rewrite H3.
    destruct r as [|p|p] eqn:Hp; try lia.
    replace (e'' <=? PyFloat.emax - PyFloat.prec) with true
      by (symmetry; apply Z.leb_le; unfold PyFloat.emax, PyFloat.prec; lia).
    exists p, e'', 0. split; [reflexivity|].
    split; [auto|]. split; [lia|]. split; [lia|].
    rewrite <- H1. rewrite Z.pow_0_r. lia.
Qed.

(** A float with a 53-digit mantissa in the normal range is left
    unchanged by rounding. *)
Lemma binary_round_aux_canonical (s : bool) (m : positive) (e : Z) :
  Zdigits2 (Zpos m) = 53 -> -1074 <= e <= 970 ->
  binary_round_aux PyFloat.prec PyFloat.emax s (Zpos m) e loc_Exact
  = S754_finite s m e.
Proof.
  intros Hd He.
  assert (Hsh : shr_fexp PyFloat.prec PyFloat.emax (Zpos m) e loc_Exact
                = ({| shr_m := Zpos m; shr_r := false; shr_s := false |}, e)).
  { unfold shr_fexp. rewrite fexp_le, Hd.
    replace (Z.max (53 + e - 53) (-1074) - e) with 0 by lia. reflexivity. }
  unfold binary_round_aux. rewrite Hsh.
  cbn [shr_m loc_of_shr_record round_nearest_even]. rewrite Hsh. cbn [shr_m].
  replace (e <=? PyFloat.emax - PyFloat.prec) with true
    by (symmetry; apply Z.leb_le; unfold PyFloat.emax, PyFloat.prec; lia).
  reflexivity.
Qed.

(** Integers below [2^53] convert to floats exactly. *)
Lemma of_int_exact (f : Z) :
  0 < f < 2 ^ 53 ->
  exists mx ex,
    PyFloat.of_int f = Some (S754_finite false mx ex) /\
    -52 <= ex <= 0 /\ 2 ^ 52 <= Zpos mx < 2 ^ 53 /\
    Zpos mx = f * 2 ^ (- ex).
Proof.
  intros [Hf0 Hf]. destruct f as [|p|p]; try lia.
  unfold PyFloat.of_int, binary_normalize, binary_round.
  pose proof (shl_align_bound p 0
                (SpecFloat.fexp PyFloat.prec PyFloat.emax (Zpos (digits2_pos p) + 0)))
    as [Hmz Hez].
  rewrite fexp_le in Hez.
  destruct (shl_align p 0 _) as [mz ez]. cbn [fst snd] in Hmz, Hez.
  pose proof (digits2_pos_spec p) as [Hlo Hhi].
  pose proof (digits2_pos_le p 53 Hf) as Hd.
  pose proof (Pos2Z.is_pos (digits2_pos p)) as Hd0.
  set (d := Zpos (digits2_pos p)) in *.
  assert (Hez' : ez = d - 53) by lia.
  assert (Hcan : 2 ^ 52 <= Zpos mz < 2 ^ 53).
  { rewrite Hmz, Hez'. replace (0 - (d - 53)) with (53 - d) by lia.
    assert (Hp : 0 < 2 ^ (53 - d)) by (apply Z.pow_pos_nonneg; lia).
    assert (H1 : 2 ^ 52 = 2 ^ (d - 1) * 2 ^ (53 - d))
      by (rewrite <- Z.pow_add_r by lia; f_equal; lia).
    assert (H2 : 2 ^ 53 = 2 ^ d * 2 ^ (53 - d))
      by (rewrite <- Z.pow_add_r by lia; f_equal; lia).
    rewrite H1, H2. split; nia. }
  rewrite binary_round_aux_canonical;
    [| apply Zdigits2_unique; [exact Hcan | lia] | lia].
  exists mz, ez. split; [reflexivity|]. split; [lia|]. split; [exact Hcan|].
  rewrite Hmz. reflexivity.
Qed.

Lemma Zdigits2_range (m lo hi : Z) :
  0 < lo -> 2 ^ (lo - 1) <= m < 2 ^ hi -> lo <= Zdigits2 m <= hi.
Proof.
  intros Hlo [H1 H2].
  assert (Hm : 0 < m) by (pose proof (Z.pow_pos_nonneg 2 (lo - 1)); lia).
  destruct m as [|p|p]; try lia. cbn [Zdigits2].
  pose proof (digits2_pos_spec p) as [H3 H4].
  pose proof (Pos2Z.is_pos (digits2_pos p)).
  split.
  - assert (lo - 1 < Zpos (digits2_pos p)); [|lia].
    apply (Z.pow_lt_mono_r_iff 2); lia.
  - apply digits2_pos_le, H2.
Qed.

Lemma trunc_neg_exp (m : positive) (e : Z) :
  e < 0 ->
  2 ^ (- e) * PyFloat.trunc m e <= Zpos m
  < 2 ^ (- e) * (PyFloat.trunc m e + 1).
Proof.
  intros He. unfold PyFloat.trunc.
  destruct (Z.leb_spec 0 e); [lia|].
  assert (Hp : 0 < 2 ^ (- e)) by (apply Z.pow_pos_nonneg; lia).
  pose proof (Z.mul_div_le (Zpos m) (2 ^ (- e)) Hp).
  pose proof (Z.mul_succ_div_gt (Zpos m) (2 ^ (- e)) Hp). lia.
Qed.

(** [int(f * c)] for an integer [f] below [2^53] and a positive float
    [c = my * 2^ey] below [2^-2]: the result is above [f * c - 1] and
    at most [f * (my + 2) * 2^ey]. *)
Lemma int_mul_bracket (f : Z) (my : positive) (ey R : Z) :
  0 < f < 2 ^ 53 -> 2 ^ 52 <= Zpos my < 2 ^ 53 -> -1000 <= ey <= -55 ->
  PyFloat.int_mul f (S754_finite false my ey) = Some R ->
  f * Zpos my < (R + 1) * 2 ^ (- ey) /\
  R * 2 ^ (- ey) <= f * (Zpos my + 2).
Proof.
  intros Hf Hmy Hey. unfold PyFloat.int_mul.
  destruct (of_int_exact f Hf) as (mx & ex & -> & Hex & Hmx & Hval).
  unfold PyFloat.mul, SFmul.
  set (M := Zpos (mx * my)).
  assert (HM : M = Zpos mx * Zpos my) by apply Pos2Z.inj_mul.
  assert (HMr : 2 ^ 104 <= M < 2 ^ 106).
  { rewrite HM. change (2 ^ 104) with (2 ^ 52 * 2 ^ 52).
    change (2 ^ 106) with (2 ^ 53 * 2 ^ 53). nia. }
  pose proof (Zdigits2_range M 105 106 ltac:(lia) HMr) as Hd.
  destruct (binary_round_aux_normal (xorb false false) M (ex + ey) loc_Exact)
    as (m'' & e'' & k & -> & Hk & He'' & Hm'' & Hbr); try lia.
  cbn [PyFloat.to_int xorb]. intros [= <-].
  set (n := Zdigits2 M - 53) in *.
  assert (Hn : 52 <= n <= 53) by (unfold n; lia).
  assert (Hneg : e'' < 0) by lia.
  pose proof (trunc_neg_exp m'' e'' Hneg) as [Ht1 Ht2].
  set (R := PyFloat.trunc m'' e'') in *.
  assert (HN : 0 < 2 ^ n) by (apply Z.pow_pos_nonneg; lia).
  pose proof (Z.mul_div_le M (2 ^ n) HN) as Hq1.
  pose proof (Z.mul_succ_div_gt M (2 ^ n) HN) as Hq2.
  set (m' := M / 2 ^ n) in *.
  assert (Hpow : 2 ^ (- ex) * 2 ^ (- ey) = 2 ^ (- e'') * 2 ^ k * 2 ^ n).
  { rewrite <- !Z.pow_add_r by lia. f_equal. lia. }
  assert (HA : 0 < 2 ^ (- ex)) by (apply Z.pow_pos_nonneg; lia).
  assert (HB : 0 < 2 ^ (- ey)) by (apply Z.pow_pos_nonneg; lia).
  assert (HT : 0 < 2 ^ (- e'')) by (apply Z.pow_pos_nonneg; lia).
  assert (HK : 0 < 2 ^ k) by (apply Z.pow_pos_nonneg; lia).
  assert (HN53 : 2 ^ n <= 2 ^ 53) by (apply Z.pow_le_mono_r; lia).
  set (A := 2 ^ (- ex)) in *. set (B := 2 ^ (- ey)) in *.
  set (T := 2 ^ (- e'')) in *. set (K := 2 ^ k) in *. set (N := 2 ^ n) in *.
  assert (HMf : M = f * A * Zpos my) by lia.
  split.
  - (* M < (R+1) * A * B *)
    assert (H1 : Zpos m'' + 1 <= T * (R + 1)) by lia.
    assert (E1 : (Zpos m'' + 1) * K <= T * (R + 1) * K)
      by (apply Z.mul_le_mono_nonneg_r; lia).
    assert (H2 : m' + 1 <= T * (R + 1) * K) by (clear - E1 Hbr HK; lia).
    assert (E2 : (m' + 1) * N <= T * (R + 1) * K * N)
      by (apply Z.mul_le_mono_nonneg_r; lia).
    assert (H3 : M < T * (R + 1) * K * N) by (clear - E2 Hq2; lia).
    assert (H4 : f * A * Zpos my < (R + 1) * (A * B))
      by (rewrite Hpow; clear - H3 HMf; lia).
    apply (Z.mul_lt_mono_pos_l A); [exact HA|]. clear - H4. lia.
  - assert (H0 : 0 <= R) by (apply trunc_nonneg).
    assert (E1 : T * R * K <= Zpos m'' * K)
      by (apply Z.mul_le_mono_nonneg_r; lia).
    assert (H1 : T * R * K <= m' + 1) by (clear - E1 Hbr; lia).
    assert (E2 : T * R * K * N <= (m' + 1) * N)
      by (apply Z.mul_le_mono_nonneg_r; lia).
    assert (H2 : T * R * K * N <= M + N) by (clear - E2 Hq1; lia).
    assert (HfA : N <= 2 * (f * A)) by (clear - HN53 Hmx Hval; lia).
    assert (H3 : R * (A * B) <= f * A * Zpos my + 2 * (f * A))
      by (rewrite Hpow; clear - H2 HMf HfA; lia).
    apply Z.mul_le_mono_pos_l with (p := A); [exact HA|]. clear - H3. lia.
Qed.

(** [int(f / 1e3)] is the integer quotient of [f] by 1000 whenever that
    quotient is below [2^43]. *)
Lemma int_div_1e3_floor (f khz : Z) :
  0 < f < 1000 * 2 ^ 43 ->
  PyFloat.int_div f PyFloat.lit_1e3 = Some khz ->
  khz = f / 1000.
Proof.
  intros Hf. unfold PyFloat.int_div.
  destruct (of_int_exact f) as (mx & ex & -> & Hex & Hmx & Hval);
    [change (2 ^ 53) with (1024 * 2 ^ 43); lia|].
  unfold PyFloat.lit_1e3. cbn [PyFloat.div]. unfold SFdiv, SFdiv_core_binary.
  assert (Hd1 : Zdigits2 (Zpos mx) = 53) by (apply Zdigits2_unique; lia).
  set (m2 := 8796093022208000%positive).
  change (Zdigits2 (Zpos m2)) with 53. rewrite Hd1, fexp_le.
  replace (Z.min (Z.max (53 + ex - (53 + -43) - 53) (-1074)) (ex - -43))
    with (ex - 10) by lia.
  replace (ex - -43 - (ex - 10)) with 53 by lia.
  cbv iota beta. rewrite Z.shiftl_mul_pow2 by lia.
  destruct (Z.div_eucl (Zpos mx * 2 ^ 53) (Zpos m2)) as [q r] eqn:Hdiv.
  assert (Hq : q = Zpos mx * 1024 / 1000).
  { assert (Hq0 : q = Zpos mx * 2 ^ 53 / Zpos m2)
      by (unfold Z.div; rewrite Hdiv; reflexivity).
    rewrite Hq0. change (2 ^ 53) with (1024 * 2 ^ 43).
    change (Zpos m2) with (1000 * 2 ^ 43).
    rewrite Z.mul_assoc. apply Z.div_mul_cancel_r; lia. }
  assert (Hq1 : 1000 * q <= Zpos mx * 1024 < 1000 * q + 1000).
  { pose proof (Z.mul_div_le (Zpos mx * 1024) 1000 ltac:(lia)).
    pose proof (Z.mul_succ_div_gt (Zpos mx * 1024) 1000 ltac:(lia)).
    rewrite <- Hq in *. lia. }
  clear Hq Hdiv.
  assert (Hqr : 2 ^ 52 <= q < 2 ^ 54) by lia.
  pose proof (Zdigits2_range q 53 54 ltac:(lia) Hqr) as Hdq.
  destruct (binary_round_aux_normal (xorb false false) q (ex - 10)
              (new_location (Zpos m2) r))
    as (m'' & e'' & k & -> & Hk & He'' & Hm'' & Hbr); try lia.
  cbn [PyFloat.to_int xorb]. intros [= <-].
  set (n := Zdigits2 q - 53) in *.
  assert (Hn : 0 <= n <= 1) by (unfold n; lia).
  assert (Hneg : e'' < 0) by lia.
  pose proof (trunc_neg_exp m'' e'' Hneg) as [Ht1 Ht2].
  pose proof (trunc_nonneg m'' e'') as H0.
  set (R := PyFloat.trunc m'' e'') in *.
  assert (HN : 0 < 2 ^ n) by (apply Z.pow_pos_nonneg; lia).
  pose proof (Z.mul_div_le q (2 ^ n) HN) as Hq2.
  pose proof (Z.mul_succ_div_gt q (2 ^ n) HN) as Hq3.
  set (m' := q / 2 ^ n) in *.
  assert (Hpow : 2 ^ (- ex) * 1024 = 2 ^ (- e'') * 2 ^ k * 2 ^ n).
  { change 1024 with (2 ^ 10). rewrite <- !Z.pow_add_r by lia. f_equal. lia. }
  assert (HA : 0 < 2 ^ (- ex)) by (apply Z.pow_pos_nonneg; lia).
  assert (HT : 0 < 2 ^ (- e'')) by (apply Z.pow_pos_nonneg; lia).
  assert (HK : 0 < 2 ^ k) by (apply Z.pow_pos_nonneg; lia).
  assert (Hsmall : 1000 * 2 ^ n < 2 ^ (- ex) * 1024).
  { destruct (Z.eq_dec ex 0) as [->|Hex0].
    - assert (Hq53 : q < 2 ^ 53).
      { rewrite Z.pow_0_r, Z.mul_1_r in Hval.
        change (2 ^ 53) with (1024 * 2 ^ 43). lia. }
      assert (Hdq53 : Zdigits2 q = 53) by (apply Zdigits2_unique; lia).
      unfold n. rewrite Hdq53. cbn. lia.
    - assert (2 ^ 1 <= 2 ^ (- ex)) by (apply Z.pow_le_mono_r; lia).
      assert (2 ^ n <= 2 ^ 1) by (apply Z.pow_le_mono_r; lia).
      change (2 ^ 1) with 2 in *. lia. }
  set (A := 2 ^ (- ex)) in *. set (T := 2 ^ (- e'')) in *.
  set (K := 2 ^ k) in *. set (N := 2 ^ n) in *.
  assert (HC : 0 < A * 1024) by lia.
  assert (HvalC : Zpos mx * 1024 = f * (A * 1024)) by (rewrite Hval; ring).
  set (C := A * 1024) in *.
  assert (Hlo : f < 1000 * (R + 1)).
  { assert (H1 : Zpos m'' + 1 <= T * (R + 1)) by lia.
    assert (E1 : (Zpos m'' + 1) * K <= T * (R + 1) * K)
      by (apply Z.mul_le_mono_nonneg_r; lia).
    assert (H2 : m' + 1 <= T * (R + 1) * K) by (clear - E1 Hbr HK; lia).
    assert (E2 : (m' + 1) * N <= T * (R + 1) * K * N)
      by (apply Z.mul_le_mono_nonneg_r; lia).
    assert (H3 : q + 1 <= T * (R + 1) * K * N) by (clear - E2 Hq3; lia).
    assert (H4 : q + 1 <= (R + 1) * C)
      by (rewrite Hpow; clear - H3; lia).
    apply (Z.mul_lt_mono_pos_r C); [exact HC|].
    clear - H4 Hq1 HvalC. lia. }
  assert (Hhi : 1000 * R <= f).
  { assert (E1 : T * R * K <= Zpos m'' * K)
      by (apply Z.mul_le_mono_nonneg_r; lia).
    assert (H1 : T * R * K <= m' + 1) by (clear - E1 Hbr; lia).
    assert (E2 : T * R * K * N <= (m' + 1) * N)
      by (apply Z.mul_le_mono_nonneg_r; lia).
    assert (H2 : T * R * K * N <= q + N) by (clear - E2 Hq2; lia).
    assert (H3 : R * C <= q + N)
      by (rewrite Hpow; clear - H2; lia).
    assert (H5 : 1000 * R < f + 1); [|lia].
    apply (Z.mul_lt_mono_pos_r C); [exact HC|].
    clear - H3 Hq1 HvalC Hsmall. lia. }
  apply Z.div_unique with (f - 1000 * R); lia.
Qed.

Lemma spec_ceil_spec (f num den : Z) :
  0 < den ->
  f * num <= den * spec_ceil f num den < f * num + den.
Proof.
  intros Hden. unfold spec_ceil.
  pose proof (Z.mul_div_le (- (f * num)) den Hden).
  pose proof (Z.mul_succ_div_gt (- (f * num)) den Hden). lia.
Qed.

Lemma floor_spec (a den : Z) :
  0 < den -> den * (a / den) <= a < den * (a / den) + den.
Proof.
  intros Hden.
  pose proof (Z.mul_div_le a den Hden).
  pose proof (Z.mul_succ_div_gt a den Hden). lia.
Qed.

Lemma reset_val_bracket (f R : Z) :
  0 < f < 2 ^ 53 -> reset_val f = Some R ->
  f * 11 / 10000000 <= R <= spec_ceil f 11 10000000 /\
  spec_ceil f 11 10000000 <= R + 1.
Proof.
  intros Hf HR. unfold reset_val, PyFloat.lit_1_1e_6 in HR.
  apply int_mul_bracket in HR as [H1 H2]; [| exact Hf | lia | lia].
  change (2 ^ (- -72)) with 4722366482869645213696 in *.
  change (2 ^ 53) with 9007199254740992 in Hf.
  pose proof (spec_ceil_spec f 11 10000000 ltac:(lia)) as Hc.
  pose proof (floor_spec (f * 11) 10000000 ltac:(lia)) as Hfl.
  set (c := spec_ceil f 11 10000000) in *.
  set (q := f * 11 / 10000000) in *.
  lia.
Qed.

Lemma ready_val_bracket (f S : Z) :
  0 < f < 2 ^ 53 -> ready_val f = Some S ->
  f * 11 / 1000 - 1 <= S <= spec_ceil f 11 1000 /\
  f < 100 * (S + 1) /\
  (f < 2 ^ 50 -> spec_ceil f 11 1000 <= S + 1).
Proof.
  intros Hf HS. unfold ready_val, PyFloat.lit_11e_3 in HS.
  apply int_mul_bracket in HS as [H1 H2]; [| exact Hf | lia | lia].
  change (2 ^ (- -59)) with 576460752303423488 in *.
  change (2 ^ 53) with 9007199254740992 in Hf.
  change (2 ^ 50) with 1125899906842624.
  pose proof (spec_ceil_spec f 11 1000 ltac:(lia)) as Hc.
  pose proof (floor_spec (f * 11) 1000 ltac:(lia)) as Hfl.
  set (c := spec_ceil f 11 1000) in *.
  set (q := f * 11 / 1000) in *.
  lia.
Qed.

(** The reset counter is positive from 909 091 Hz on and zero below, and
    the ready counter is positive wherever the reset counter is. *)
Lemma reset_val_positive (f R : Z) :
  0 < f < 2 ^ 53 -> reset_val f = Some R -> (0 < R <-> 909091 <= f).
Proof.
  intros Hf HR.
  destruct (reset_val_bracket f R Hf HR) as ((Hlo & _) & _).
  unfold reset_val, PyFloat.lit_1_1e_6 in HR.
  apply int_mul_bracket in HR as [_ H2]; [| exact Hf | lia | lia].
  change (2 ^ (- -72)) with 4722366482869645213696 in H2.
  pose proof (floor_spec (f * 11) 10000000 ltac:(lia)) as Hfl.
  set (q := f * 11 / 10000000) in *.
  split; intros H.
  - destruct (Z.le_gt_cases 909091 f) as [|Hsmall]; [assumption|].
    assert (H1 : 1 * 4722366482869645213696
                 <= R * 4722366482869645213696)
      by (apply Z.mul_le_mono_nonneg_r; lia).
    clear - H1 H2 Hsmall Hf. lia.
  - clear - Hlo Hfl H. lia.
Qed.

Lemma ready_val_positive (f S : Z) :
  909091 <= f < 2 ^ 53 -> ready_val f = Some S -> 0 < S.
Proof.
  intros Hf HS.
  destruct (ready_val_bracket f S ltac:(lia) HS) as (_ & H & _). lia.
Qed.

Lemma Signal_max_inv (n v : Z) :
  Signal_max (n + 1) n = Some v <-> 0 < n /\ v = n.
Proof.
  unfold Signal_max. replace (n + 1 - 1) with n by lia.
  destruct (Z.ltb_spec 0 n); split.
  - intros [= <-]. auto.
  - intros [_ ->]. reflexivity.
  - discriminate.
  - lia.
Qed.

Lemma Si5324ResetClock_init_inv (f : Z) (g : Si5324ResetClock) :
  Si5324ResetClock_init f = Some g <->
  exists R S,
    reset_val f = Some R /\ ready_val f = Some S /\ 0 < R /\ 0 < S /\
    g = gate_init R S.
Proof.
  unfold Si5324ResetClock_init. split.
  - destruct (reset_val f) as [R|]; [|discriminate].
    destruct (Signal_max (R + 1) R) as [r|] eqn:Hr; [|discriminate].
    destruct (ready_val f) as [S|]; [|discriminate].
    destruct (Signal_max (S + 1) S) as [s|] eqn:Hs; [|discriminate].
    apply Signal_max_inv in Hr as [HR ->]. apply Signal_max_inv in Hs as [HS ->].
    intros [= <-]. exists R, S. auto.
  - intros (R & S & -> & -> & HR & HS & ->).
    rewrite (proj2 (Signal_max_inv R R) (conj HR eq_refl)).
    rewrite (proj2 (Signal_max_inv S S) (conj HS eq_refl)). reflexivity.
Qed.

(** ** The gate: counters and phases *)

(** C1 (amended): a gate is built only for a frequency whose two float
    conversions succeed and give tick counts of at least 1 (a counter
    signal with start value 0 is refused); for a positive frequency below
    [2^53] Hz that is exactly from 909 091 Hz on.  A built gate starts
    with its reset-hold counter at [int(f*1.1e-6)] and its ready-settle
    counter at [int(f*11e-3)], the binary64 products truncated toward
    zero, not their ceilings: below [2^53] Hz the first lies between the
    floor and the ceiling of the exact product and the second between the
    floor less one and the ceiling.  Both are positive, each counter goes
    down by one per tick to exactly zero, stays there, and is never
    negative. *)
Theorem gate_counters_truncated (f : Z) :
  0 < f ->
  (f < 2 ^ 53 ->
   ((exists g, Si5324ResetClock_init f = Some g) <-> 909091 <= f)) /\
  forall g, Si5324ResetClock_init f = Some g ->
  exists R S,
    reset_val f = Some R /\ ready_val f = Some S /\ g = gate_init R S /\
    reset_ctr g = R /\ ready_ctr g = S /\
    0 < R /\ 0 < S /\
    (f < 2 ^ 53 ->
     f * 11 / 10000000 <= R <= spec_ceil f 11 10000000 /\
     f * 11 / 1000 - 1 <= S <= spec_ceil f 11 1000) /\
    (forall n, 0 <= reset_ctr (gate_after R S n) /\
               0 <= ready_ctr (gate_after R S n)) /\
    (forall n, Z.of_N n <= R ->
               reset_ctr (gate_after R S n) = R - Z.of_N n) /\
    (forall n, R <= Z.of_N n -> reset_ctr (gate_after R S n) = 0) /\
    (forall n, Z.of_N n <= R + 1 -> ready_ctr (gate_after R S n) = S) /\
    (forall n, R + 1 <= Z.of_N n <= R + 1 + S ->
               ready_ctr (gate_after R S n) = S - (Z.of_N n - (R + 1))) /\
    (forall n, R + 1 + S <= Z.of_N n -> ready_ctr (gate_after R S n) = 0).
Proof.
  intros Hf. split.
  { intros Hlt.
    destruct (reset_val_total f) as [r Hr]; [lia|].
    destruct (ready_val_total f) as [s Hs]; [lia|].
    pose proof (reset_val_positive f r ltac:(lia) Hr) as Hpos.
    split.
    - intros [g (R & S & HR & _ & HR0 & _)%Si5324ResetClock_init_inv].
      rewrite Hr in HR. injection HR as <-. apply Hpos, HR0.
    - intros Hbig. exists (gate_init r s). apply Si5324ResetClock_init_inv.
      exists r, s. repeat split; try assumption.
      + apply Hpos, Hbig.
      + apply (ready_val_positive f s); [lia | exact Hs]. }
  intros g (R & S & HR & HS & HR0 & HS0 & ->)%Si5324ResetClock_init_inv.
  exists R, S.
  do 7 (split; [first [reflexivity | assumption]|]).
  split.
  { intros Hlt.
    destruct (reset_val_bracket f R ltac:(lia) HR) as (HRb & _).
    destruct (ready_val_bracket f S ltac:(lia) HS) as (HSb & _).
    split; assumption. }
  repeat split; intros; rewrite gate_after_closed by lia;
    unfold gate_at; simpl; lia.
Qed.

(** C2: whatever ticks and external resets the gate has seen since
    power-up, its not-ready output is deasserted only when the
    reset-hold counter and then the ready-settle counter have run out:
    exactly when at least [R + S + 2] ticks have passed since the last
    reset, at which point both counters are zero. *)
Theorem gate_never_ready_early (R S : Z) (evs : list gate_event) :
  0 <= R -> 0 <= S ->
  (si5324_not_ready (gate_exec R S evs) = false <->
   R + S + 2 <= Z.of_N (ticks_since_reset evs)) /\
  (si5324_not_ready (gate_exec R S evs) = false ->
   reset_done (gate_exec R S evs) = true /\
   reset_ctr (gate_exec R S evs) = 0 /\
   ready_ctr (gate_exec R S evs) = 0).
Proof.
  intros HR HS. rewrite gate_exec_after, gate_after_closed by assumption.
  unfold gate_at; simpl.
  destruct (Z.leb_spec (Z.of_N (ticks_since_reset evs)) (R + S + 1));
    destruct (Z.ltb_spec R (Z.of_N (ticks_since_reset evs)));
    repeat split; intros; try discriminate; lia.
Qed.

(** C6 (amended): in every reachable state of the gate both counters
    are non-negative; in a counting phase a tick takes exactly one off
    the active counter and keeps the phase while the counter is not
    zero; on the tick on which the counter is zero nothing is taken off
    and the gate moves to the next phase; [Ready] is left by no tick;
    the phase never moves backward on a tick; an external reset puts
    both counters back to their configured durations. *)
Theorem gate_phase_invariant (R S : Z) (g : Si5324ResetClock) :
  0 <= R -> 0 <= S -> gate_reachable R S g ->
  0 <= active_ctr g /\ 0 <= reset_ctr g /\ 0 <= ready_ctr g /\
  (active_ctr g = 0 ->
   reset_ctr (gate_tick g) = reset_ctr g /\
   ready_ctr (gate_tick g) = ready_ctr g) /\
  (gate_phase g <> Ready -> gate_phase (gate_tick g) = gate_phase g ->
   active_ctr (gate_tick g) = active_ctr g - 1) /\
  (gate_phase g <> Ready -> active_ctr g <> 0 ->
   gate_phase (gate_tick g) = gate_phase g /\
   active_ctr (gate_tick g) = active_ctr g - 1) /\
  (gate_phase g <> Ready -> active_ctr g = 0 ->
   gate_phase (gate_tick g) = next_phase (gate_phase g)) /\
  (gate_phase g = Ready -> gate_tick g = g) /\
  phase_rank (gate_phase g) <= phase_rank (gate_phase (gate_tick g)) /\
  gate_step R S g ExtReset = gate_init R S /\
  reset_ctr (gate_init R S) = R /\ ready_ctr (gate_init R S) = S /\
  gate_phase (gate_init R S) = ResetHold.
Proof.
  intros HR HS Hg.
  destruct (gate_reachable_at R S g HR HS Hg) as (n & Hn & ->).
  rewrite gate_tick_at by assumption.
  unfold active_ctr, gate_phase, gate_at; simpl.
  destruct (Z.leb_spec n (R + S + 1)),
           (Z.leb_spec (n + 1) (R + S + 1)); try lia;
    destruct (Z.ltb_spec R n), (Z.ltb_spec R (n + 1)); try lia;
    simpl; repeat split; intros; try congruence; try lia;
    f_equal; lia.
Qed.

(** ** The compiled program *)

Lemma emit_octets_flat (program : list Inst) (subseq : list Z) :
  emit_octets program subseq
  = program ++ flat_map (fun octet =>
                           [InstWrite I2C_XFER_ADDR (Z.lor I2C_WRITE octet);
                            InstWait I2C_XFER_ADDR I2C_IDLE]) subseq.
Proof.
  unfold emit_octets. revert program.
  induction subseq as [|octet subseq IH]; intros program; simpl.
  - symmetry. apply app_nil_r.
  - rewrite IH, <- app_assoc. reflexivity.
Qed.

Lemma emit_subseq_flat (program : list Inst) (subseq : list Z) :
  emit_subseq program subseq = program ++ transaction subseq.
Proof.
  unfold emit_subseq, transaction.
  rewrite emit_octets_flat, <- !app_assoc. reflexivity.
Qed.

Lemma emit_all_flat (program : list Inst) (seqs : list (list Z)) :
  fold_left emit_subseq seqs program
  = program ++ flat_map transaction seqs.
Proof.
  revert program. induction seqs as [|subseq seqs IH]; intros program.
  - symmetry. apply app_nil_r.
  - cbn [fold_left flat_map].
    rewrite IH, emit_subseq_flat, <- app_assoc. reflexivity.
Qed.

Lemma get_i2c_program_flat (f : Z) :
  get_i2c_program f
  = option_map (fun khz => InstWrite I2C_CONFIG_ADDR khz
                             :: flat_map transaction i2c_sequence ++ [InstEnd])
               (PyFloat.int_div f PyFloat.lit_1e3).
Proof.
  unfold get_i2c_program.
  destruct (PyFloat.int_div f PyFloat.lit_1e3) as [khz|]; [|reflexivity].
  cbv zeta. rewrite emit_all_flat. reflexivity.
Qed.

Lemma get_i2c_program_inv (f : Z) (p : list Inst) :
  get_i2c_program f = Some p ->
  exists khz,
    PyFloat.int_div f PyFloat.lit_1e3 = Some khz /\
    p = InstWrite I2C_CONFIG_ADDR khz
          :: flat_map transaction i2c_sequence ++ [InstEnd].
Proof.
  rewrite get_i2c_program_flat.
  destruct (PyFloat.int_div f PyFloat.lit_1e3) as [khz|]; [|discriminate].
  intros [= <-]. exists khz. split; reflexivity.
Qed.

Lemma body_awaits :
  flat_map transaction i2c_sequence = flat_map await xfer_commands.
Proof. reflexivity. Qed.

Lemma await_followed (cmds : list Z) (i : nat) (a v : Z) :
  nth_error (flat_map await cmds ++ [InstEnd]) i = Some (InstWrite a v) ->
  nth_error (flat_map await cmds ++ [InstEnd]) (S i)
  = Some (InstWait I2C_XFER_ADDR I2C_IDLE).
Proof.
  revert i. induction cmds as [|c cmds IH]; intros i.
  - destruct i as [|[|i]]; discriminate.
  - destruct i as [|[|i]]; cbn [flat_map await app nth_error].
    + reflexivity.
    + discriminate.
    + apply IH.
Qed.

Lemma get_i2c_program_total (f : Z) :
  0 < f < 2 ^ 53 -> exists p, get_i2c_program f = Some p.
Proof.
  intros Hf. rewrite get_i2c_program_flat.
  destruct (int_div_1e3_total f Hf) as [khz ->]. cbn [option_map]. eauto.
Qed.

(** C4 (amended): compilation succeeds for every positive frequency
    below [2^53] Hz, and a compiled program is the write of [int(f/1e3)] to
    the configuration register, directly followed by the first bus
    start (no wait in between); then, for the bus-address-select
    sub-sequence and each of the 21 (not 22) device-register
    sub-sequences in turn, start and wait, a write and a wait per
    payload byte, stop and wait; then [End].  It is never empty and
    its last instruction is [End]. *)
Theorem program_shape (f : Z) :
  (0 < f < 2 ^ 53 -> exists p, get_i2c_program f = Some p) /\
  forall p, get_i2c_program f = Some p ->
  exists khz sel devs,
    PyFloat.int_div f PyFloat.lit_1e3 = Some khz /\
    i2c_sequence = sel :: devs /\
    sel = [Z.shiftl 0x74 1; Z.shiftl 1 7] /\
    length devs = 21%nat /\
    Forall (fun d => exists register value,
                       d = [Z.shiftl 0x68 1; register; value]) devs /\
    p = InstWrite I2C_CONFIG_ADDR khz
          :: flat_map transaction (sel :: devs) ++ [InstEnd] /\
    nth_error p 1 = Some (InstWrite I2C_XFER_ADDR I2C_START) /\
    p <> [] /\
    last p (InstWrite 0 0) = InstEnd.
Proof.
  split; [apply get_i2c_program_total|].
  intros p (khz & Hk & ->)%get_i2c_program_inv.
  exists khz. eexists. eexists.
  split; [exact Hk|]. split; [reflexivity|].
  split; [reflexivity|]. split; [reflexivity|].
  split; [repeat constructor; eexists; eexists; reflexivity|].
  split; [reflexivity|]. split; [reflexivity|].
  split; [discriminate|].
  change (InstWrite I2C_CONFIG_ADDR khz
            :: flat_map transaction i2c_sequence ++ [InstEnd])
    with ((InstWrite I2C_CONFIG_ADDR khz
             :: flat_map transaction i2c_sequence) ++ [InstEnd]).
  apply last_last.
Qed.

(** C10: for two positive frequencies compilation succeeds whenever
    both are below [2^53] Hz, and the programs compiled for them both
    have 220 instructions and agree at every position but 0, where both
    write to the configuration register and only the value written may
    differ. *)
Theorem program_depends_on_frequency_only_at_0 (f1 f2 : Z) :
  0 < f1 -> 0 < f2 ->
  (f1 < 2 ^ 53 -> f2 < 2 ^ 53 ->
   exists p1 p2, get_i2c_program f1 = Some p1 /\
                 get_i2c_program f2 = Some p2) /\
  forall p1 p2,
  get_i2c_program f1 = Some p1 -> get_i2c_program f2 = Some p2 ->
  length p1 = 220%nat /\ length p2 = 220%nat /\
  (exists v1 v2 rest,
      p1 = InstWrite I2C_CONFIG_ADDR v1 :: rest /\
      p2 = InstWrite I2C_CONFIG_ADDR v2 :: rest) /\
  (forall i, i <> 0%nat -> nth_error p1 i = nth_error p2 i).
Proof.
  intros Hf1 Hf2. split.
  { intros Hlt1 Hlt2.
    destruct (get_i2c_program_total f1) as [p1 Hp1]; [lia|].
    destruct (get_i2c_program_total f2) as [p2 Hp2]; [lia|]. eauto. }
  intros p1 p2 (v1 & _ & ->)%get_i2c_program_inv
               (v2 & _ & ->)%get_i2c_program_inv.
  split; [reflexivity|]. split; [reflexivity|]. split.
  - exists v1, v2. eexists. split; reflexivity.
  - intros [|i] Hi; [congruence | reflexivity].
Qed.

(** C5: for the documented divider constants the entries 7 to 19 of
    the I2C sequence address the Si5324 with exactly the register
    numbers and bytes the packing formulas give (register 25 holds
    192, 31-33 hold 0, 0, 7, register 40 holds 192, 41-42 hold 78,
    143, 43-45 hold 0, 9, 209 and 46-48 hold 0, 17, 244), and the
    compiled program writes each register number and byte, or-ed with
    the write command, at instructions [10 k + 3] and [10 k + 5] for
    entry [k]. *)
Theorem divider_register_bytes (f : Z) (p : list Inst) :
  get_i2c_program f = Some p ->
  firstn 13 (skipn 7 i2c_sequence)
  = map (fun rv => [Z.shiftl 0x68 1; fst rv; snd rv]) spec_divider_registers /\
  spec_divider_registers
  = [(25, 192); (31, 0); (32, 0); (33, 7); (40, 192); (41, 78); (42, 143);
     (43, 0); (44, 9); (45, 209); (46, 0); (47, 17); (48, 244)] /\
  forall k register value,
    nth_error spec_divider_registers k = Some (register, value) ->
    nth_error p (10 * (k + 7) + 1)
    = Some (InstWrite I2C_XFER_ADDR (Z.lor I2C_WRITE (Z.shiftl 0x68 1))) /\
    nth_error p (10 * (k + 7) + 3)
    = Some (InstWrite I2C_XFER_ADDR (Z.lor I2C_WRITE register)) /\
    nth_error p (10 * (k + 7) + 5)
    = Some (InstWrite I2C_XFER_ADDR (Z.lor I2C_WRITE value)).
Proof.
  intros (khz & _ & ->)%get_i2c_program_inv.
  split; [reflexivity|]. split; [reflexivity|].
  intros k register value Hk.
  do 13 (destruct k as [|k];
         [injection Hk as <- <-; repeat split; reflexivity|]).
  destruct k; discriminate Hk.
Qed.

(** ** The sequencer behind the gate *)

Lemma satellite_after_succ (p : list Inst) (g : Si5324ResetClock)
    (fin : N -> bool) (n : N) :
  satellite_after p g fin (N.succ n)
  = satellite_tick p (fin n) (satellite_after p g fin n).
Proof.
  exact (N.peano_rect_succ (fun _ => Satellite) (satellite_init g)
           (fun i s => satellite_tick p (fin i) s) n).
Qed.

Lemma satellite_tick_gate (p : list Inst) (fin : bool) (s : Satellite) :
  si5324_reset_clock (satellite_tick p fin s)
  = gate_tick (si5324_reset_clock s).
Proof.
  unfold satellite_tick. destruct (seq_step _ _ _ _). reflexivity.
Qed.

Lemma satellite_tick_sequencer (p : list Inst) (fin : bool) (s : Satellite) :
  sequencer (satellite_tick p fin s)
  = fst (seq_step p (si5324_not_ready (si5324_reset_clock s))
                  (view_of (i2c_master s)) (sequencer s)).
Proof.
  unfold satellite_tick. destruct (seq_step _ _ _ _). reflexivity.
Qed.

Lemma satellite_tick_bus (p : list Inst) (fin : bool) (s : Satellite) :
  i2c_master (satellite_tick p fin s)
  = bus_tick fin (satellite_request p s) (i2c_master s).
Proof.
  unfold satellite_tick, satellite_request.
  destruct (seq_step _ _ _ _). reflexivity.
Qed.

Lemma satellite_gate (p : list Inst) (g : Si5324ResetClock)
    (fin : N -> bool) (n : N) :
  si5324_reset_clock (satellite_after p g fin n) = N.iter n gate_tick g.
Proof.
  induction n as [|n IH] using N.peano_ind; [reflexivity|].
  rewrite satellite_after_succ, satellite_tick_gate, IH, N.iter_succ.
  reflexivity.
Qed.

Lemma bus_tick_quiet (fin : bool) :
  bus_tick fin None bus_init = bus_init.
Proof. destruct fin; reflexivity. Qed.

(** While the gate has kept not-ready asserted, nothing has moved. *)
Lemma satellite_held (p : list Inst) (g : Si5324ResetClock)
    (fin : N -> bool) (n : N) :
  (forall m, (m < n)%N -> si5324_not_ready (N.iter m gate_tick g) = true) ->
  sequencer (satellite_after p g fin n) = Idle /\
  i2c_master (satellite_after p g fin n) = bus_init.
Proof.
  induction n as [|n IH] using N.peano_ind; intros Hheld.
  - split; reflexivity.
  - destruct IH as [Hq Hb]; [intros m Hm; apply Hheld; lia|].
    rewrite satellite_after_succ, satellite_tick_sequencer,
      satellite_tick_bus.
    unfold satellite_request.
    rewrite satellite_gate, Hheld, Hb by lia.
    split; [reflexivity | apply bus_tick_quiet].
Qed.

Lemma not_ready_stays_clear (g : Si5324ResetClock) :
  si5324_not_ready g = false -> si5324_not_ready (gate_tick g) = false.
Proof.
  unfold gate_tick; simpl. intros ->.
  destruct (reset_done g), (negb (ready_ctr g =? 0)); reflexivity.
Qed.

Lemma bus_tick_none_idle (fin : bool) (b : BusController) :
  is_idle b = true -> is_idle (bus_tick fin None b) = true.
Proof. unfold is_idle, bus_tick; simpl. destruct fin, (status b); auto. Qed.

Lemma seq_exec_handshake (p : list Inst) (fin : bool) (b : BusController)
    (pc : nat) (issued : bool) :
  caller_error b = false ->
  (issued = false -> is_idle b = true) ->
  (issued = true -> exists a v, nth_error p pc = Some (InstWrite a v)) ->
  let q := fst (seq_exec p (view_of b) pc issued) in
  let b' := bus_tick fin (snd (seq_exec p (view_of b) pc issued)) b in
  caller_error b' = false /\
  (may_issue q = true -> is_idle b' = true) /\
  (forall pc', q = Executing pc' true ->
               exists a v, nth_error p pc' = Some (InstWrite a v)).
Proof.
  intros Herr Hidle Hiss. unfold seq_exec.
  destruct (nth_error p pc) as [[a v|a v|]|] eqn:Hpc.
  - destruct issued.
    + cbn [complete view_of].
      destruct (is_idle b) eqn:Hb; cbn [fst snd may_issue negb].
      * split; [exact Herr|]. split.
        -- intros _. apply bus_tick_none_idle, Hb.
        -- discriminate.
      * split; [exact Herr|]. split; [discriminate|].
        intros pc' [= <-]. eauto.
    + cbn [fst snd may_issue negb]. specialize (Hidle eq_refl).
      split; [|split; [discriminate | intros pc' [= <-]; eauto]].
      unfold bus_tick. destruct (a =? I2C_XFER_ADDR); cbn [caller_error].
      * rewrite Herr, Hidle. reflexivity.
      * exact Herr.
  - destruct issued.
    + destruct (Hiss eq_refl) as (a' & v' & [=]).
    + specialize (Hidle eq_refl).
      destruct (read (view_of b) a =? v); cbn [fst snd may_issue negb];
        (split; [exact Herr|]);
        (split; [intros _; apply bus_tick_none_idle, Hidle | discriminate]).
  - cbn [fst snd may_issue]. split; [exact Herr|].
    split; discriminate.
  - destruct issued.
    + destruct (Hiss eq_refl) as (a' & v' & [=]).
    + specialize (Hidle eq_refl). cbn [fst snd may_issue negb].
      split; [exact Herr|].
      split; [intros _; apply bus_tick_none_idle, Hidle | discriminate].
Qed.

Lemma handshake_step (p : list Inst) (fin : bool) (s : Satellite) :
  handshake_ok p s -> handshake_ok p (satellite_tick p fin s).
Proof.
  intros (Herr & Hidle & Hheld & Hiss). unfold handshake_ok.
  rewrite satellite_tick_gate, satellite_tick_sequencer, satellite_tick_bus.
  unfold satellite_request.
  destruct (si5324_not_ready (si5324_reset_clock s)) eqn:Hnr.
  - rewrite (Hheld eq_refl) in *. cbn [seq_step fst snd may_issue].
    split; [exact Herr|].
    split; [intros _; apply bus_tick_none_idle, Hidle; reflexivity|].
    split; [reflexivity | discriminate].
  - rewrite (not_ready_stays_clear _ Hnr).
    cut (caller_error
           (bus_tick fin (snd (seq_step p false (view_of (i2c_master s))
                                        (sequencer s))) (i2c_master s))
         = false /\
         (may_issue (fst (seq_step p false (view_of (i2c_master s))
                                   (sequencer s))) = true ->
          is_idle (bus_tick fin (snd (seq_step p false
                                        (view_of (i2c_master s))
                                        (sequencer s))) (i2c_master s))
          = true) /\
         (forall pc, fst (seq_step p false (view_of (i2c_master s))
                                   (sequencer s)) = Executing pc true ->
                     exists a v, nth_error p pc = Some (InstWrite a v))).
    { intros (H1 & H2 & H3). repeat split; auto. discriminate. }
    destruct (sequencer s) as [|pc issued|] eqn:Hq; cbn [seq_step].
    + apply seq_exec_handshake; auto. discriminate.
    + apply seq_exec_handshake; auto.
      * intros ->. apply Hidle. reflexivity.
      * intros ->. apply Hiss. reflexivity.
    + cbn [fst snd may_issue]. split; [exact Herr|]. split; discriminate.
Qed.

Lemma handshake_always (p : list Inst) (g : Si5324ResetClock)
    (fin : N -> bool) (n : N) :
  handshake_ok p (satellite_after p g fin n).
Proof.
  induction n as [|n IH] using N.peano_ind.
  - repeat split; auto; discriminate.
  - rewrite satellite_after_succ. apply handshake_step, IH.
Qed.

Lemma request_needs_idle (p : list Inst) (s : Satellite) (a v : Z) :
  handshake_ok p s -> satellite_request p s = Some (a, v) ->
  status (i2c_master s) = BusIdle.
Proof.
  intros (_ & Hidle & _ & _). unfold satellite_request.
  assert (Hst : is_idle (i2c_master s) = true -> status (i2c_master s) = BusIdle)
    by (unfold is_idle; destruct (status (i2c_master s)); auto; discriminate).
  destruct (si5324_not_ready _); [discriminate|]. cbn [seq_step].
  assert (Hex : forall pc issued,
             (issued = false -> is_idle (i2c_master s) = true) ->
             snd (seq_exec p (view_of (i2c_master s)) pc issued) = Some (a, v) ->
             status (i2c_master s) = BusIdle).
  { intros pc issued Hi. unfold seq_exec.
    destruct (nth_error p pc) as [[a' v'|a' v'|]|]; try discriminate.
    - destruct issued; [destruct (complete _); discriminate|].
      intros _. apply Hst, Hi. reflexivity.
    - destruct (read _ _ =? _); discriminate. }
  destruct (sequencer s) as [|pc issued|]; [| |discriminate].
  - apply Hex. intros _. apply Hidle. reflexivity.
  - apply Hex. intros ->. apply Hidle. reflexivity.
Qed.

Lemma gate_iter_after (R S : Z) (n : N) :
  N.iter n gate_tick (gate_init R S) = gate_after R S n.
Proof. reflexivity. Qed.

Lemma not_ready_after (R S : Z) (n : N) :
  0 <= R -> 0 <= S ->
  si5324_not_ready (gate_after R S n) = (Z.of_N n <=? R + S + 1).
Proof. intros HR HS. rewrite gate_after_closed by assumption. reflexivity. Qed.

(** The satellite from power-up until the gate releases the sequencer,
    on tick [R + S + 2]. *)
Lemma satellite_release (p : list Inst) (R S : Z) (fin : N -> bool) :
  0 <= R -> 0 <= S ->
  let sat := satellite_after p (gate_init R S) fin in
  let n0 := Z.to_N (R + S + 2) in
  (forall n, (n <= n0)%N ->
             sequencer (sat n) = Idle /\ i2c_master (sat n) = bus_init) /\
  (forall n, (n < n0)%N ->
             si5324_not_ready (si5324_reset_clock (sat n)) = true /\
             satellite_request p (sat n) = None) /\
  si5324_not_ready (si5324_reset_clock (sat n0)) = false /\
  satellite_request p (sat n0)
  = snd (seq_exec p (view_of bus_init) 0 false) /\
  sequencer (sat (N.succ n0))
  = fst (seq_exec p (view_of bus_init) 0 false).
Proof.
  intros HR HS sat n0.
  assert (Hheld : forall n, (n <= n0)%N ->
             sequencer (sat n) = Idle /\ i2c_master (sat n) = bus_init).
  { intros n Hn. apply satellite_held. intros m Hm.
    rewrite gate_iter_after, not_ready_after by assumption.
    apply Z.leb_le. unfold n0 in Hn. lia. }
  assert (Hgate : forall n, si5324_not_ready (si5324_reset_clock (sat n))
                            = (Z.of_N n <=? R + S + 1)).
  { intros n. unfold sat.
    rewrite satellite_gate, gate_iter_after. apply not_ready_after; assumption. }
  assert (Hn0 : (Z.of_N n0 <=? R + S + 1) = false)
    by (apply Z.leb_gt; unfold n0; lia).
  split; [exact Hheld|]. split; [|split; [|split]].
  - intros n Hn. unfold satellite_request. rewrite Hgate.
    replace (Z.of_N n <=? R + S + 1) with true
      by (symmetry; apply Z.leb_le; unfold n0 in Hn; lia).
    split; reflexivity.
  - rewrite Hgate. exact Hn0.
  - unfold satellite_request. rewrite Hgate, Hn0.
    destruct (Hheld n0 (N.le_refl _)) as [-> ->]. reflexivity.
  - unfold sat. rewrite satellite_after_succ, satellite_tick_sequencer.
    fold sat. rewrite Hgate, Hn0.
    destruct (Hheld n0 (N.le_refl _)) as [-> ->]. reflexivity.
Qed.

(** C7: a tick with the reset input asserted leaves the sequencer in
    [Idle] at instruction 0 with no bus write, whatever its state was.
    In the satellite the reset input is the gate's not-ready register
    of the same tick: on every tick on which not-ready is asserted the
    sequencer issues nothing and is [Idle] afterwards, and the first
    tick on which not-ready is deasserted, tick [R + S + 2], is the
    tick on which the sequencer, still [Idle], executes instruction
    0. *)
Theorem sequencer_released_with_gate (p : list Inst) (R S : Z)
    (fin : N -> bool) :
  0 <= R -> 0 <= S ->
  let sat := satellite_after p (gate_init R S) fin in
  let n0 := Z.to_N (R + S + 2) in
  (forall bus q, seq_step p true bus q = (Idle, None)) /\
  at_pc 0 Idle /\
  (forall n, si5324_not_ready (si5324_reset_clock (sat n)) = true ->
             satellite_request p (sat n) = None /\
             sequencer (sat (N.succ n)) = Idle) /\
  (forall n, (n < n0)%N ->
             si5324_not_ready (si5324_reset_clock (sat n)) = true) /\
  si5324_not_ready (si5324_reset_clock (sat n0)) = false /\
  (forall n, (n <= n0)%N -> sequencer (sat n) = Idle) /\
  (sequencer (sat (N.succ n0)), satellite_request p (sat n0))
  = seq_exec p (view_of bus_init) 0 false /\
  (forall a v, nth_error p 0 = Some (InstWrite a v) ->
               sequencer (sat (N.succ n0)) = Executing 0 true /\
               satellite_request p (sat n0) = Some (a, v)).
Proof.
  intros HR HS sat n0.
  destruct (satellite_release p R S fin HR HS)
    as (Hheld & Hbefore & Hn0 & Hreq & Hseq).
  fold sat n0 in Hheld, Hbefore, Hn0, Hreq, Hseq.
  split; [reflexivity|]. split; [reflexivity|]. split; [|split; [|split]].
  - intros n Hn. unfold satellite_request, sat.
    rewrite satellite_after_succ, satellite_tick_sequencer.
    fold sat. rewrite Hn. split; reflexivity.
  - intros n Hn. apply Hbefore, Hn.
  - exact Hn0.
  - split; [intros n Hn; apply Hheld, Hn|]. split.
    + rewrite Hreq, Hseq. symmetry. apply surjective_pairing.
    + intros a v H0. rewrite Hreq, Hseq. unfold seq_exec. rewrite H0.
      split; reflexivity.
Qed.

(** C8: in the satellite, for any compiled program and whatever the
    completion times of the bus transactions, the sequencer issues a
    write only while the bus controller is idle, so no caller error
    ever occurs; and in the compiled program every write to the
    transfer register is directly followed by the wait for the idle
    status on that register. *)
Theorem bus_commands_never_overlap (f : Z) (p : list Inst)
    (g : Si5324ResetClock) (fin : N -> bool) (n : N) :
  I2C_CONFIG_ADDR <> I2C_XFER_ADDR ->
  get_i2c_program f = Some p ->
  caller_error (i2c_master (satellite_after p g fin n)) = false /\
  (forall a v,
      satellite_request p (satellite_after p g fin n) = Some (a, v) ->
      status (i2c_master (satellite_after p g fin n)) = BusIdle) /\
  (forall i v,
      nth_error p i = Some (InstWrite I2C_XFER_ADDR v) ->
      nth_error p (S i) = Some (InstWait I2C_XFER_ADDR I2C_IDLE)).
Proof.
  intros Hneq Hp. pose proof (handshake_always p g fin n) as Hok.
  split; [apply Hok|]. split.
  - intros a v. apply request_needs_idle, Hok.
  - apply get_i2c_program_inv in Hp as (khz & _ & ->).
    rewrite body_awaits. intros [|i] v; cbn [nth_error].
    + intros [= H _]. contradiction.
    + apply await_followed.
Qed.

Lemma seq_run_cons (p : list Inst) (reset : bool) (bus : bus_view)
    (rest : list (bool * bus_view)) (q : seq_state) :
  seq_run p ((reset, bus) :: rest) q
  = (fst (seq_run p rest (fst (seq_step p reset bus q))),
     snd (seq_step p reset bus q)
       :: snd (seq_run p rest (fst (seq_step p reset bus q)))).
Proof.
  cbn [seq_run]. destruct (seq_step p reset bus q) as [q' w].
  cbn [fst snd]. destruct (seq_run p rest q'). reflexivity.
Qed.

Lemma seq_step_below_wait (p : list Inst) (pc : nat) (a e : Z)
    (reset : bool) (bus : bus_view) (q : seq_state) :
  nth_error p pc = Some (InstWait a e) -> read bus a <> e ->
  not_past pc q -> not_past pc (fst (seq_step p reset bus q)).
Proof.
  intros Hpc Hne Hq. unfold seq_step.
  destruct reset; [exact I|].
  assert (Hex : forall pc' issued, (pc' <= pc)%nat ->
            not_past pc (fst (seq_exec p bus pc' issued))).
  { intros pc' issued Hle. unfold seq_exec.
    destruct (Nat.eq_dec pc' pc) as [->|Hlt].
    - rewrite Hpc. apply Z.eqb_neq in Hne. rewrite Hne. cbn. lia.
    - destruct (nth_error p pc') as [[a' v'|a' v'|]|].
      + destruct issued; [destruct (complete bus)|]; cbn; lia.
      + destruct (read bus a' =? v'); cbn; lia.
      + exact I.
      + cbn; lia. }
  destruct q as [|pc' issued|]; [apply Hex; lia | apply Hex, Hq | exact I].
Qed.

Lemma seq_step_at_wait (p : list Inst) (pc : nat) (a e : Z)
    (bus : bus_view) (q : seq_state) :
  nth_error p pc = Some (InstWait a e) -> read bus a <> e ->
  at_pc pc q ->
  seq_step p false bus q = (Executing pc false, None).
Proof.
  intros Hpc Hne%Z.eqb_neq Hq. unfold seq_step.
  destruct q as [|pc' issued|]; cbn [at_pc] in Hq; subst;
    [| |contradiction]; unfold seq_exec; rewrite Hpc, Hne; reflexivity.
Qed.

(** The modelled sequencer on the five-instruction scenario of the
    specification: three ticks issue the writes, four ticks see a
    transaction or a wait complete, the eighth tick executes [End], and
    the sequencer stays halted afterwards. *)
Example five_instruction_scenario :
  seq_run five_instructions (repeat (false, prompt_bus) 8) Idle
  = (Halted, [Some (0, 4096); None; Some (0, 1256); None; None;
              Some (0, 2048); None; None]) /\
  fst (seq_run five_instructions (repeat (false, prompt_bus) 20) Idle)
  = Halted.
Proof. split; reflexivity. Qed.

(** C9: a wait has no timeout.  Over any sequence of ticks on which
    the bus never returns the awaited value, the program counter never
    passes the wait instruction, resets or not; and when the sequencer
    is at the wait and is not reset, it stays at it for as long as the
    sequence lasts and issues no bus write.  The sequencer has no
    output other than its state and its bus writes, in particular no
    error indication, and it does not halt. *)
Theorem wait_has_no_timeout (p : list Inst) (pc : nat) (a e : Z)
    (inputs : list (bool * bus_view)) (q : seq_state) :
  nth_error p pc = Some (InstWait a e) ->
  Forall (fun i => read (snd i) a <> e) inputs ->
  not_past pc q ->
  not_past pc (fst (seq_run p inputs q)) /\
  (at_pc pc q -> Forall (fun i => fst i = false) inputs ->
   at_pc pc (fst (seq_run p inputs q)) /\
   fst (seq_run p inputs q) <> Halted /\
   (inputs <> [] -> fst (seq_run p inputs q) = Executing pc false) /\
   snd (seq_run p inputs q) = repeat None (length inputs)).
Proof.
  intros Hpc Hne. revert q.
  induction Hne as [|[reset bus] rest Hhd _ IH]; intros q Hq.
  - split; [exact Hq|]. intros Hat _.
    split; [exact Hat|]. split; [|split; [congruence | reflexivity]].
    destruct q; cbn in Hat |- *; congruence.
  - rewrite seq_run_cons. cbn [fst snd] in *.
    pose proof (seq_step_below_wait p pc a e reset bus q Hpc Hhd Hq) as Hle.
    split; [apply IH, Hle|].
    intros Hat Hnr. inversion Hnr as [|? ? Hr Hrest]; subst.
    cbn [fst] in Hr. subst reset.
    rewrite (seq_step_at_wait p pc a e bus q Hpc Hhd Hat). cbn [fst snd].
    assert (Hhere : not_past pc (Executing pc false)) by apply Nat.le_refl.
    destruct (IH (Executing pc false) Hhere) as [_ IH2].
    destruct (IH2 eq_refl Hrest) as (H1 & H2 & H3 & H4).
    split; [exact H1|]. split; [exact H2|]. split.
    + intros _. destruct rest as [|i rest']; [reflexivity|].
      apply H3. discriminate.
    + cbn [length repeat]. f_equal. exact H4.
Qed.

(** C3 (amended): at 156 000 000 Hz the reset-hold counter starts at
    171 and the ready-settle counter at 1 716 000.  The gate is in
    reset-hold for the 172 ticks 0..171, in ready-settle for the
    1 716 001 ticks 172..1 716 172 and ready from tick 1 716 173 on.
    The sequencer is [Idle] and issues nothing on every tick
    0..1 716 172 and executes instruction 0, the write of 156000 to
    the configuration register, on tick 1 716 173. *)
Theorem timeline_at_156MHz (fin : N -> bool) :
  reset_val sys_clk_freq = Some 171 /\
  ready_val sys_clk_freq = Some 1716000 /\
  (forall n, gate_phase (gate_after 171 1716000 n)
             = if (n <? 172)%N then ResetHold
               else if (n <? 1716173)%N then ReadySettle else Ready) /\
  exists p,
    get_i2c_program sys_clk_freq = Some p /\
    let sat := satellite_after p (gate_init 171 1716000) fin in
    (forall n, (n <= 1716173)%N -> sequencer (sat n) = Idle) /\
    (forall n, (n < 1716173)%N -> satellite_request p (sat n) = None) /\
    satellite_request p (sat 1716173%N) = Some (I2C_CONFIG_ADDR, 156000) /\
    sequencer (sat 1716174%N) = Executing 0 true.
Proof.
  split; [vm_compute; reflexivity|]. split; [vm_compute; reflexivity|].
  split.
  - intros n. rewrite gate_after_closed by lia.
    unfold gate_phase, gate_at; cbn [si5324_not_ready reset_done].
    destruct (N.ltb_spec n 172), (N.ltb_spec n 1716173);
      destruct (Z.leb_spec (Z.of_N n) (171 + 1716000 + 1));
      destruct (Z.ltb_spec 171 (Z.of_N n)); try lia; reflexivity.
  - destruct (get_i2c_program sys_clk_freq) as [p|] eqn:Hp.
    2:{ rewrite get_i2c_program_flat in Hp. vm_compute in Hp. discriminate. }
    exists p. split; [reflexivity|]. intros sat.
    assert (H0 : nth_error p 0 = Some (InstWrite I2C_CONFIG_ADDR 156000)).
    { rewrite get_i2c_program_flat in Hp.
      replace (PyFloat.int_div sys_clk_freq PyFloat.lit_1e3)
        with (Some 156000) in Hp by (vm_compute; reflexivity).
      injection Hp as <-. reflexivity. }
    destruct (satellite_release p 171 1716000 fin)
      as (Hheld & Hbefore & _ & Hreq & Hseq); [lia | lia |].
    change (Z.to_N (171 + 1716000 + 2)) with 1716173%N in *.
    change (N.succ 1716173) with 1716174%N in *.
    fold sat in Hheld, Hbefore, Hreq, Hseq.
    split; [intros n Hn; apply Hheld, Hn|].
    split; [intros n Hn; apply Hbefore, Hn|].
    rewrite Hreq, Hseq. unfold seq_exec. rewrite H0. split; reflexivity.
Qed.

End Properties.

(** ** Closed instances *)

(** At 156 MHz the gate is built with counters 171 and 1 716 000, and
    the counters are exactly zero after 171 and after 171 + 1 + 1 716 000
    ticks. *)
Lemma gate_counters_truncated_at_156MHz :
  (0 < 156000000 /\
   Si5324ResetClock_init 156000000 = Some (gate_init 171 1716000)) /\
  reset_val 156000000 = Some 171 /\
  ready_val 156000000 = Some 1716000 /\
  reset_ctr (gate_after 171 1716000 171) = 0 /\
  ready_ctr (gate_after 171 1716000 1716172) = 0.
Proof.
  assert (H1 : 0 < 156000000) by lia.
  assert (Hg : Si5324ResetClock_init 156000000
               = Some (gate_init 171 1716000)) by (vm_compute; reflexivity).
  destruct (gate_counters_truncated 156000000 H1) as [_ Hcount].
  destruct (Hcount _ Hg)
    as (R & S & HR & HS & _ & _ & _ & _ & _ & _ & _ & _ & Hreset & _ & _
        & Hready).
  assert (HR' : reset_val 156000000 = Some 171) by (vm_compute; reflexivity).
  assert (HS' : ready_val 156000000 = Some 1716000)
    by (vm_compute; reflexivity).
  rewrite HR' in HR. injection HR as <-.
  rewrite HS' in HS. injection HS as <-.
  split; [auto|]. split; [exact HR'|]. split; [exact HS'|]. split.
  - apply Hreset. lia.
  - apply Hready. lia.
Defined.

(** The claim of C1 fails at 156 MHz: the reset-hold counter starts at
    171, which is neither the ceiling 172 of 171.6 nor above the exact
    product.  At 2 869 000 Hz the ready-settle counter starts at 31 558,
    below the exact product 31 559, and at 909 090 Hz, where the claim
    asks for a reset-hold counter of 1, no gate is built. *)
Lemma reset_counter_below_ceiling_at_156MHz :
  Si5324ResetClock_init 156000000 = Some (gate_init 171 1716000) /\
  spec_ceil 156000000 11 10000000 = 172 /\
  reset_ctr (gate_init 171 1716000) <> spec_ceil 156000000 11 10000000 /\
  reset_ctr (gate_init 171 1716000) * 10000000 < 156000000 * 11 /\
  Si5324ResetClock_init 2869000 = Some (gate_init 3 31558) /\
  spec_ceil 2869000 11 1000 = 31559 /\
  ready_ctr (gate_init 3 31558) <> spec_ceil 2869000 11 1000 /\
  ready_ctr (gate_init 3 31558) * 1000 < 2869000 * 11 /\
  spec_ceil 909090 11 10000000 = 1 /\
  Si5324ResetClock_init 909090 = None.
Proof.
  split; [vm_compute; reflexivity|]. split; [reflexivity|].
  split; [vm_compute; discriminate|]. split; [reflexivity|].
  split; [vm_compute; reflexivity|]. split; [reflexivity|].
  split; [vm_compute; discriminate|]. split; [reflexivity|].
  split; [reflexivity|]. vm_compute; reflexivity.
Qed.

(** After the seven ticks that follow the external reset in
    [sample_events], a gate with counters 3 and 2 has just released. *)
Lemma gate_never_ready_early_sample :
  (0 <= 3 /\ 0 <= 2) /\
  (si5324_not_ready (gate_exec 3 2 sample_events) = false <->
   3 + 2 + 2 <= Z.of_N (ticks_since_reset sample_events)) /\
  (si5324_not_ready (gate_exec 3 2 sample_events) = false ->
   reset_done (gate_exec 3 2 sample_events) = true /\
   reset_ctr (gate_exec 3 2 sample_events) = 0 /\
   ready_ctr (gate_exec 3 2 sample_events) = 0).
Proof.
  split; [lia|]. apply gate_never_ready_early; lia.
Defined.

(** [sample_gate] is reachable, in reset-hold with one tick left. *)
Lemma gate_phase_invariant_sample :
  (0 <= 3 /\ 0 <= 2 /\ gate_reachable 3 2 sample_gate) /\
  gate_phase sample_gate = ResetHold /\
  active_ctr sample_gate = 1 /\
  gate_phase (gate_tick sample_gate) = ResetHold /\
  active_ctr (gate_tick sample_gate) = 0 /\
  gate_phase (gate_tick (gate_tick sample_gate)) = ReadySettle.
Proof.
  assert (H1 : 0 <= 3) by lia. assert (H2 : 0 <= 2) by lia.
  assert (H3 : gate_reachable 3 2 sample_gate)
    by (unfold sample_gate; do 2 apply reach_step; apply reach_init).
  assert (H4 : gate_reachable 3 2 (gate_tick sample_gate))
    by (apply (reach_step 3 2 sample_gate Tick), H3).
  destruct (gate_phase_invariant 3 2 sample_gate H1 H2 H3)
    as (_ & _ & _ & _ & _ & Hdec & _).
  destruct (gate_phase_invariant 3 2 (gate_tick sample_gate) H1 H2 H4)
    as (_ & _ & _ & _ & _ & _ & Hnext & _).
  assert (Hp : gate_phase sample_gate = ResetHold) by reflexivity.
  assert (Hc : active_ctr sample_gate = 1) by reflexivity.
  destruct Hdec as [Hp' Hc']; [rewrite Hp; discriminate | rewrite Hc; lia|].
  split; [auto|]. split; [exact Hp|]. split; [exact Hc|].
  split; [rewrite Hp'; exact Hp|]. split; [rewrite Hc', Hc; reflexivity|].
  rewrite Hnext; [rewrite Hp', Hp; reflexivity | rewrite Hp', Hp; discriminate |].
  rewrite Hc', Hc. reflexivity.
Defined.

(** The claim of C6 fails on the tick that ends a counting phase:
    [sample_gate_at_zero] is reachable and in reset-hold with its
    counter at zero, and the tick leaves the counter at zero instead of
    taking one off; the tick before it did take one off. *)
Lemma counter_rests_at_zero :
  gate_reachable 3 2 sample_gate_at_zero /\
  gate_phase sample_gate_at_zero = ResetHold /\
  active_ctr sample_gate_at_zero = 0 /\
  reset_ctr (gate_tick sample_gate_at_zero) = 0 /\
  reset_ctr (gate_tick sample_gate_at_zero)
  <> reset_ctr sample_gate_at_zero - 1 /\
  active_ctr (gate_tick sample_gate_at_zero)
  <> active_ctr sample_gate_at_zero - 1.
Proof.
  split.
  - unfold sample_gate_at_zero, sample_gate.
    do 3 apply reach_step. apply reach_init.
  - repeat split; try reflexivity; vm_compute; discriminate.
Qed.

(** The claim of C4 fails on its count: after the bus-address-select
    entry the I2C sequence has 21 entries, not 22. *)
Lemma i2c_sequence_not_22_device_writes :
  ~ (exists sel devs, i2c_sequence = sel :: devs /\ length devs = 22%nat).
Proof.
  intros (sel & devs & Hseq & Hlen).
  injection Hseq as _ <-. discriminate Hlen.
Qed.

(** The program compiled at 156 MHz with the sample registers. *)
Lemma program_shape_sample :
  get_i2c_program (regs := sample_regs) sys_clk_freq = Some sample_program /\
  exists khz sel devs,
    PyFloat.int_div sys_clk_freq PyFloat.lit_1e3 = Some khz /\
    i2c_sequence = sel :: devs /\
    sel = [Z.shiftl 0x74 1; Z.shiftl 1 7] /\
    length devs = 21%nat /\
    Forall (fun d => exists register value,
                       d = [Z.shiftl 0x68 1; register; value]) devs /\
    sample_program
    = InstWrite 1 khz
        :: flat_map (transaction (regs := sample_regs)) (sel :: devs)
        ++ [InstEnd] /\
    nth_error sample_program 1 = Some (InstWrite 0 (Z.shiftl 1 12)) /\
    sample_program <> [] /\
    last sample_program (InstWrite 0 0) = InstEnd.
Proof.
  assert (H : get_i2c_program (regs := sample_regs) sys_clk_freq
              = Some sample_program) by (vm_compute; reflexivity).
  split; [exact H|].
  exact (proj2 (program_shape (regs := sample_regs) sys_clk_freq)
           sample_program H).
Defined.

(** The programs for 156 MHz and 125 MHz differ in instruction 0 only. *)
Lemma program_depends_on_frequency_only_at_0_sample :
  (0 < 156000000 /\ 0 < 125000000 /\
   get_i2c_program (regs := sample_regs) 156000000 = Some sample_program /\
   get_i2c_program (regs := sample_regs) 125000000
   = Some sample_program_125MHz) /\
  length sample_program = 220%nat /\
  length sample_program_125MHz = 220%nat /\
  nth_error sample_program 0 = Some (InstWrite 1 156000) /\
  nth_error sample_program_125MHz 0 = Some (InstWrite 1 125000) /\
  (forall i, i <> 0%nat ->
             nth_error sample_program i = nth_error sample_program_125MHz i).
Proof.
  assert (H1 : 0 < 156000000) by lia. assert (H2 : 0 < 125000000) by lia.
  assert (H3 : get_i2c_program (regs := sample_regs) 156000000
               = Some sample_program) by (vm_compute; reflexivity).
  assert (H4 : get_i2c_program (regs := sample_regs) 125000000
               = Some sample_program_125MHz) by (vm_compute; reflexivity).
  destruct (program_depends_on_frequency_only_at_0 (regs := sample_regs)
              156000000 125000000 H1 H2) as [_ Hboth].
  destruct (Hboth sample_program sample_program_125MHz H3 H4)
    as (L1 & L2 & _ & Hsame).
  split; [auto|]. split; [exact L1|]. split; [exact L2|].
  split; [reflexivity|]. split; [reflexivity | exact Hsame].
Defined.

(** The divider registers in the program compiled at 156 MHz: register
    25 (entry 7) is written at instructions 73 and 75. *)
Lemma divider_register_bytes_sample :
  get_i2c_program (regs := sample_regs) sys_clk_freq = Some sample_program /\
  nth_error spec_divider_registers 0 = Some (25, 192) /\
  nth_error sample_program 71 = Some (InstWrite 0 (Z.lor 1024 0xd0)) /\
  nth_error sample_program 73 = Some (InstWrite 0 (Z.lor 1024 25)) /\
  nth_error sample_program 75 = Some (InstWrite 0 (Z.lor 1024 192)).
Proof.
  assert (H : get_i2c_program (regs := sample_regs) sys_clk_freq
              = Some sample_program) by (vm_compute; reflexivity).
  destruct (divider_register_bytes (regs := sample_regs)
              sys_clk_freq sample_program H) as (_ & _ & Hat).
  assert (H0 : nth_error spec_divider_registers 0 = Some (25, 192))
    by reflexivity.
  split; [exact H|]. split; [exact H0|].
  exact (Hat 0%nat 25 192 H0).
Defined.

(** With counters 3 and 2 the gate releases on tick 7, and on that tick
    the sequencer issues the first write of [sample_program]. *)
Lemma sequencer_released_with_gate_sample :
  (0 <= 3 /\ 0 <= 2) /\
  si5324_not_ready
    (si5324_reset_clock
       (satellite_after (regs := sample_regs) sample_program (gate_init 3 2)
                        (fun _ => true) 6)) = true /\
  si5324_not_ready
    (si5324_reset_clock
       (satellite_after (regs := sample_regs) sample_program (gate_init 3 2)
                        (fun _ => true) 7)) = false /\
  sequencer (satellite_after (regs := sample_regs) sample_program
                             (gate_init 3 2) (fun _ => true) 7) = Idle /\
  satellite_request (regs := sample_regs) sample_program
    (satellite_after (regs := sample_regs) sample_program (gate_init 3 2)
                     (fun _ => true) 7) = Some (1, 156000) /\
  sequencer (satellite_after (regs := sample_regs) sample_program
                             (gate_init 3 2) (fun _ => true) 8)
  = Executing 0 true.
Proof.
  assert (H1 : 0 <= 3) by lia. assert (H2 : 0 <= 2) by lia.
  destruct (sequencer_released_with_gate (regs := sample_regs)
              sample_program 3 2 (fun _ => true) H1 H2)
    as (_ & _ & _ & Hbefore & Hrel & Hidle & _ & Hfirst).
  destruct (Hfirst 1 156000 eq_refl) as [Hq Hreq].
  split; [auto|]. split; [apply (Hbefore 6%N); reflexivity|].
  split; [exact Hrel|]. split; [apply (Hidle 7%N); discriminate|].
  split; [exact Hreq | exact Hq].
Defined.

(** Forty ticks into the run of [sample_program], with transactions
    completing on even ticks, no caller error has occurred. *)
Lemma bus_commands_never_overlap_sample :
  (I2C_CONFIG_ADDR (I2CRegisters := sample_regs)
   <> I2C_XFER_ADDR (I2CRegisters := sample_regs) /\
   get_i2c_program (regs := sample_regs) sys_clk_freq = Some sample_program) /\
  caller_error
    (i2c_master (satellite_after (regs := sample_regs) sample_program
                                 (gate_init 3 2) N.even 40)) = false /\
  nth_error sample_program 2 = Some (InstWait 0 8192).
Proof.
  assert (H1 : I2C_CONFIG_ADDR (I2CRegisters := sample_regs)
               <> I2C_XFER_ADDR (I2CRegisters := sample_regs))
    by discriminate.
  assert (H2 : get_i2c_program (regs := sample_regs) sys_clk_freq
               = Some sample_program) by (vm_compute; reflexivity).
  destruct (bus_commands_never_overlap (regs := sample_regs) sys_clk_freq
              sample_program (gate_init 3 2) N.even 40 H1 H2)
    as (Herr & _ & Hnext).
  split; [auto|]. split; [exact Herr|].
  exact (Hnext 1%nat 4096 eq_refl).
Defined.

(** A sequencer at the wait of [waiting_program] on a bus that never
    reads idle is still there three ticks later and has issued nothing. *)
Lemma wait_has_no_timeout_sample :
  (nth_error waiting_program 0 = Some (InstWait 0 8192) /\
   Forall (fun i => read (snd i) 0 <> 8192) stuck_inputs /\
   not_past 0 Idle /\
   at_pc 0 Idle /\
   Forall (fun i => fst i = false) stuck_inputs) /\
  seq_run waiting_program stuck_inputs Idle
  = (Executing 0 false, [None; None; None]).
Proof.
  assert (H1 : nth_error waiting_program 0 = Some (InstWait 0 8192))
    by reflexivity.
  assert (H2 : Forall (fun i => read (snd i) 0 <> 8192) stuck_inputs)
    by (repeat constructor; discriminate).
  assert (H3 : not_past 0 Idle) by exact I.
  assert (H4 : at_pc 0 Idle) by reflexivity.
  assert (H5 : Forall (fun i => fst i = false) stuck_inputs)
    by (repeat constructor).
  destruct (wait_has_no_timeout waiting_program 0 0 8192 stuck_inputs Idle
              H1 H2 H3) as (_ & Hstay).
  destruct (Hstay H4 H5) as (_ & _ & Hst & Hws).
  split; [auto 6|].
  rewrite (surjective_pairing (seq_run waiting_program stuck_inputs Idle)).
  rewrite Hst, Hws by discriminate. reflexivity.
Defined.

(** The claim of C3 fails on its last tick numbers: the gate built for
    156 MHz enters ready-settle after 172 ticks as claimed, but after
    1 716 172 ticks it is still in ready-settle with not-ready asserted;
    it is ready one tick later. *)
Lemma gate_not_ready_at_tick_1716172 :
  Si5324ResetClock_init sys_clk_freq = Some (gate_init 171 1716000) /\
  gate_phase (gate_after 171 1716000 171) = ResetHold /\
  gate_phase (gate_after 171 1716000 172) = ReadySettle /\
  gate_phase (gate_after 171 1716000 1716172) = ReadySettle /\
  gate_phase (gate_after 171 1716000 1716172) <> Ready /\
  si5324_not_ready (gate_after 171 1716000 1716172) = true /\
  gate_phase (gate_after 171 1716000 1716173) = Ready.
Proof.
  split; [vm_compute; reflexivity|].
  rewrite !gate_after_closed by lia.
  repeat split; try reflexivity. discriminate.
Qed.

(** X1: for every frequency below [2^53] Hz the reset counter
    [int(sys_clk_freq*1.1e-6)] is the floor or the ceiling of the exact
    product [f * 11 / 10^7]: the float product and its truncation never
    move it outside the two integers around the exact value. *)
Theorem reset_val_floor_or_ceiling (f R : Z) :
  0 < f < 2 ^ 53 -> reset_val f = Some R ->
  f * 11 / 10000000 <= R <= spec_ceil f 11 10000000.
Proof. intros Hf HR. apply reset_val_bracket; assumption. Qed.

(** X2: for every frequency below [2^53] Hz the ready counter
    [int(sys_clk_freq*11e-3)] is at most the ceiling of the exact product
    [f * 11 / 1000] and at least its floor less one; below [2^50] Hz it is
    the ceiling or the ceiling less one. *)
Theorem ready_val_near_ceiling (f S : Z) :
  0 < f < 2 ^ 53 -> ready_val f = Some S ->
  f * 11 / 1000 - 1 <= S <= spec_ceil f 11 1000 /\
  (f < 2 ^ 50 -> spec_ceil f 11 1000 - 1 <= S).
Proof.
  intros Hf HS. destruct (ready_val_bracket f S Hf HS) as (H1 & _ & H2).
  split; [exact H1|]. intros Hlt. specialize (H2 Hlt). lia.
Qed.

(** * The two delays of [Si5324ResetClock] *)

Lemma gate_iter_at (R S : Z) (n : N) :
  0 <= R -> 0 <= S ->
  N.iter n gate_tick (gate_init R S) = gate_at R S (Z.of_N n).
Proof. apply gate_after_closed. Qed.

Lemma init_inv (f : Z) (g : Si5324ResetClock) :
  Si5324ResetClock_init f = Some g ->
  exists R S, reset_val f = Some R /\ ready_val f = Some S /\ g = gate_init R S.
Proof.
  intros (R & S & HR & HS & _ & _ & ->)%Si5324ResetClock_init_inv. eauto.
Qed.

(** X3: the reset pulse of the source comment (minimum 1 us).  In the
    gate built for a frequency below [2^53] Hz, [si5324_rst_n] is low on
    the ticks [0 .. reset_val] and on no other, [reset_val + 1] ticks in
    all, and [reset_val + 1] clock periods are more than 1.1 us
    ([11 * f < 10^7 * (reset_val + 1)]). *)
Theorem reset_pulse_long_enough (f : Z) (g : Si5324ResetClock) :
  0 < f < 2 ^ 53 -> Si5324ResetClock_init f = Some g ->
  exists R,
    reset_val f = Some R /\
    (forall n, si5324_rst_n (N.iter n gate_tick g) = false <-> Z.of_N n <= R) /\
    spec_ceil f 11 10000000 <= R + 1 /\
    11 * f < 10000000 * (R + 1).
Proof.
  intros Hf (R & S & HR & HS & ->)%init_inv.
  pose proof (reset_val_nonneg f R ltac:(lia) HR) as HR0.
  pose proof (ready_val_nonneg f S ltac:(lia) HS) as HS0.
  destruct (reset_val_bracket f R Hf HR) as (_ & Hc).
  exists R. split; [exact HR|]. split; [|split; [exact Hc|]].
  - intros n. rewrite gate_iter_at by assumption.
    unfold gate_at; cbn [si5324_rst_n].
    destruct (Z.ltb_spec R (Z.of_N n)); split; intros; try discriminate; lia.
  - unfold reset_val, PyFloat.lit_1_1e_6 in HR.
    apply int_mul_bracket in HR as [H1 _]; [| exact Hf | lia | lia].
    change (2 ^ (- -72)) with 4722366482869645213696 in *. lia.
Qed.

(** X4: the settling time of the source comment (10 ms after reset).
    In the gate built for a frequency below [2^53] Hz, between any tick [n]
    on which [si5324_rst_n] is still low and any tick [m] on which
    [si5324_not_ready] is clear lie more than 10 ms of clock periods
    ([f < 100 * (m - n - 1)]), and for frequencies below [2^50] Hz at least
    the 11 ms the source asks for. *)
Theorem settle_long_enough (f : Z) (g : Si5324ResetClock) (n m : N) :
  0 < f < 2 ^ 53 -> Si5324ResetClock_init f = Some g ->
  si5324_rst_n (N.iter n gate_tick g) = false ->
  si5324_not_ready (N.iter m gate_tick g) = false ->
  (n < m)%N /\
  f < 100 * (Z.of_N m - Z.of_N n - 1) /\
  (f < 2 ^ 50 -> 11 * f <= 1000 * (Z.of_N m - Z.of_N n - 1)).
Proof.
  intros Hf (R & S & HR & HS & ->)%init_inv.
  pose proof (reset_val_nonneg f R ltac:(lia) HR) as HR0.
  pose proof (ready_val_nonneg f S ltac:(lia) HS) as HS0.
  destruct (ready_val_bracket f S Hf HS) as (_ & H10 & H11).
  rewrite !gate_iter_at by assumption.
  unfold gate_at; cbn [si5324_rst_n si5324_not_ready].
  destruct (Z.ltb_spec R (Z.of_N n)); [discriminate|]. intros _.
  destruct (Z.leb_spec (Z.of_N m) (R + S + 1)); [discriminate|]. intros _.
  split; [lia|]. split; [lia|]. intros Hlt. specialize (H11 Hlt).
  pose proof (spec_ceil_spec f 11 1000 ltac:(lia)). lia.
Qed.

(** X5: from any register contents at all (not only those reachable
    from the reset values), the gate never goes back: once
    [si5324_not_ready] is clear it stays clear, once [si5324_rst_n] or
    [reset_done] is set it stays set, and a counter that has reached zero
    stays at zero. *)
Theorem gate_outputs_never_return (g : Si5324ResetClock) (n : N) :
  (si5324_not_ready g = false ->
   si5324_not_ready (N.iter n gate_tick g) = false) /\
  (si5324_rst_n g = true -> si5324_rst_n (N.iter n gate_tick g) = true) /\
  (reset_done g = true -> reset_done (N.iter n gate_tick g) = true) /\
  (reset_ctr g = 0 -> reset_ctr (N.iter n gate_tick g) = 0) /\
  (ready_ctr g = 0 -> ready_ctr (N.iter n gate_tick g) = 0).
Proof.
  induction n as [|n IH] using N.peano_ind; [auto 6|].
  rewrite N.iter_succ. destruct IH as (H1 & H2 & H3 & H4 & H5).
  set (h := N.iter n gate_tick g) in *.
  repeat split; intros H0.
  - specialize (H1 H0). unfold gate_tick; cbn [si5324_not_ready].
    rewrite H1. destruct (reset_done h), (negb (ready_ctr h =? 0)); reflexivity.
  - specialize (H2 H0). unfold gate_tick; cbn [si5324_rst_n].
    rewrite H2. destruct (negb (reset_ctr h =? 0)); reflexivity.
  - specialize (H3 H0). unfold gate_tick; cbn [reset_done].
    rewrite H3. destruct (negb (reset_ctr h =? 0)); reflexivity.
  - specialize (H4 H0). unfold gate_tick; cbn [reset_ctr].
    rewrite H4. reflexivity.
  - specialize (H5 H0). unfold gate_tick; cbn [ready_ctr].
    rewrite H5. destruct (reset_done h); reflexivity.
Qed.

(** * The compiled program *)

Lemma land_255_range (x : Z) : 0 <= Z.land x 0xff < 256.
Proof.
  change 0xff with (Z.ones 8). rewrite Z.land_ones by lia.
  apply Z.mod_pos_bound. reflexivity.
Qed.

Lemma lor_bytes_range (x y : Z) :
  0 <= Z.lor (Z.land x 0xff) (Z.land y 0xff) < 256.
Proof. rewrite <- Z.land_lor_distr_l. apply land_255_range. Qed.

Lemma land_255_small (x : Z) : 0 <= x < 256 -> Z.land x 0xff = x.
Proof.
  intros H. change 0xff with (Z.ones 8). rewrite Z.land_ones by lia.
  apply Z.mod_small. exact H.
Qed.

Section ProgramExtras.
Context {regs : I2CRegisters}.

(** X6: for every frequency below [1000 * 2^43] Hz the program exists
    and its first instruction writes [f // 1000], the frequency in kHz
    rounded down, to the configuration register: the float division by
    [1e3] and the truncation lose nothing against integer division. *)
Theorem config_write_is_khz (f : Z) :
  0 < f < 1000 * 2 ^ 43 ->
  exists p,
    get_i2c_program f = Some p /\
    nth_error p 0 = Some (InstWrite I2C_CONFIG_ADDR (f / 1000)).
Proof.
  intros Hf. rewrite get_i2c_program_flat.
  destruct (int_div_1e3_total f) as [khz Hk];
    [change (2 ^ 53) with (1024 * 2 ^ 43); lia|].
  rewrite Hk. cbn [option_map]. eexists. split; [reflexivity|].
  cbn [nth_error]. rewrite (int_div_1e3_floor f khz Hf Hk). reflexivity.
Qed.

Lemma await_end_position (cmds : list Z) (i : nat) :
  nth_error (flat_map await cmds ++ [InstEnd]) i = Some InstEnd <->
  i = (2 * length cmds)%nat.
Proof.
  revert i. induction cmds as [|c cmds IH]; intros i.
  - destruct i as [|[|i]]; cbn; split; intros H; try reflexivity;
      try discriminate; lia.
  - destruct i as [|[|i]]; cbn [flat_map await app nth_error length].
    + split; [discriminate | lia].
    + split; [discriminate | lia].
    + rewrite IH. lia.
Qed.

(** X7: a compiled program holds [InstEnd] at index 219, its last, and
    nowhere else; every index below 219 holds a write or a wait. *)
Theorem program_ends_only_at_the_end (f : Z) (p : list Inst) (i : nat) :
  get_i2c_program f = Some p ->
  (nth_error p i = Some InstEnd <-> i = 219%nat) /\
  (i < 219 -> exists instruction,
               nth_error p i = Some instruction /\ instruction <> InstEnd)%nat.
Proof.
  intros (khz & _ & ->)%get_i2c_program_inv. rewrite body_awaits.
  assert (Hend : nth_error (InstWrite I2C_CONFIG_ADDR khz
                              :: flat_map await xfer_commands ++ [InstEnd]) i
                 = Some InstEnd <-> i = 219%nat).
  { destruct i as [|i]; cbn [nth_error].
    - split; [discriminate | lia].
    - rewrite await_end_position. change (length xfer_commands) with 109%nat.
      lia. }
  split; [exact Hend|]. intros Hi.
  destruct (nth_error (InstWrite I2C_CONFIG_ADDR khz
                         :: flat_map await xfer_commands ++ [InstEnd]) i)
    as [instruction|] eqn:Hnth.
  - exists instruction. split; [reflexivity|]. intros ->.
    destruct Hend as [Hend _]. specialize (Hend eq_refl). lia.
  - apply nth_error_None in Hnth. cbn [length] in Hnth.
    rewrite length_app in Hnth. rewrite <- body_awaits in Hnth.
    change (length (flat_map transaction i2c_sequence)) with 218%nat in Hnth.
    cbn [length] in Hnth. lia.
Qed.

(** X8: whatever the six dividers are, every entry of the register list
    is made of octets in [0, 256) (the masks of the source see to it), and
    the list of the source is the one for the dividers 6, 7, 6, 20111, 2513
    and 4596. *)
Theorem payload_octets_are_bytes
    (N1_HS NC1_LS N2_HS N2_LS N31 N32 : Z) :
  Forall (Forall (fun octet => 0 <= octet < 256))
         (i2c_sequence_for N1_HS NC1_LS N2_HS N2_LS N31 N32) /\
  i2c_sequence = i2c_sequence_for 6 7 6 20111 2513 4596.
Proof.
  split; [|reflexivity].
  unfold i2c_sequence_for.
  repeat (apply Forall_cons || apply Forall_nil);
    first [ apply land_255_range | apply lor_bytes_range
          | (cbn; lia) ].
Qed.

(** X9: where the write command bit lies above the low byte, every octet
    of every entry of the register list is sent by a compiled program, in
    a write to the transfer register whose low byte is the octet and whose
    upper bits are those of [I2C_WRITE]. *)
Theorem write_command_keeps_octet
    (f : Z) (p : list Inst) (subseq : list Z) (octet : Z) :
  Z.land I2C_WRITE 0xff = 0 ->
  get_i2c_program f = Some p ->
  In subseq i2c_sequence -> In octet subseq ->
  In (InstWrite I2C_XFER_ADDR (Z.lor I2C_WRITE octet)) p /\
  Z.land (Z.lor I2C_WRITE octet) 0xff = octet /\
  Z.shiftr (Z.lor I2C_WRITE octet) 8 = Z.shiftr I2C_WRITE 8.
Proof.
  intros HW (khz & _ & ->)%get_i2c_program_inv Hsub Hoct.
  assert (Ho : 0 <= octet < 256).
  { assert (Hall : Forall (Forall (fun octet => 0 <= octet < 256))
                     i2c_sequence).
    { change i2c_sequence with (i2c_sequence_for 6 7 6 20111 2513 4596).
      unfold i2c_sequence_for.
      repeat (apply Forall_cons || apply Forall_nil);
        first [ apply land_255_range | apply lor_bytes_range
              | (cbn; lia) ]. }
    rewrite Forall_forall in Hall. specialize (Hall subseq Hsub).
    rewrite Forall_forall in Hall. exact (Hall octet Hoct). }
  split; [|split].
  - right. apply in_or_app. left. apply in_flat_map.
    exists subseq. split; [exact Hsub|].
    unfold transaction. cbn [app]. right. right.
    apply in_or_app. left. apply in_flat_map.
    exists octet. split; [exact Hoct | left; reflexivity].
  - rewrite Z.land_lor_distr_l, HW, Z.lor_0_l. apply land_255_small, Ho.
  - rewrite Z.shiftr_lor.
    replace (Z.shiftr octet 8) with 0; [apply Z.lor_0_r|].
    symmetry. rewrite Z.shiftr_div_pow2 by lia. apply Z.div_small. exact Ho.
Qed.
End ProgramExtras.

(** * The dividers can be read back from the register list *)

Lemma recover_high_field (n : Z) :
  0 <= n < 8 -> Z.shiftr (Z.land (Z.shiftl n 5) 0xff) 5 = n.
Proof.
  intros Hn. rewrite Z.shiftl_mul_pow2 by lia. change (2 ^ 5) with 32.
  rewrite land_255_small by lia.
  rewrite Z.shiftr_div_pow2 by lia. change (2 ^ 5) with 32.
  apply Z.div_mul. lia.
Qed.

Lemma recover_three_bytes (n : Z) :
  0 <= n < 2 ^ 24 ->
  Z.land (Z.shiftr n 16) 0xff * 65536 + Z.land (Z.shiftr n 8) 0xff * 256
  + Z.land n 0xff = n.
Proof.
  intros Hn. change (2 ^ 24) with 16777216 in Hn.
  change 0xff with (Z.ones 8). rewrite !Z.land_ones by lia.
  rewrite !Z.shiftr_div_pow2 by lia.
  change (2 ^ 8) with 256. change (2 ^ 16) with 65536.
  pose proof (Z.div_mod n 256 ltac:(lia)) as H1.
  pose proof (Z.mod_pos_bound n 256 ltac:(lia)) as H2.
  pose proof (Z.div_mod (n / 256) 256 ltac:(lia)) as H3.
  pose proof (Z.mod_pos_bound (n / 256) 256 ltac:(lia)) as H4.
  rewrite Z.div_div in H3 by lia. change (256 * 256) with 65536 in H3.
  assert (H5 : 0 <= n / 65536 < 256).
  { split; [apply Z.div_pos; lia | apply Z.div_lt_upper_bound; lia]. }
  rewrite (Z.mod_small (n / 65536)) by exact H5.
  lia.
Qed.

Lemma lor_low_bits (h b : Z) :
  0 <= b < 32 -> Z.lor (h * 32) b = h * 32 + b.
Proof.
  intros Hb.
  assert (Hdisj : Z.land (h * 32) b = 0).
  { apply Z.bits_inj'. intros n Hn. rewrite Z.land_spec, Z.bits_0.
    destruct (Z.ltb_spec n 5).
    - change 32 with (2 ^ 5). rewrite Z.mul_pow2_bits_low by lia. reflexivity.
    - rewrite <- (Z.mod_small b (2 ^ 5)) by (change (2 ^ 5) with 32; lia).
      rewrite Z.mod_pow2_bits_high by lia. apply andb_false_r. }
  rewrite <- Z.lxor_lor by exact Hdisj.
  symmetry. apply Z.add_nocarry_lxor, Hdisj.
Qed.

Lemma recover_packed_register (hs ls : Z) :
  0 <= hs < 8 -> 0 <= ls < 2 ^ 21 ->
  let r40 := Z.lor (Z.land (Z.shiftl hs 5) 0xff)
                   (Z.land (Z.shiftr ls 16) 0xff) in
  Z.shiftr r40 5 = hs /\ Z.land r40 0x1f = Z.shiftr ls 16.
Proof.
  intros Hhs Hls r40. change (2 ^ 21) with 2097152 in Hls.
  assert (Hb : 0 <= Z.shiftr ls 16 < 32).
  { rewrite Z.shiftr_div_pow2 by lia. change (2 ^ 16) with 65536.
    split; [apply Z.div_pos; lia | apply Z.div_lt_upper_bound; lia]. }
  assert (Hr : r40 = hs * 32 + Z.shiftr ls 16).
  { unfold r40. rewrite Z.shiftl_mul_pow2 by lia. change (2 ^ 5) with 32.
    rewrite !land_255_small by lia. apply lor_low_bits, Hb. }
  rewrite Hr. split.
  - rewrite Z.shiftr_div_pow2 by lia. change (2 ^ 5) with 32.
    rewrite Z.div_add_l by lia. rewrite Z.div_small by exact Hb. lia.
  - change 0x1f with (Z.ones 5). rewrite Z.land_ones by lia.
    change (2 ^ 5) with 32. rewrite Z.add_comm, Z.mod_add by lia.
    apply Z.mod_small, Hb.
Qed.

Lemma recover_low_bytes (ls : Z) :
  0 <= ls < 2 ^ 21 ->
  Z.shiftr ls 16 * 65536 + Z.land (Z.shiftr ls 8) 0xff * 256
  + Z.land ls 0xff = ls.
Proof.
  intros Hls. change (2 ^ 21) with 2097152 in Hls.
  rewrite <- (recover_three_bytes ls) at 4
    by (change (2 ^ 24) with 16777216; lia).
  rewrite (land_255_small (Z.shiftr ls 16)); [reflexivity|].
  rewrite Z.shiftr_div_pow2 by lia. change (2 ^ 16) with 65536.
  split; [apply Z.div_pos; lia | apply Z.div_lt_upper_bound; lia].
Qed.

(** X10: the packing of the six dividers into the registers 25, 31..33
    and 40..48 loses nothing as long as each divider fits its field (3 bits
    for [N1_HS] and [N2_HS], 24 bits for [NC1_LS], [N31] and [N32], and the
    21 bits left over in registers 40..42 for [N2_LS]): two such sets of
    dividers with the same register list are the same. *)
Theorem divider_packing_injective
    (N1_HS NC1_LS N2_HS N2_LS N31 N32 : Z)
    (N1_HS' NC1_LS' N2_HS' N2_LS' N31' N32' : Z) :
  0 <= N1_HS < 8 -> 0 <= NC1_LS < 2 ^ 24 -> 0 <= N2_HS < 8 ->
  0 <= N2_LS < 2 ^ 21 -> 0 <= N31 < 2 ^ 24 -> 0 <= N32 < 2 ^ 24 ->
  0 <= N1_HS' < 8 -> 0 <= NC1_LS' < 2 ^ 24 -> 0 <= N2_HS' < 8 ->
  0 <= N2_LS' < 2 ^ 21 -> 0 <= N31' < 2 ^ 24 -> 0 <= N32' < 2 ^ 24 ->
  i2c_sequence_for N1_HS NC1_LS N2_HS N2_LS N31 N32
  = i2c_sequence_for N1_HS' NC1_LS' N2_HS' N2_LS' N31' N32' ->
  N1_HS = N1_HS' /\ NC1_LS = NC1_LS' /\ N2_HS = N2_HS' /\
  N2_LS = N2_LS' /\ N31 = N31' /\ N32 = N32'.
Proof.
  intros H1 H2 H3 H4 H5 H6 H1' H2' H3' H4' H5' H6' Heq.
  pose proof (f_equal (fun s => nth 2 (nth 7 s []) 0) Heq) as E25.
  pose proof (f_equal (fun s => nth 2 (nth 8 s []) 0) Heq) as E31.
  pose proof (f_equal (fun s => nth 2 (nth 9 s []) 0) Heq) as E32.
  pose proof (f_equal (fun s => nth 2 (nth 10 s []) 0) Heq) as E33.
  pose proof (f_equal (fun s => nth 2 (nth 11 s []) 0) Heq) as E40.
  pose proof (f_equal (fun s => nth 2 (nth 12 s []) 0) Heq) as E41.
  pose proof (f_equal (fun s => nth 2 (nth 13 s []) 0) Heq) as E42.
  pose proof (f_equal (fun s => nth 2 (nth 14 s []) 0) Heq) as E43.
  pose proof (f_equal (fun s => nth 2 (nth 15 s []) 0) Heq) as E44.
  pose proof (f_equal (fun s => nth 2 (nth 16 s []) 0) Heq) as E45.
  pose proof (f_equal (fun s => nth 2 (nth 17 s []) 0) Heq) as E46.
  pose proof (f_equal (fun s => nth 2 (nth 18 s []) 0) Heq) as E47.
  pose proof (f_equal (fun s => nth 2 (nth 19 s []) 0) Heq) as E48.
  cbv beta delta [i2c_sequence_for nth] iota in E25, E31, E32, E33, E40, E41,
    E42, E43, E44, E45, E46, E47, E48.
  clear Heq.
  destruct (recover_packed_register N2_HS N2_LS H3 H4) as [Ph Pl].
  destruct (recover_packed_register N2_HS' N2_LS' H3' H4') as [Ph' Pl'].
  cbv zeta in Ph, Pl, Ph', Pl'. rewrite E40 in Ph, Pl.
  repeat split.
  - rewrite <- (recover_high_field N1_HS H1), E25. apply recover_high_field, H1'.
  - rewrite <- (recover_three_bytes NC1_LS H2), E31, E32, E33.
    apply recover_three_bytes, H2'.
  - congruence.
  - rewrite <- (recover_low_bytes N2_LS H4), <- Pl, Pl', E41, E42.
    apply recover_low_bytes, H4'.
  - rewrite <- (recover_three_bytes N31 H5), E43, E44, E45.
    apply recover_three_bytes, H5'.
  - rewrite <- (recover_three_bytes N32 H6), E46, E47, E48.
    apply recover_three_bytes, H6'.
Qed.

(** Outside those ranges the packing does lose information: an
    [N1_HS] of 8 is written as 0, an [N2_LS] of [2^21] as an [N2_HS] of 1,
    and bit 24 of [NC1_LS] is dropped. *)
Example divider_packing_aliases :
  i2c_sequence_for 8 7 6 20111 2513 4596
  = i2c_sequence_for 0 7 6 20111 2513 4596 /\
  i2c_sequence_for 6 7 0 (2 ^ 21) 2513 4596
  = i2c_sequence_for 6 7 1 0 2513 4596 /\
  i2c_sequence_for 6 (2 ^ 24 + 7) 6 20111 2513 4596
  = i2c_sequence_for 6 7 6 20111 2513 4596.
Proof. repeat split; reflexivity. Qed.
(** * The channel lists of [kc705.py] and the positions in [config] *)

Section ChannelLayout.
Import RTIO KC705.

Variable p : channel -> bool.
Variables lo hi : nat.

Lemma range_only_spec (l : list channel) :
  forall k, range_only p lo hi k l = true ->
  forall i c, nth_error l i = Some c ->
    (p c = true <-> (lo <= k + i < hi)%nat).
Proof.
  induction l as [|a l IH]; intros k H i c Hn.
  - destruct i; discriminate.
  - cbn [range_only] in H. apply andb_true_iff in H as [Ha Hl].
    destruct i as [|i]; cbn [nth_error] in Hn.
    + injection Hn as <-. apply Bool.eqb_prop in Ha. rewrite Ha.
      rewrite andb_true_iff, Nat.leb_le, Nat.ltb_lt, Nat.add_0_r.
      reflexivity.
    + rewrite (IH (S k) Hl i c Hn). rewrite Nat.add_succ_r. reflexivity.
Qed.

Lemma range_only_app (a b : list channel) :
  forall k, range_only p lo hi k (a ++ b)
            = range_only p lo hi k a
              && range_only p lo hi (k + length a) b.
Proof.
  induction a as [|c a IH]; intros k; cbn [app range_only length].
  - rewrite Nat.add_0_r. reflexivity.
  - rewrite IH, Nat.add_succ_r, andb_assoc. reflexivity.
Qed.

Lemma range_only_inside (l : list channel) :
  (forall c, In c l -> p c = true) ->
  forall k, (lo <= k)%nat -> (k + length l <= hi)%nat ->
  range_only p lo hi k l = true.
Proof.
  induction l as [|c l IH]; intros Hp k Hlo Hhi; [reflexivity|].
  cbn [range_only length] in *. rewrite (Hp c (or_introl eq_refl)).
  assert (Hk1 : (lo <=? k)%nat = true) by (apply Nat.leb_le; lia).
  assert (Hk2 : (k <? hi)%nat = true) by (apply Nat.ltb_lt; lia).
  rewrite Hk1, Hk2. cbn [andb Bool.eqb].
  apply IH; [intros c' Hc'; apply Hp; right; exact Hc' | lia | lia].
Qed.

Lemma range_only_outside (l : list channel) :
  (forall c, In c l -> p c = false) ->
  forall k, (hi <= k \/ k + length l <= lo)%nat ->
  range_only p lo hi k l = true.
Proof.
  induction l as [|c l IH]; intros Hp k Hk; [reflexivity|].
  cbn [range_only length] in *. rewrite (Hp c (or_introl eq_refl)).
  assert (Hout : ((lo <=? k) && (k <? hi))%nat = false).
  { apply andb_false_iff. destruct Hk as [Hk|Hk].
    - right. apply Nat.ltb_ge. lia.
    - left. apply Nat.leb_gt. lia. }
  rewrite Hout. cbn [andb Bool.eqb].
  apply IH; [intros c' Hc'; apply Hp; right; exact Hc' | lia].
Qed.

End ChannelLayout.

Section Adapters.
Import RTIO KC705.

(** The channels [Phaser] appends for the SAWG cores. *)
Lemma sawg_channels_are_sawg (sawg_phys : nat -> nat) (sawgs : list nat)
    (c : channel) :
  In c (flat_map (fun sawg =>
                    map (fun phy => from_phy (SAWG sawg phy) None None)
                        (seq 0 (sawg_phys sawg))) sawgs) ->
  exists sawg phy, c = from_phy (SAWG sawg phy) None None.
Proof.
  rewrite in_flat_map. intros (sawg & _ & Hc).
  apply in_map_iff in Hc as (phy & <- & _). eauto.
Qed.

Lemma built_nist_inv (ratio : Z) (w : N) (soc soc' : SoC) :
  set_clk_ratio ratio w soc = Some soc' ->
  (w <= 3)%N /\
  rtio_channels soc' = rtio_channels soc /\
  config soc' = setitem (config soc) DDS_RTIO_CLK_RATIO
                  (VInt (Z.shiftr ratio (Z.of_N w))).
Proof.
  unfold set_clk_ratio. destruct (N.leb_spec w 3); [|discriminate].
  intros [= <-]. auto.
Qed.

Ltac nist_built H :=
  match type of H with
  | ?adapter _ _ = Some _ =>
      unfold adapter in H; apply built_nist_inv in H as (_ & Hch & Hcfg);
      rewrite Hch, Hcfg; clear Hch Hcfg
  end.

Ltac positions p lo hi :=
  let i := fresh "i" in
  let c := fresh "c" in
  let Hn := fresh "Hn" in
  intros i c Hn;
  match type of Hn with
  | nth_error ?l i = Some c =>
      let Hr := fresh "Hr" in
      assert (Hr : range_only p lo hi 0 l = true) by (vm_compute; reflexivity);
      rewrite (range_only_spec p lo hi l 0 Hr i c Hn); cbn [Nat.add]
  end.

Ltac each_channel Hn :=
  repeat (destruct Hn as [<-|Hn];
          [split;
           [intros chip nchannels Hc; cbn in Hc;
            first [discriminate Hc
                  | injection Hc as <- <-; split; reflexivity]
           |intros Ho; first [discriminate Ho | reflexivity]]|]);
  contradiction.

(** X11: in every design the four adapter classes can produce, whatever
    the base configuration, the fine timestamp width and the number of SAWG
    PHYs, [RTIO_LOG_CHANNEL] is the index of the last channel, and that
    channel is the only log channel of the list. *)
Theorem log_channel_is_last (config0 : dict) (w : N) (soc : SoC) :
  built config0 w soc ->
  exists n : nat,
    getitem (config soc) RTIO_LOG_CHANNEL = Some (VInt (Z.of_nat n)) /\
    length (rtio_channels soc) = S n /\
    forall i c, nth_error (rtio_channels soc) i = Some c ->
      (is_log c = true <-> i = n).
Proof.
  intros [s H|s H|s H|sawg_phys].
  - nist_built H. exists 21%nat. split; [reflexivity|]. split; [reflexivity|].
    positions is_log 21%nat 22%nat. lia.
  - nist_built H. exists 27%nat. split; [reflexivity|]. split; [reflexivity|].
    positions is_log 27%nat 28%nat. lia.
  - nist_built H. exists 52%nat. split; [reflexivity|]. split; [reflexivity|].
    positions is_log 52%nat 53%nat. lia.
  - unfold Phaser, add_rtio. cbn [rtio_channels config app].
    set (sawgs := flat_map _ _).
    exists (3 + length sawgs)%nat.
    split; [reflexivity|]. split; [cbn [length]; rewrite length_app; cbn; lia|].
    intros i c Hn.
    match type of Hn with
    | nth_error ?l i = Some c =>
        assert (Hr : range_only is_log (3 + length sawgs) (4 + length sawgs)
                       0 l = true)
    end.
    { cbn [range_only is_log Bool.eqb Nat.leb Nat.add andb].
      rewrite range_only_app. apply andb_true_iff. split.
      - apply range_only_outside; [|lia].
        intros c' (sawg & phy & ->)%sawg_channels_are_sawg. reflexivity.
      - cbn [range_only is_log].
        assert (H1 : (3 + length sawgs <=? 3 + length sawgs)%nat = true)
          by (apply Nat.leb_le; lia).
        assert (H2 : (3 + length sawgs <? 4 + length sawgs)%nat = true)
          by (apply Nat.ltb_lt; lia).
        cbn [Nat.add] in *. rewrite H1, H2. reflexivity. }
    rewrite (range_only_spec _ _ _ _ 0 Hr i c Hn). cbn [Nat.add]. lia.
Qed.

(** X12: in every design of the four adapters the channels counted by
    [RTIO_REGULAR_TTL_COUNT] are exactly the TTL input/output channels:
    every index below the count holds one, and no channel at or above it
    does (clock generators, SPI, DDS, SAWG and log channels come after). *)
Theorem regular_ttls_are_the_prefix (config0 : dict) (w : N) (soc : SoC) :
  built config0 w soc ->
  exists n : nat,
    getitem (config soc) RTIO_REGULAR_TTL_COUNT = Some (VInt (Z.of_nat n)) /\
    forall i c, nth_error (rtio_channels soc) i = Some c ->
      (is_ttl c = true <-> (i < n)%nat).
Proof.
  intros [s H|s H|s H|sawg_phys].
  - nist_built H. exists 19%nat. split; [reflexivity|].
    positions is_ttl 0%nat 19%nat. lia.
  - nist_built H. exists 21%nat. split; [reflexivity|].
    positions is_ttl 0%nat 21%nat. lia.
  - nist_built H. exists 43%nat. split; [reflexivity|].
    positions is_ttl 0%nat 43%nat. lia.
  - unfold Phaser, add_rtio. cbn [rtio_channels config app].
    set (sawgs := flat_map _ _).
    exists 3%nat. split; [reflexivity|].
    intros i c Hn.
    match type of Hn with
    | nth_error ?l i = Some c =>
        assert (Hr : range_only is_ttl 0 3 0 l = true)
    end.
    { cbn [range_only is_ttl Bool.eqb Nat.leb Nat.ltb andb].
      rewrite range_only_app. apply andb_true_iff. split.
      - apply range_only_outside; [|lia].
        intros c' (sawg & phy & ->)%sawg_channels_are_sawg. reflexivity.
      - reflexivity. }
    rewrite (range_only_spec _ _ _ _ 0 Hr i c Hn). cbn [Nat.add]. lia.
Qed.

(** X13: in the three NIST adapters the DDS channels are exactly the
    [RTIO_DDS_COUNT] channels from [RTIO_FIRST_DDS_CHANNEL] on, and each
    of them was built for the chip, the number of channels per bus and the
    one-hot selection that the configuration announces. *)
Theorem dds_channels_as_configured (config0 : dict) (w : N) (soc : SoC) :
  NIST_QC1 config0 w = Some soc \/ NIST_CLOCK config0 w = Some soc \/
  NIST_QC2 config0 w = Some soc ->
  exists first count : nat,
    getitem (config soc) RTIO_FIRST_DDS_CHANNEL
    = Some (VInt (Z.of_nat first)) /\
    getitem (config soc) RTIO_DDS_COUNT = Some (VInt (Z.of_nat count)) /\
    forall i c, nth_error (rtio_channels soc) i = Some c ->
      (is_dds c = true <-> (first <= i < first + count)%nat) /\
      (forall chip nchannels,
         dds_chip c = Some (chip, nchannels) ->
         getitem (config soc) chip = Some (VBool true) /\
         getitem (config soc) DDS_CHANNELS_PER_BUS = Some (VInt nchannels)) /\
      (dds_onehot c = true ->
       getitem (config soc) DDS_ONEHOT_SEL = Some (VBool true)).
Proof.
  intros [H|[H|H]].
  - nist_built H. exists 20%nat, 1%nat. split; [reflexivity|].
    split; [reflexivity|]. intros i c Hn. split.
    + revert i c Hn. positions is_dds 20%nat 21%nat. lia.
    + apply nth_error_In in Hn. cbv in Hn. each_channel Hn.
  - nist_built H. exists 26%nat, 1%nat. split; [reflexivity|].
    split; [reflexivity|]. intros i c Hn. split.
    + revert i c Hn. positions is_dds 26%nat 27%nat. lia.
    + apply nth_error_In in Hn. cbv in Hn. each_channel Hn.
  - nist_built H. exists 50%nat, 2%nat. split; [reflexivity|].
    split; [reflexivity|]. intros i c Hn. split.
    + revert i c Hn. positions is_dds 50%nat 52%nat. lia.
    + apply nth_error_In in Hn. cbv in Hn. each_channel Hn.
Qed.

(** X14: in [NIST_CLOCK] and [NIST_QC2] the channels between the regular
    TTLs and [RTIO_FIRST_SPI_CHANNEL] are exactly the clock generators (in
    [NIST_QC2] they are created before the last TTLs and appended after the
    count), and the SPI channels are exactly those from
    [RTIO_FIRST_SPI_CHANNEL] up to [RTIO_FIRST_DDS_CHANNEL]. *)
Theorem clock_generators_and_spi_in_order
    (config0 : dict) (w : N) (soc : SoC) :
  NIST_CLOCK config0 w = Some soc \/ NIST_QC2 config0 w = Some soc ->
  exists ttls spi dds : nat,
    getitem (config soc) RTIO_REGULAR_TTL_COUNT
    = Some (VInt (Z.of_nat ttls)) /\
    getitem (config soc) RTIO_FIRST_SPI_CHANNEL
    = Some (VInt (Z.of_nat spi)) /\
    getitem (config soc) RTIO_FIRST_DDS_CHANNEL
    = Some (VInt (Z.of_nat dds)) /\
    (ttls < spi < dds)%nat /\
    forall i c, nth_error (rtio_channels soc) i = Some c ->
      (is_clockgen c = true <-> (ttls <= i < spi)%nat) /\
      (is_spi c = true <-> (spi <= i < dds)%nat).
Proof.
  intros [H|H].
  - nist_built H. exists 21%nat, 22%nat, 26%nat.
    repeat (split; [reflexivity || lia|]). intros i c Hn. split.
    + revert i c Hn. positions is_clockgen 21%nat 22%nat. lia.
    + revert i c Hn. positions is_spi 22%nat 26%nat. lia.
  - nist_built H. exists 43%nat, 45%nat, 50%nat.
    repeat (split; [reflexivity || lia|]). intros i c Hn. split.
    + revert i c Hn. positions is_clockgen 43%nat 45%nat. lia.
    + revert i c Hn. positions is_spi 45%nat 50%nat. lia.
Qed.

Lemma nth_error_after {A : Type} (a b : list A) (k : nat) :
  nth_error (a ++ b) (length a + k) = nth_error b k.
Proof.
  rewrite nth_error_app2 by lia. f_equal. lia.
Qed.

Lemma nth_error_flat_map_seq {A : Type} (f : nat -> list A)
    (size : nat -> nat) :
  (forall j, length (f j) = size j) ->
  forall n s j k, (j < n)%nat -> (k < size (s + j))%nat ->
  nth_error (flat_map f (seq s n))
            (fold_right Nat.add 0%nat (map size (seq s j)) + k)
  = nth_error (f (s + j)%nat) k.
Proof.
  intros Hsize. induction n as [|n IH]; intros s j k Hj Hk; [lia|].
  cbn [seq flat_map]. destruct j as [|j].
  - cbn [seq map fold_right Nat.add]. rewrite Nat.add_0_r in *.
    apply nth_error_app1. rewrite Hsize. exact Hk.
  - cbn [seq map fold_right]. rewrite <- Nat.add_assoc, <- (Hsize s).
    rewrite nth_error_after.
    rewrite Nat.add_succ_r in *. apply (IH (S s) j k); [lia | exact Hk].
Qed.

Lemma nth_error_map_seq {A : Type} (f : nat -> A) (n k : nat) :
  (k < n)%nat -> nth_error (map f (seq 0 n)) k = Some (f k).
Proof.
  intros Hk. rewrite nth_error_map, nth_error_seq.
  destruct (Nat.ltb_spec k n); [reflexivity | lia].
Qed.

(** X15: [Phaser] with any numbers of PHYs in its four SAWG cores:
    [RTIO_FIRST_SAWG_CHANNEL] is 3, the PHY [phy] of [sawgs[sawg]] is the
    channel at 3 plus the PHYs of the cores before it plus [phy], the SAWG
    channels are exactly those from 3 up to [RTIO_LOG_CHANNEL], and the two
    chip selects of the AD9154 are different bits. *)
Theorem phaser_sawg_channels (sawg_phys : nat -> nat) (config0 : dict)
    (w : N) :
  let soc := Phaser sawg_phys config0 w in
  let before sawg := fold_right Nat.add 0%nat (map sawg_phys (seq 0 sawg)) in
  getitem (config soc) RTIO_FIRST_SAWG_CHANNEL = Some (VInt 3) /\
  getitem (config soc) RTIO_LOG_CHANNEL
  = Some (VInt (Z.of_nat (3 + before 4%nat))) /\
  (forall sawg phy, (sawg < 4)%nat -> (phy < sawg_phys sawg)%nat ->
     nth_error (rtio_channels soc) (3 + before sawg + phy)
     = Some (from_phy (SAWG sawg phy) None None)) /\
  (forall i c, nth_error (rtio_channels soc) i = Some c ->
     (is_sawg c = true <-> (3 <= i < 3 + before 4)%nat)) /\
  (exists dac clk,
     getitem (config soc) AD9154_DAC_CS = Some (VInt dac) /\
     getitem (config soc) AD9154_CLK_CS = Some (VInt clk) /\
     Z.land dac clk = 0 /\ dac <> 0 /\ clk <> 0).
Proof.
  intros soc before. unfold soc, Phaser, add_rtio.
  cbn [rtio_channels config app].
  set (sawgs := flat_map _ _).
  assert (Hlen : length sawgs = before 4%nat).
  { unfold sawgs, before. cbn [seq flat_map map fold_right].
    rewrite !length_app, !length_map, !length_seq. reflexivity. }
  split; [reflexivity|]. split.
  { cbn [getitem setitem]. unfold len. cbn [length]. rewrite Hlen.
    reflexivity. }
  split.
  { intros sawg phy Hs Hp.
    change (from_phy ?a ?b ?c :: from_phy ?d ?e ?f :: from_phy ?g ?h ?k
              :: sawgs ++ [LogChannel])
      with ([from_phy a b c; from_phy d e f; from_phy g h k]
              ++ sawgs ++ [LogChannel]).
    rewrite <- Nat.add_assoc.
    rewrite (nth_error_after [_; _; _]).
    unfold sawgs, before.
    assert (Hsize : forall j,
              length (map (fun phy => from_phy (SAWG j phy) None None)
                          (seq 0 (sawg_phys j))) = sawg_phys j)
      by (intros j; rewrite length_map, length_seq; reflexivity).
    pose proof (nth_error_flat_map_seq _ sawg_phys Hsize
                  4%nat 0%nat sawg phy Hs Hp) as Hnth.
    cbn [Nat.add] in Hnth.
    rewrite nth_error_app1.
    - rewrite Hnth.
      apply (nth_error_map_seq
               (fun phy => from_phy (SAWG sawg phy) None None)), Hp.
    - apply nth_error_Some. rewrite Hnth.
      rewrite (nth_error_map_seq
                 (fun phy => from_phy (SAWG sawg phy) None None) _ _ Hp).
      discriminate. }
  split.
  { intros i c Hn.
    match type of Hn with
    | nth_error ?l i = Some c =>
        assert (Hr : range_only is_sawg 3 (3 + before 4%nat) 0 l = true)
    end.
    { cbn [range_only is_sawg Bool.eqb Nat.leb andb].
      rewrite range_only_app. apply andb_true_iff. split.
      - apply range_only_inside; [|lia|lia].
        intros c' (sawg & phy & ->)%sawg_channels_are_sawg. reflexivity.
      - cbn [range_only is_sawg].
        assert (H1 : (3 + length sawgs <? 3 + before 4)%nat = false)
          by (apply Nat.ltb_ge; lia).
        cbn [Nat.add] in *. rewrite H1, andb_false_r. reflexivity. }
    rewrite (range_only_spec _ _ _ _ 0 Hr i c Hn). cbn [Nat.add]. lia. }
  exists 1, 2. repeat split; try reflexivity; discriminate.
Qed.

(** X16: the closing lines of the NIST adapters.  The assertion lets a
    design through exactly when the fine timestamp width is at most 3, and
    that is exactly when the shift loses nothing: the recorded
    [DDS_RTIO_CLK_RATIO], multiplied back by [2 ^ fine_ts_width], is the 8
    of [NIST_QC1] or the 24 of [NIST_CLOCK] and [NIST_QC2], and it is at
    least 1. *)
Theorem clk_ratio_is_exact (config0 : dict) (w : N) :
  ((w <= 3)%N <->
   exists soc, NIST_QC1 config0 w = Some soc) /\
  ((w <= 3)%N <-> exists soc, NIST_CLOCK config0 w = Some soc) /\
  ((w <= 3)%N <-> exists soc, NIST_QC2 config0 w = Some soc) /\
  ((w <= 3)%N <-> Z.shiftr 8 (Z.of_N w) * 2 ^ Z.of_N w = 8) /\
  ((w <= 3)%N <-> Z.shiftr 24 (Z.of_N w) * 2 ^ Z.of_N w = 24) /\
  (forall soc,
     NIST_QC1 config0 w = Some soc ->
     getitem (config soc) RTIO_FINE_TS_WIDTH = Some (VInt (Z.of_N w)) /\
     exists ratio,
       getitem (config soc) DDS_RTIO_CLK_RATIO = Some (VInt ratio) /\
       1 <= ratio /\ ratio * 2 ^ Z.of_N w = 8) /\
  (forall soc,
     NIST_CLOCK config0 w = Some soc \/ NIST_QC2 config0 w = Some soc ->
     getitem (config soc) RTIO_FINE_TS_WIDTH = Some (VInt (Z.of_N w)) /\
     exists ratio,
       getitem (config soc) DDS_RTIO_CLK_RATIO = Some (VInt ratio) /\
       3 <= ratio /\ ratio * 2 ^ Z.of_N w = 24).
Proof.
  assert (Hsmall : (w <= 3)%N -> w = 0%N \/ w = 1%N \/ w = 2%N \/ w = 3%N)
    by lia.
  assert (Hbig : forall r, 0 <= r < 32 -> ~ (w <= 3)%N ->
                 Z.shiftr r (Z.of_N w) * 2 ^ Z.of_N w = r -> r = 0 \/ r = 16).
  { intros r Hr Hw. rewrite Z.shiftr_div_pow2 by lia.
    assert (H16 : 2 ^ 4 <= 2 ^ Z.of_N w)
      by (apply Z.pow_le_mono_r; lia).
    change (2 ^ 4) with 16 in H16.
    destruct (Z.eq_dec (Z.of_N w) 4) as [E|E].
    - rewrite E. change (2 ^ 4) with 16.
      pose proof (Z.div_mod r 16 ltac:(lia)).
      pose proof (Z.mod_pos_bound r 16 ltac:(lia)).
      assert (r / 16 = 0 \/ r / 16 = 1).
      { assert (0 <= r / 16 < 2)
          by (split; [apply Z.div_pos; lia
                     | apply Z.div_lt_upper_bound; lia]).
        lia. }
      lia.
    - assert (H32 : 2 ^ 5 <= 2 ^ Z.of_N w)
        by (apply Z.pow_le_mono_r; lia).
      change (2 ^ 5) with 32 in H32.
      rewrite Z.div_small by lia. lia. }
  assert (Hbuild : forall ratio soc,
            (w <= 3)%N <-> exists soc', set_clk_ratio ratio w soc = Some soc').
  { intros ratio soc. unfold set_clk_ratio.
    destruct (N.leb_spec w 3); split; eauto; try lia.
    intros [? [=]]. }
  split; [apply Hbuild|]. split; [apply Hbuild|]. split; [apply Hbuild|].
  split.
  { split.
    - intros [->|[->|[->| ->]]]%Hsmall; reflexivity.
    - intros H. destruct (N.leb_spec w 3) as [|Hw]; [assumption|].
      destruct (Hbig 8 ltac:(lia) ltac:(lia) H); lia. }
  split.
  { split.
    - intros [->|[->|[->| ->]]]%Hsmall; reflexivity.
    - intros H. destruct (N.leb_spec w 3) as [|Hw]; [assumption|].
      destruct (Hbig 24 ltac:(lia) ltac:(lia) H); lia. }
  split.
  - intros soc H. unfold NIST_QC1 in H.
    apply built_nist_inv in H as (Hw & _ & Hcfg). rewrite Hcfg.
    split; [reflexivity|]. eexists. split; [reflexivity|].
    destruct (Hsmall Hw) as [->|[->|[->| ->]]]; split;
      first [reflexivity | vm_compute; discriminate].
  - intros soc [H|H]; [unfold NIST_CLOCK in H | unfold NIST_QC2 in H];
      apply built_nist_inv in H as (Hw & _ & Hcfg); rewrite Hcfg;
      (split; [reflexivity|]); eexists; (split; [reflexivity|]);
      destruct (Hsmall Hw) as [->|[->|[->| ->]]]; split;
      first [reflexivity | vm_compute; discriminate].
Qed.
End Adapters.
(** * What [Satellite.__init__] accepts and assembles *)

Section SatelliteConstruct.
Context {regs : I2CRegisters}.
Import RTIO SatelliteTarget.

Variable Platform_raises : String.string -> bool.

Ltac by_string s :=
  match goal with
  | |- context [String.eqb s ?lit] =>
      destruct (String.eqb_spec s lit) as [->|?]
  end.

(** X17: every outcome of [Satellite.__init__] on three strings, whatever
    toolchain names the platform accepts.  It ends in the platform's
    exception exactly when the platform refuses the toolchain; otherwise in
    ValueError exactly when the medium is neither sfp nor sma, or the
    medium is one of them and the configuration is neither simple_gbe nor
    sawg_3g; otherwise in AttributeError exactly for sawg_3g, which
    therefore never builds; and it assembles a design exactly for
    simple_gbe on sfp or sma.  The float conversions and the counter
    assertions never fail at the fixed 156 MHz.  An assembled design has
    ten RTIO channels, all TTL, the sequencer program compiled for 156 MHz
    (its first instruction writes 156000 to the configuration register),
    the reset gate with counters 171 and 1 716 000, the SFP transmitter
    enabled exactly for the sfp medium, and the 1000BASE-BX10 transceiver
    at 156 MHz with the halved clock. *)
Theorem Satellite_construct_cases (cfg medium toolchain : String.string) :
  match Satellite_construct Platform_raises cfg medium toolchain with
  | inr design =>
      Platform_raises toolchain = false /\
      toolchain_name design = toolchain /\
      (medium = sfp \/ medium = sma) /\
      cfg = simple_gbe /\
      get_i2c_program 156000000 = Some (sequencer_program design) /\
      nth_error (sequencer_program design) 0
      = Some (InstWrite I2C_CONFIG_ADDR 156000) /\
      Si5324ResetClock_init 156000000 = Some (si5324_reset_clock design) /\
      si5324_reset_clock design = gate_init 171 1716000 /\
      length (rtio_channels design) = 10%nat /\
      (forall c, In c (rtio_channels design) -> is_ttl c = true) /\
      (sfp_tx_disable_n design = Some true <-> medium = sfp) /\
      match the_transceiver design with
      | GTX_1000BASE_BX10 _ _ _ f clock_div2 =>
          f = 156000000 /\ clock_div2 = true
      end
  | inl PlatformError => Platform_raises toolchain = true
  | inl ValueError =>
      Platform_raises toolchain = false /\
      (~ (medium = sfp \/ medium = sma) \/
       (cfg <> simple_gbe /\ cfg <> sawg_3g))
  | inl AttributeError =>
      Platform_raises toolchain = false /\
      (medium = sfp \/ medium = sma) /\ cfg = sawg_3g
  | inl OverflowError | inl AssertionError => False
  end.
Proof.
  assert (Hkhz : PyFloat.int_div sys_clk_freq PyFloat.lit_1e3 = Some 156000)
    by (vm_compute; reflexivity).
  assert (Hprog : get_i2c_program 156000000
                  = Some (InstWrite I2C_CONFIG_ADDR 156000
                            :: flat_map transaction i2c_sequence ++ [InstEnd])).
  { rewrite get_i2c_program_flat. fold sys_clk_freq. rewrite Hkhz.
    reflexivity. }
  assert (Hgate : Si5324ResetClock_init 156000000
                  = Some (gate_init 171 1716000)) by (vm_compute; reflexivity).
  unfold Satellite_construct. fold sys_clk_freq in Hprog, Hgate.
  rewrite Hprog, Hgate.
  destruct (Platform_raises toolchain) eqn:Hplatform; [reflexivity|].
  unfold sfp, sma, simple_gbe, sawg_3g.
  by_string medium; [|by_string medium]; cbv zeta beta iota;
    try (by_string cfg; [|by_string cfg]); cbv zeta beta iota;
    cbn [toolchain_name sequencer_program rtio_channels sfp_tx_disable_n
         si5324_reset_clock the_transceiver];
    repeat match goal with
           | |- _ /\ _ => split
           | |- _ <-> _ => split
           end;
    try reflexivity;
    try (intros c Hc; cbv in Hc;
         repeat (destruct Hc as [<-|Hc]; [reflexivity|]); contradiction);
    auto; try discriminate; try tauto.
Qed.

End SatelliteConstruct.
(** * Closed instances of the further properties *)

Lemma reset_val_floor_or_ceiling_sample :
  0 < 156000000 < 2 ^ 53 /\
  reset_val 156000000 = Some 171 /\
  156000000 * 11 / 10000000 <= 171 <= spec_ceil 156000000 11 10000000.
Proof.
  assert (Hf : 0 < 156000000 < 2 ^ 53) by (split; reflexivity).
  assert (HR : reset_val 156000000 = Some 171) by (vm_compute; reflexivity).
  split; [exact Hf|]. split; [exact HR|].
  exact (reset_val_floor_or_ceiling 156000000 171 Hf HR).
Defined.

Lemma ready_val_near_ceiling_sample :
  0 < 2869000 < 2 ^ 53 /\
  ready_val 2869000 = Some 31558 /\
  2869000 * 11 / 1000 - 1 <= 31558 <= spec_ceil 2869000 11 1000 /\
  (2869000 < 2 ^ 50 -> spec_ceil 2869000 11 1000 - 1 <= 31558).
Proof.
  assert (Hf : 0 < 2869000 < 2 ^ 53) by (split; reflexivity).
  assert (HS : ready_val 2869000 = Some 31558) by (vm_compute; reflexivity).
  split; [exact Hf|]. split; [exact HS|].
  exact (ready_val_near_ceiling 2869000 31558 Hf HS).
Defined.

Lemma reset_pulse_long_enough_sample :
  0 < 156000000 < 2 ^ 53 /\
  Si5324ResetClock_init 156000000 = Some (gate_init 171 1716000) /\
  exists R,
    reset_val 156000000 = Some R /\
    (forall n, si5324_rst_n (N.iter n gate_tick (gate_init 171 1716000))
               = false <-> Z.of_N n <= R) /\
    spec_ceil 156000000 11 10000000 <= R + 1 /\
    11 * 156000000 < 10000000 * (R + 1).
Proof.
  assert (Hf : 0 < 156000000 < 2 ^ 53) by (split; reflexivity).
  assert (Hg : Si5324ResetClock_init 156000000
               = Some (gate_init 171 1716000)) by (vm_compute; reflexivity).
  split; [exact Hf|]. split; [exact Hg|].
  exact (reset_pulse_long_enough 156000000 _ Hf Hg).
Defined.

Lemma settle_long_enough_sample :
  0 < 1000000 < 2 ^ 53 /\
  Si5324ResetClock_init 1000000 = Some (gate_init 1 11000) /\
  si5324_rst_n (N.iter 1 gate_tick (gate_init 1 11000)) = false /\
  si5324_not_ready (N.iter 11003 gate_tick (gate_init 1 11000)) = false /\
  (1 < 11003)%N /\
  1000000 < 100 * (Z.of_N 11003 - Z.of_N 1 - 1) /\
  (1000000 < 2 ^ 50 -> 11 * 1000000 <= 1000 * (Z.of_N 11003 - Z.of_N 1 - 1)).
Proof.
  assert (Hf : 0 < 1000000 < 2 ^ 53) by (split; reflexivity).
  assert (Hg : Si5324ResetClock_init 1000000 = Some (gate_init 1 11000))
    by (vm_compute; reflexivity).
  assert (Hn : si5324_rst_n (N.iter 1 gate_tick (gate_init 1 11000)) = false)
    by reflexivity.
  assert (Hm : si5324_not_ready (N.iter 11003 gate_tick (gate_init 1 11000))
               = false) by (vm_compute; reflexivity).
  split; [exact Hf|]. split; [exact Hg|]. split; [exact Hn|].
  split; [exact Hm|].
  exact (settle_long_enough 1000000 _ 1 11003 Hf Hg Hn Hm).
Defined.

Lemma config_write_is_khz_sample :
  0 < 156000000 < 1000 * 2 ^ 43 /\
  exists p,
    get_i2c_program (regs := sample_regs) 156000000 = Some p /\
    nth_error p 0 = Some (InstWrite 1 (156000000 / 1000)).
Proof.
  assert (Hf : 0 < 156000000 < 1000 * 2 ^ 43) by (split; reflexivity).
  split; [exact Hf|].
  exact (config_write_is_khz (regs := sample_regs) 156000000 Hf).
Defined.

Lemma program_ends_only_at_the_end_sample :
  get_i2c_program (regs := sample_regs) 156000000 = Some sample_program /\
  (nth_error sample_program 219 = Some InstEnd <-> 219%nat = 219%nat) /\
  ((219 < 219)%nat ->
   exists instruction,
     nth_error sample_program 219 = Some instruction /\
     instruction <> InstEnd).
Proof.
  assert (Hp : get_i2c_program (regs := sample_regs) 156000000
               = Some sample_program) by (vm_compute; reflexivity).
  split; [exact Hp|].
  exact (program_ends_only_at_the_end (regs := sample_regs)
           156000000 sample_program 219 Hp).
Defined.

Lemma write_command_keeps_octet_sample :
  Z.land (Z.shiftl 1 10) 0xff = 0 /\
  get_i2c_program (regs := sample_regs) 156000000 = Some sample_program /\
  In [Z.shiftl 0x68 1; 136; 0x40] i2c_sequence /\
  In 0x40 [Z.shiftl 0x68 1; 136; 0x40] /\
  In (InstWrite 0 (Z.lor (Z.shiftl 1 10) 0x40)) sample_program /\
  Z.land (Z.lor (Z.shiftl 1 10) 0x40) 0xff = 0x40 /\
  Z.shiftr (Z.lor (Z.shiftl 1 10) 0x40) 8 = Z.shiftr (Z.shiftl 1 10) 8.
Proof.
  assert (HW : Z.land (Z.shiftl 1 10) 0xff = 0) by reflexivity.
  assert (Hp : get_i2c_program (regs := sample_regs) 156000000
               = Some sample_program) by (vm_compute; reflexivity).
  assert (Hs : In [Z.shiftl 0x68 1; 136; 0x40] i2c_sequence)
    by (do 21 right; left; reflexivity).
  assert (Ho : In 0x40 [Z.shiftl 0x68 1; 136; 0x40])
    by (right; right; left; reflexivity).
  split; [exact HW|]. split; [exact Hp|]. split; [exact Hs|].
  split; [exact Ho|].
  exact (write_command_keeps_octet (regs := sample_regs)
           156000000 sample_program _ 0x40 HW Hp Hs Ho).
Defined.

Lemma divider_packing_injective_sample :
  (0 <= 6 < 8 /\ 0 <= 7 < 2 ^ 24 /\ 0 <= 20111 < 2 ^ 21 /\
   0 <= 2513 < 2 ^ 24 /\ 0 <= 4596 < 2 ^ 24) /\
  i2c_sequence_for 6 7 6 20111 2513 4596 = i2c_sequence /\
  (6 = N1_HS /\ 7 = NC1_LS /\ 6 = N2_HS /\ 20111 = N2_LS /\ 2513 = N31 /\
   4596 = N32).
Proof.
  assert (H3 : 0 <= 6 < 8) by lia.
  assert (H24a : 0 <= 7 < 2 ^ 24) by (split; [lia | reflexivity]).
  assert (H21 : 0 <= 20111 < 2 ^ 21) by (split; [lia | reflexivity]).
  assert (H24b : 0 <= 2513 < 2 ^ 24) by (split; [lia | reflexivity]).
  assert (H24c : 0 <= 4596 < 2 ^ 24) by (split; [lia | reflexivity]).
  assert (Heq : i2c_sequence_for 6 7 6 20111 2513 4596 = i2c_sequence)
    by reflexivity.
  split; [auto 6|]. split; [exact Heq|].
  exact (divider_packing_injective 6 7 6 20111 2513 4596
           N1_HS NC1_LS N2_HS N2_LS N31 N32
           H3 H24a H3 H21 H24b H24c H3 H24a H3 H21 H24b H24c Heq).
Defined.

Section AdapterSamples.
Import RTIO KC705.

Lemma log_channel_is_last_sample :
  built [] 3 sample_phaser /\
  exists n : nat,
    getitem (config sample_phaser) RTIO_LOG_CHANNEL
    = Some (VInt (Z.of_nat n)) /\
    length (rtio_channels sample_phaser) = S n /\
    forall i c, nth_error (rtio_channels sample_phaser) i = Some c ->
      (is_log c = true <-> i = n).
Proof.
  assert (Hb : built [] 3 sample_phaser) by apply built_phaser.
  split; [exact Hb|].
  exact (log_channel_is_last [] 3 sample_phaser Hb).
Defined.

Lemma regular_ttls_are_the_prefix_sample :
  built [] 3 sample_clock /\
  exists n : nat,
    getitem (config sample_clock) RTIO_REGULAR_TTL_COUNT
    = Some (VInt (Z.of_nat n)) /\
    forall i c, nth_error (rtio_channels sample_clock) i = Some c ->
      (is_ttl c = true <-> (i < n)%nat).
Proof.
  assert (Hb : built [] 3 sample_clock)
    by (apply built_clock; vm_compute; reflexivity).
  split; [exact Hb|].
  exact (regular_ttls_are_the_prefix [] 3 sample_clock Hb).
Defined.

Lemma dds_channels_as_configured_sample :
  NIST_QC2 [] 3 = Some sample_qc2 /\
  exists first count : nat,
    getitem (config sample_qc2) RTIO_FIRST_DDS_CHANNEL
    = Some (VInt (Z.of_nat first)) /\
    getitem (config sample_qc2) RTIO_DDS_COUNT
    = Some (VInt (Z.of_nat count)) /\
    forall i c, nth_error (rtio_channels sample_qc2) i = Some c ->
      (is_dds c = true <-> (first <= i < first + count)%nat) /\
      (forall chip nchannels,
         dds_chip c = Some (chip, nchannels) ->
         getitem (config sample_qc2) chip = Some (VBool true) /\
         getitem (config sample_qc2) DDS_CHANNELS_PER_BUS
         = Some (VInt nchannels)) /\
      (dds_onehot c = true ->
       getitem (config sample_qc2) DDS_ONEHOT_SEL = Some (VBool true)).
Proof.
  assert (Hb : NIST_QC2 [] 3 = Some sample_qc2) by (vm_compute; reflexivity).
  split; [exact Hb|].
  exact (dds_channels_as_configured [] 3 sample_qc2
           (or_intror (or_intror Hb))).
Defined.

Lemma clock_generators_and_spi_in_order_sample :
  NIST_QC2 [] 3 = Some sample_qc2 /\
  exists ttls spi dds : nat,
    getitem (config sample_qc2) RTIO_REGULAR_TTL_COUNT
    = Some (VInt (Z.of_nat ttls)) /\
    getitem (config sample_qc2) RTIO_FIRST_SPI_CHANNEL
    = Some (VInt (Z.of_nat spi)) /\
    getitem (config sample_qc2) RTIO_FIRST_DDS_CHANNEL
    = Some (VInt (Z.of_nat dds)) /\
    (ttls < spi < dds)%nat /\
    forall i c, nth_error (rtio_channels sample_qc2) i = Some c ->
      (is_clockgen c = true <-> (ttls <= i < spi)%nat) /\
      (is_spi c = true <-> (spi <= i < dds)%nat).
Proof.
  assert (Hb : NIST_QC2 [] 3 = Some sample_qc2) by (vm_compute; reflexivity).
  split; [exact Hb|].
  exact (clock_generators_and_spi_in_order [] 3 sample_qc2 (or_intror Hb)).
Defined.

End AdapterSamples.
